(** * kikstshop: the financial aggregation and reporting core

    A shallow embedding of the derived-metric computations of
    [src/app/dashboard/page.tsx] (metrics, daily chart series, range
    filter, ledger export header, merged transaction feed, snapshot
    loader, capital entry) and of the stored procedure [create_sale]
    (the SQL migration that adds the [status] column).

    Conventions of the embedding.
    - Amounts ([price], [total_price], [total_cost], ...) are [numeric]
      values in the database and JavaScript numbers in the page.  The
      record store and the handlers that write to it are embedded on
      amounts in [Z], whole currency units; [create_sale] checks the
      ranges of its types there ([integer], [bigint], [numeric(14, 2)]).
      Module [Js] embeds [metrics] on doubles (binary64), where every
      addition rounds.  The derived figures of the page are embedded on
      [Z] as well: that is what the doubles carry on whole amounts as
      long as the running sums stay within 2^53 in absolute value
      ([metrics_on_whole_amounts]).
    - A point in time (an ISO string in the page, a [timestamptz] in the
      database) is embedded as the number of milliseconds of local
      wall-clock time since the local 1970-01-01T00:00:00.000, a [Z].
      A calendar date (a [yyyy-MM-dd] string in the page) is embedded as
      the number of the local day since 1970-01-01.
    - [Array.prototype.reduce] is [fold_left], [Array.prototype.filter]
      is [List.filter], [Array.prototype.map] is [List.map]. *)

From Stdlib Require Import Floats.PrimFloat Floats.SpecFloat Floats.FloatOps.
From Stdlib Require Import Floats.FloatAxioms.
From Stdlib Require Import ZArith List String Ascii Lia Bool.
From Stdlib Require Import Sorting.Sorted Sorting.Permutation.
From stdpp Require Import gmap strings list fin_maps pretty.

Import ListNotations.
Local Open Scope string_scope.
Local Open Scope list_scope.
Local Open Scope Z_scope.

#[local] Set Warnings "-inexact-float".

(** ** Time *)

Definition Timestamp := Z.
Definition DayNumber := Z.

Module DateFns.

Definition MS_PER_SECOND : Z := 1000.
Definition MS_PER_DAY : Z := 86400000.

(** The local calendar day a time stamp falls on: what
    [format(date, "yyyy-MM-dd")] denotes. *)
Definition dayOf (t : Timestamp) : DayNumber := t / MS_PER_DAY.

(** [startOfDay(date)] *)
Definition startOfDay (t : Timestamp) : Timestamp := dayOf t * MS_PER_DAY.

(** [subDays(date, n)] *)
Definition subDays (t : Timestamp) (n : Z) : Timestamp := t - n * MS_PER_DAY.

(** [new Date(`${day}T00:00:00`)] and [new Date(`${day}T23:59:59`)] *)
Definition atStartOfDate (d : DayNumber) : Timestamp := d * MS_PER_DAY.
Definition atEndOfDate (d : DayNumber) : Timestamp :=
  d * MS_PER_DAY + (23 * 3600 + 59 * 60 + 59) * MS_PER_SECOND.

(** Proleptic Gregorian calendar: day number to (year, month, day). *)
Definition civilOfDay (z0 : DayNumber) : Z * Z * Z :=
  let z := z0 + 719468 in
  let era := z / 146097 in
  let doe := z - era * 146097 in
  let yoe := (doe - doe / 1460 + doe / 36524 - doe / 146096) / 365 in
  let doy := doe - (365 * yoe + yoe / 4 - yoe / 100) in
  let mp := (5 * doy + 2) / 153 in
  let d := doy - (153 * mp + 2) / 5 + 1 in
  let m := if mp <? 10 then mp + 3 else mp - 9 in
  let y := yoe + era * 400 + (if m <=? 2 then 1 else 0) in
  (y, m, d).

(** (year, month, day) to day number. *)
Definition dayOfCivil (y0 m d : Z) : DayNumber :=
  let y := if m <=? 2 then y0 - 1 else y0 in
  let era := y / 400 in
  let yoe := y - era * 400 in
  let doy := (153 * (if 2 <? m then m - 3 else m + 9) + 2) / 5 + d - 1 in
  let doe := yoe * 365 + yoe / 4 - yoe / 100 + doy in
  era * 146097 + doe - 719468.

(** [startOfWeek(date, { weekStartsOn: 1 })]; 1970-01-01 was a Thursday. *)
Definition startOfWeekMonday (t : Timestamp) : Timestamp :=
  let d := dayOf t in
  let weekday := (d + 4) mod 7 in
  let diff := (if weekday <? 1 then 7 else 0) + weekday - 1 in
  (d - diff) * MS_PER_DAY.

(** [startOfMonth(date)] *)
Definition startOfMonth (t : Timestamp) : Timestamp :=
  let '(y, m, _) := civilOfDay (dayOf t) in dayOfCivil y m 1 * MS_PER_DAY.

(** [startOfYear(date)] *)
Definition startOfYear (t : Timestamp) : Timestamp :=
  let '(y, _, _) := civilOfDay (dayOf t) in dayOfCivil y 1 1 * MS_PER_DAY.

Definition digit (n : Z) : ascii := ascii_of_nat (48 + Z.to_nat (n mod 10)).

Definition pad2 (n : Z) : string :=
  String (digit (n / 10)) (String (digit n) EmptyString).

(** [format(parseISO(day), "dd/MM")] *)
Definition format_ddMM (day : DayNumber) : string :=
  let '(_, m, d) := civilOfDay day in String.append (pad2 d) (String.append "/" (pad2 m)).

End DateFns.

(** ** Row types ([src/types/db.ts]) *)

Inductive SaleStatus : Set := lunas | belum_bayar.

Definition SaleStatus_eqb (a b : SaleStatus) : bool :=
  match a, b with
  | lunas, lunas | belum_bayar, belum_bayar => true
  | _, _ => false
  end.

Module StockItem.
Record t : Set := mk {
  id : Z;
  name : string;
  price : Z;
  stock : Z;
  image_url : option string;
  created_at : Timestamp;
}.
End StockItem.

Module Sale.
Record t : Set := mk {
  id : Z;
  sold_at : Timestamp;
  stock_item_id : option Z;
  item_name : string;
  unit_price : Z;
  qty : Z;
  total_price : Z;
  buyer_name : option string;
  status : SaleStatus;
}.

Definition with_status (st : SaleStatus) (s : t) : t :=
  mk (id s) (sold_at s) (stock_item_id s) (item_name s) (unit_price s)
     (qty s) (total_price s) (buyer_name s) st.
End Sale.

Module Expense.
Record t : Set := mk {
  id : Z;
  bought_at : Timestamp;
  description : option string;
  total_cost : Z;
}.
End Expense.

Record DashboardMetrics : Set := {
  totalSales : Z;
  totalRevenue : Z;
  totalExpenses : Z;
  profit : Z;
  piutang : Z;
}.

(** Reserved names of the data contract. *)
Definition SYSTEM_NAME : string := "SYSTEM_MODAL_DONOTDELETE".
Definition MODAL_ITEM_NAME : string := "Modal / Dana Awal".

(** ** Metrics ([HomePage], [metrics]) *)

Definition reduce {A B : Type} (f : B -> A -> B) (l : list A) (init : B) : B :=
  fold_left f l init.

Definition metrics (sales : list Sale.t) (expenses : list Expense.t)
  : DashboardMetrics :=
  let totalSales := Z.of_nat (length sales) in
  let totalRevenue := reduce (fun acc item => acc + Sale.total_price item) sales 0 in
  let totalExpenses := reduce (fun acc item => acc + Expense.total_cost item) expenses 0 in
  let piutang :=
    reduce (fun acc item => acc + Sale.total_price item)
      (List.filter (fun s => SaleStatus_eqb (Sale.status s) belum_bayar) sales) 0 in
  {| totalSales := totalSales;
     totalRevenue := totalRevenue;
     totalExpenses := totalExpenses;
     profit := totalRevenue - totalExpenses;
     piutang := piutang |}.

(** ** [metrics] on the numbers of the page

    A number of the page is a double (IEEE 754 binary64); [+] and [-] on
    numbers are the addition and the subtraction of doubles, which round
    to the nearest double, ties to even.  [sales.length] is a count. *)
Module Js.

Abbreviation number := float.

Module Sale.
Record t : Set := mk {
  id : Z;
  sold_at : Timestamp;
  stock_item_id : option Z;
  item_name : string;
  unit_price : number;
  qty : number;
  total_price : number;
  buyer_name : option string;
  status : SaleStatus;
}.

Definition with_status (st : SaleStatus) (s : t) : t :=
  mk (id s) (sold_at s) (stock_item_id s) (item_name s) (unit_price s)
     (qty s) (total_price s) (buyer_name s) st.
End Sale.

Module Expense.
Record t : Set := mk {
  id : Z;
  bought_at : Timestamp;
  description : option string;
  total_cost : number;
}.
End Expense.

Record DashboardMetrics : Set := {
  totalSales : Z;
  totalRevenue : number;
  totalExpenses : number;
  profit : number;
  piutang : number;
}.

Definition metrics (sales : list Sale.t) (expenses : list Expense.t)
  : DashboardMetrics :=
  let totalSales := Z.of_nat (length sales) in
  let totalRevenue :=
    reduce (fun acc item => (acc + Sale.total_price item)%float) sales 0%float in
  let totalExpenses :=
    reduce (fun acc item => (acc + Expense.total_cost item)%float) expenses 0%float in
  let piutang :=
    reduce (fun acc item => (acc + Sale.total_price item)%float)
      (List.filter (fun s => SaleStatus_eqb (Sale.status s) belum_bayar) sales) 0%float in
  {| totalSales := totalSales;
     totalRevenue := totalRevenue;
     totalExpenses := totalExpenses;
     profit := (totalRevenue - totalExpenses)%float;
     piutang := piutang |}.

End Js.

(** ** Metrics of the dashboard tab ([DashboardSection], [metrics]) *)

Inductive DashFilter : Set := all | weekly | monthly | yearly.

Definition dashCutoff (dashFilter : DashFilter) (now : Timestamp) : option Timestamp :=
  match dashFilter with
  | weekly => Some (DateFns.startOfWeekMonday now)
  | monthly => Some (DateFns.startOfMonth now)
  | yearly => Some (DateFns.startOfYear now)
  | all => None
  end.

Definition dashboardMetrics (dashFilter : DashFilter) (now : Timestamp)
    (sales : list Sale.t) (expenses : list Expense.t) : DashboardMetrics :=
  let cutoff := dashCutoff dashFilter now in
  let fSales :=
    match cutoff with
    | Some c => List.filter (fun s => c <=? Sale.sold_at s) sales
    | None => sales
    end in
  let fExpenses :=
    match cutoff with
    | Some c => List.filter (fun e => c <=? Expense.bought_at e) expenses
    | None => expenses
    end in
  let totalSales := Z.of_nat (length fSales) in
  let totalRevenue := reduce (fun acc item => acc + Sale.total_price item) fSales 0 in
  let totalExpenses := reduce (fun acc item => acc + Expense.total_cost item) fExpenses 0 in
  let piutang :=
    reduce (fun acc item => acc + Sale.total_price item)
      (List.filter (fun s => SaleStatus_eqb (Sale.status s) belum_bayar) fSales) 0 in
  {| totalSales := totalSales;
     totalRevenue := totalRevenue;
     totalExpenses := totalExpenses;
     profit := totalRevenue - totalExpenses;
     piutang := piutang |}.

(** ** Daily chart series ([HomePage], [chartData]) *)

(** A JavaScript [Map]: keys in insertion order; [set] on a key that is
    present keeps its position, [set] on a new key appends it. *)
Module JsMap.
Definition t (V : Type) : Type := list (DayNumber * V).

Fixpoint get {V : Type} (k : DayNumber) (m : t V) : option V :=
  match m with
  | [] => None
  | (k', v) :: r => if k' =? k then Some v else get k r
  end.

Fixpoint set {V : Type} (k : DayNumber) (v : V) (m : t V) : t V :=
  match m with
  | [] => [(k, v)]
  | (k', v') :: r => if k' =? k then (k, v) :: r else (k', v') :: set k v r
  end.

Definition entries {V : Type} (m : t V) : list (DayNumber * V) := m.
Definition keys {V : Type} (m : t V) : list DayNumber := List.map fst m.
End JsMap.

Module ChartRow.
Record t : Set := mk {
  day : string;
  amount : Z;
}.
End ChartRow.

(** The loop [for (let i = 0; i < 30; i += 1)]: one zero bucket per
    trailing day. *)
Definition initialBuckets (now : Timestamp) : JsMap.t Z :=
  fold_left
    (fun dailyMap i =>
       let date := DateFns.subDays now (29 - i) in
       JsMap.set (DateFns.dayOf date) 0 dailyMap)
    (seqZ 0 30) [].

(** The body of [sales.forEach]. *)
Definition addSale (start : Timestamp) (dailyMap : JsMap.t Z) (sale : Sale.t)
  : JsMap.t Z :=
  let soldDate := Sale.sold_at sale in
  if soldDate <? start then dailyMap
  else
    let key := DateFns.dayOf soldDate in
    JsMap.set key (default 0 (JsMap.get key dailyMap) + Sale.total_price sale) dailyMap.

(** The map as it is when [chartData] reads its entries. *)
Definition dailyMap (now : Timestamp) (sales : list Sale.t) : JsMap.t Z :=
  let start := DateFns.startOfDay (DateFns.subDays now 29) in
  fold_left (addSale start) sales (initialBuckets now).

Definition chartData (now : Timestamp) (sales : list Sale.t) : list ChartRow.t :=
  List.map
    (fun '(day, amount) => ChartRow.mk (DateFns.format_ddMM day) amount)
    (JsMap.entries (dailyMap now sales)).

(** ** Range filter ([filteredSales], [filteredExpenses]) *)

Definition filteredSales (fromDate toDate : DayNumber) (sales : list Sale.t)
  : list Sale.t :=
  let start := DateFns.atStartOfDate fromDate in
  let end_ := DateFns.atEndOfDate toDate in
  List.filter
    (fun sale =>
       let soldDate := Sale.sold_at sale in
       (start <=? soldDate) && (soldDate <=? end_))
    sales.

Definition filteredExpenses (fromDate toDate : DayNumber) (expenses : list Expense.t)
  : list Expense.t :=
  let start := DateFns.atStartOfDate fromDate in
  let end_ := DateFns.atEndOfDate toDate in
  List.filter
    (fun expense =>
       let boughtDate := Expense.bought_at expense in
       (start <=? boughtDate) && (boughtDate <=? end_))
    expenses.

(** ** Header of the ledger export ([exportExcel], [exportPdf]) *)

(** The numbers both exports print above the table. *)
Record LedgerHeader : Set := {
  totalPenjualan : Z;      (* "Total Penjualan": actualSales.length *)
  penjualan : Z;           (* "Penjualan": totalRevenue *)
  totalModal : Z;          (* "Total Modal" *)
  pengeluaran : Z;         (* "Pengeluaran": totalExpense *)
  pendapatanBersih : Z;    (* "Pendapatan Bersih": pendapatan *)
}.

Definition exportExcel (fromDate toDate : DayNumber)
    (sales : list Sale.t) (expenses : list Expense.t) : LedgerHeader :=
  let filteredSales := filteredSales fromDate toDate sales in
  let filteredExpenses := filteredExpenses fromDate toDate expenses in
  let modalSales :=
    List.filter (fun s => String.eqb (Sale.item_name s) "Modal / Dana Awal") filteredSales in
  let actualSales :=
    List.filter (fun s => negb (String.eqb (Sale.item_name s) "Modal / Dana Awal")) filteredSales in
  let totalRevenue := reduce (fun a s => a + Sale.total_price s) actualSales 0 in
  let totalModal := reduce (fun a s => a + Sale.total_price s) modalSales 0 in
  let totalExpense := reduce (fun a e => a + Expense.total_cost e) filteredExpenses 0 in
  let pendapatan := totalRevenue - totalExpense in
  {| totalPenjualan := Z.of_nat (length actualSales);
     penjualan := totalRevenue;
     totalModal := totalModal;
     pengeluaran := totalExpense;
     pendapatanBersih := pendapatan |}.


(** ** Merged transaction feed ([IncomeSection], [transactions]) *)

Module Transaction.
Inductive kind : Set := sale | expense.

Record t : Set := mk {
  type : kind;
  id : string;
  numericId : Z;
  date : Timestamp;
  name : string;
  qty : option Z;
  amount : Z;
  unitPrice : option Z;
  detail : option string;
  status : option SaleStatus;
  stockItemId : option Z;
}.
End Transaction.

Definition saleTransaction (s : Sale.t) : Transaction.t :=
  {| Transaction.type := Transaction.sale;
     Transaction.id := String.append "sale-" (pretty (Sale.id s));
     Transaction.numericId := Sale.id s;
     Transaction.date := Sale.sold_at s;
     Transaction.name := Sale.item_name s;
     Transaction.qty := Some (Sale.qty s);
     Transaction.amount := Sale.total_price s;
     Transaction.unitPrice := Some (Sale.unit_price s);
     Transaction.detail := Sale.buyer_name s;
     Transaction.status := Some (Sale.status s);
     Transaction.stockItemId := Sale.stock_item_id s |}.

Definition expenseTransaction (e : Expense.t) : Transaction.t :=
  {| Transaction.type := Transaction.expense;
     Transaction.id := String.append "expense-" (pretty (Expense.id e));
     Transaction.numericId := Expense.id e;
     Transaction.date := Expense.bought_at e;
     Transaction.name := default "Pengeluaran" (Expense.description e);
     Transaction.qty := None;
     Transaction.amount := Expense.total_cost e;
     Transaction.unitPrice := None;
     Transaction.detail := None;
     Transaction.status := None;
     Transaction.stockItemId := None |}.

(** [Array.prototype.sort(compareFn)].  The language requires the sort to
    be stable, and for a comparator that orders by a key the stable
    result is unique; insertion from the right computes it: an element
    goes before the first later element that the comparator does not put
    strictly before it. *)
Section ArraySort.
Context {A : Type} (compareFn : A -> A -> Z).

Fixpoint sortInsert (a : A) (l : list A) : list A :=
  match l with
  | [] => [a]
  | b :: r => if compareFn a b <=? 0 then a :: b :: r else b :: sortInsert a r
  end.

Fixpoint sort (l : list A) : list A :=
  match l with
  | [] => []
  | a :: r => sortInsert a (sort r)
  end.
End ArraySort.

Definition byDateDescending (a b : Transaction.t) : Z :=
  Transaction.date b - Transaction.date a.

Definition transactions (sales : list Sale.t) (expenses : list Expense.t)
  : list Transaction.t :=
  let combined := List.map saleTransaction sales ++ List.map expenseTransaction expenses in
  sort byDateDescending combined.

(** ** Snapshot loader ([HomePage], [loadAll]) *)

(** A numeric column as the client library hands it over. *)
Inductive RawValue : Set :=
| RawNumber (z : Z)
| RawString (s : string)
| RawNull.

Record RawStockItem : Set := {
  raw_stock_id : Z;
  raw_stock_name : string;
  raw_stock_price : RawValue;
  raw_stock_stock : RawValue;
  raw_stock_image_url : option string;
  raw_stock_created_at : Timestamp;
}.

Record RawSale : Set := {
  raw_sale_id : Z;
  raw_sale_sold_at : Timestamp;
  raw_sale_stock_item_id : option Z;
  raw_sale_item_name : string;
  raw_sale_unit_price : RawValue;
  raw_sale_qty : RawValue;
  raw_sale_total_price : RawValue;
  raw_sale_buyer_name : option string;
  raw_sale_status : SaleStatus;
}.

Record RawExpense : Set := {
  raw_expense_id : Z;
  raw_expense_bought_at : Timestamp;
  raw_expense_description : option string;
  raw_expense_total_cost : RawValue;
}.

Record PostgrestError : Set := { message : string }.

(** What one query resolves to: [{ data, error }]. *)
Record Response (A : Type) : Type := {
  data : option (list A);
  error : option PostgrestError;
}.
Arguments data {A} _.
Arguments error {A} _.

(** The state hooks of [HomePage] that [loadAll] writes. *)
Record PageState : Type := {
  st_loading : bool;
  st_error : option string;
  st_stockItems : list StockItem.t;
  st_sales : list Sale.t;
  st_expenses : list Expense.t;
}.

Definition setLoading (b : bool) (st : PageState) : PageState :=
  {| st_loading := b; st_error := st_error st; st_stockItems := st_stockItems st;
     st_sales := st_sales st; st_expenses := st_expenses st |}.
Definition setError (e : option string) (st : PageState) : PageState :=
  {| st_loading := st_loading st; st_error := e; st_stockItems := st_stockItems st;
     st_sales := st_sales st; st_expenses := st_expenses st |}.
Definition setStockItems (l : list StockItem.t) (st : PageState) : PageState :=
  {| st_loading := st_loading st; st_error := st_error st; st_stockItems := l;
     st_sales := st_sales st; st_expenses := st_expenses st |}.
Definition setSales (l : list Sale.t) (st : PageState) : PageState :=
  {| st_loading := st_loading st; st_error := st_error st; st_stockItems := st_stockItems st;
     st_sales := l; st_expenses := st_expenses st |}.
Definition setExpenses (l : list Expense.t) (st : PageState) : PageState :=
  {| st_loading := st_loading st; st_error := st_error st; st_stockItems := st_stockItems st;
     st_sales := st_sales st; st_expenses := l |}.

Definition isSome {A : Type} (o : option A) : bool :=
  match o with Some _ => true | None => false end.

(** [a?.message ?? b] *)
Definition orElse {A : Type} (a : option A) (b : option A) : option A :=
  match a with Some x => Some x | None => b end.

Section Loader.
(** [toNumber] of [@/lib/format], which is not part of the sources at
    hand: any function from raw values to numbers. *)
Variable toNumber : RawValue -> Z.

Definition parseStock (item : RawStockItem) : StockItem.t :=
  StockItem.mk (raw_stock_id item) (raw_stock_name item)
    (toNumber (raw_stock_price item)) (toNumber (raw_stock_stock item))
    (raw_stock_image_url item) (raw_stock_created_at item).

Definition parseSale (item : RawSale) : Sale.t :=
  Sale.mk (raw_sale_id item) (raw_sale_sold_at item) (raw_sale_stock_item_id item)
    (raw_sale_item_name item) (toNumber (raw_sale_unit_price item))
    (toNumber (raw_sale_qty item)) (toNumber (raw_sale_total_price item))
    (raw_sale_buyer_name item) (raw_sale_status item).

Definition parseExpense (item : RawExpense) : Expense.t :=
  Expense.mk (raw_expense_id item) (raw_expense_bought_at item)
    (raw_expense_description item) (toNumber (raw_expense_total_cost item)).

(** [loadAll], given what the three requests of [Promise.all] resolved
    to. *)
Definition loadAll (hasSupabaseEnv : bool)
    (stockRes : Response RawStockItem) (salesRes : Response RawSale)
    (expensesRes : Response RawExpense) (st : PageState) : PageState :=
  if negb hasSupabaseEnv then setLoading false st
  else
    let st := setError None st in
    if isSome (error stockRes) || isSome (error salesRes)
       || isSome (error expensesRes)
    then
      let msg :=
        default "Failed loading data"
          (orElse (message <$> error stockRes)
             (orElse (message <$> error salesRes) (message <$> error expensesRes))) in
      setLoading false (setError (Some msg) st)
    else
      let parsedStock :=
        List.filter
          (fun item => negb (String.eqb (StockItem.name item) "SYSTEM_MODAL_DONOTDELETE"))
          (List.map parseStock (default [] (data stockRes))) in
      let parsedSales := List.map parseSale (default [] (data salesRes)) in
      let parsedExpenses := List.map parseExpense (default [] (data expensesRes)) in
      setLoading false
        (setExpenses parsedExpenses (setSales parsedSales (setStockItems parsedStock st))).
End Loader.

(** ** The record store *)

(** The two tables the claims touch.  [stock_items] is keyed by its
    primary key [id]; [sales] lists its rows in insertion order.  The
    value a table's id sequence yields for a new row is an input of the
    operation that inserts it. *)
Module Db.
Record t : Type := mk {
  stock_items : gmap Z StockItem.t;
  sales : list Sale.t;
}.
End Db.

(** *** [public.create_sale] (plpgsql) *)

(** A function body runs on the store and either raises an exception or
    returns a value and the store it leaves. *)
Definition Plpgsql (A : Type) : Type := Db.t -> string + (A * Db.t).

Definition ret {A : Type} (a : A) : Plpgsql A := fun db => inr (a, db).

Definition raise_exception {A : Type} (msg : string) : Plpgsql A := fun _ => inl msg.

Definition bind {A B : Type} (m : Plpgsql A) (k : A -> Plpgsql B) : Plpgsql B :=
  fun db =>
    match m db with
    | inl msg => inl msg
    | inr (a, db') => k a db'
    end.

#[global] Instance Plpgsql_ret : MRet Plpgsql := @ret.
#[global] Instance Plpgsql_bind : MBind Plpgsql := fun A B k m => bind m k.

(** The call as the caller sees it: an exception undoes what the body did
    to the tables. *)
Definition call {A : Type} (body : Plpgsql A) (db : Db.t) : Db.t * (string + A) :=
  match body db with
  | inl msg => (db, inl msg)
  | inr (a, db') => (db', inr a)
  end.

(** [SELECT * INTO item_row FROM public.stock_items WHERE id = ... FOR UPDATE] *)
Definition select_stock_item (p_stock_item_id : Z) : Plpgsql (option StockItem.t) :=
  fun db => inr (Db.stock_items db !! p_stock_item_id, db).

(** [UPDATE public.stock_items SET stock = stock - p_qty WHERE id = ...] *)
Definition decrement_stock (p_qty : Z) (item : StockItem.t) : StockItem.t :=
  StockItem.mk (StockItem.id item) (StockItem.name item) (StockItem.price item)
    (StockItem.stock item - p_qty) (StockItem.image_url item) (StockItem.created_at item).

Definition update_stock (p_stock_item_id p_qty : Z) : Plpgsql unit :=
  fun db =>
    inr (tt, Db.mk (alter (decrement_stock p_qty) p_stock_item_id (Db.stock_items db))
               (Db.sales db)).

(** The [status] column: [text] with
    [CHECK (status IN ('lunas', 'belum_bayar'))]. *)
Definition status_of_text (s : string) : option SaleStatus :=
  if String.eqb s "lunas" then Some lunas
  else if String.eqb s "belum_bayar" then Some belum_bayar
  else None.

Definition text_of_status (st : SaleStatus) : string :=
  match st with lunas => "lunas" | belum_bayar => "belum_bayar" end.

(** [trim(text)]: spaces off both ends. *)
Fixpoint ltrim (s : string) : string :=
  match s with
  | String c r => if Ascii.eqb c " " then ltrim r else s
  | EmptyString => s
  end.

Definition trim (s : string) : string := String.rev (ltrim (String.rev (ltrim s))).

(** [nullif(trim(p_buyer_name), '')] *)
Definition nullif_trim (p_buyer_name : option string) : option string :=
  match p_buyer_name with
  | None => None
  | Some s => let t := trim s in if String.eqb t "" then None else Some t
  end.

(** The types of the procedure: [integer] is 32 bits wide, [bigint] 64,
    and a [numeric(14, 2)] holds the amounts below 10^12 in absolute
    value. *)
Definition in_integer (n : Z) : bool := (-2147483648 <=? n) && (n <=? 2147483647).

Definition in_bigint (n : Z) : bool :=
  (-9223372036854775808 <=? n) && (n <=? 9223372036854775807).

Definition in_numeric_14_2 (x : Z) : bool := Z.abs x <? 10 ^ 12.

Definition quoted (s : string) : string :=
  String "034" (String.append s (String "034" EmptyString)).

(** The message of an argument that does not fit its type. *)
Definition out_of_range (n : Z) (type : string) : string :=
  String.append "value "
    (String.append (quoted (pretty n)) (String.append " is out of range for type " type)).

(** The message of a row the check constraint on [status] rejects. *)
Definition check_violation : string :=
  String.append "new row for relation "
    (String.append (quoted "sales")
       (String.append " violates check constraint " (quoted "sales_status_check"))).

(** [total := ...] for [total numeric(14, 2)] *)
Definition assign_numeric_14_2 (x : Z) : Plpgsql Z :=
  if in_numeric_14_2 x then ret x else raise_exception "numeric field overflow".

(** [INSERT INTO public.sales (...) VALUES (...) RETURNING *] *)
Definition insert_sale (new_id : Z) (sold_at : Timestamp) (stock_item_id : Z)
    (item_name : string) (unit_price qty total_price : Z)
    (buyer_name : option string) (status : string) : Plpgsql Sale.t :=
  fun db =>
    match status_of_text status with
    | None => inl check_violation
    | Some st =>
        let row := Sale.mk new_id sold_at (Some stock_item_id) item_name unit_price
                     qty total_price buyer_name st in
        inr (row, Db.mk (Db.stock_items db) (Db.sales db ++ [row]))
    end.

Definition create_sale_body (new_id p_stock_item_id p_qty : Z)
    (p_buyer_name : option string) (p_sold_at : Timestamp) (p_status : option string)
  : Plpgsql Sale.t :=
  (if p_qty <=? 0 then raise_exception "qty harus lebih dari 0" else ret tt) ;;
  item_row ← select_stock_item p_stock_item_id ;
  match item_row with
  | None => raise_exception "item tidak ditemukan"
  | Some item_row =>
      (if StockItem.stock item_row <? p_qty
       then raise_exception "stok tidak cukup" else ret tt) ;;
      total ← assign_numeric_14_2 (StockItem.price item_row * p_qty) ;
      update_stock p_stock_item_id p_qty ;;
      inserted_sale ←
        insert_sale new_id p_sold_at (StockItem.id item_row) (StockItem.name item_row)
          (StockItem.price item_row) p_qty total (nullif_trim p_buyer_name)
          (default "lunas" p_status) ;
      ret inserted_sale
  end.

(** The call: an argument outside the range of its parameter's type is
    refused before the body runs. *)
Definition create_sale (new_id p_stock_item_id p_qty : Z)
    (p_buyer_name : option string) (p_sold_at : Timestamp) (p_status : option string)
    (db : Db.t) : Db.t * (string + Sale.t) :=
  if negb (in_bigint p_stock_item_id) then (db, inl (out_of_range p_stock_item_id "bigint"))
  else if negb (in_integer p_qty) then (db, inl (out_of_range p_qty "integer"))
  else call (create_sale_body new_id p_stock_item_id p_qty p_buyer_name p_sold_at p_status) db.

(** *** Capital entry ([getSystemModalId], [handleSubmitModal]) *)

(** What the store generates for rows the page inserts. *)
Record Generated : Set := {
  new_stock_item_id : Z;
  new_sale_id : Z;
  created_now : Timestamp;
}.

Definition getSystemModalId (hasSupabaseEnv : bool) (gen : Generated) (db : Db.t)
  : Db.t * option Z :=
  if negb hasSupabaseEnv then (db, None)
  else
    let SYSTEM_NAME := "SYSTEM_MODAL_DONOTDELETE" in
    let existing :=
      List.filter (fun r => String.eqb (StockItem.name r.2) SYSTEM_NAME)
        (map_to_list (Db.stock_items db)) in
    match existing with
    | [(_, existing)] => (db, Some (StockItem.id existing))
    | _ =>
        let created :=
          StockItem.mk (new_stock_item_id gen) SYSTEM_NAME 0 0 None (created_now gen) in
        (Db.mk (<[StockItem.id created := created]> (Db.stock_items db)) (Db.sales db),
         Some (StockItem.id created))
    end.

(** [amount] is [Number(modalAmount)], [None] when that is not a finite
    number.  The result is the store and the message given to
    [setError]. *)
Definition handleSubmitModal (hasSupabaseEnv : bool) (amount : option Z)
    (modalDate : Timestamp) (gen : Generated) (db : Db.t) : Db.t * option string :=
  if negb hasSupabaseEnv
  then (db, Some "Supabase environment variables not configured.")
  else
    match amount with
    | None => (db, Some "Jumlah modal harus lebih dari 0.")
    | Some amount =>
        if amount <=? 0 then (db, Some "Jumlah modal harus lebih dari 0.")
        else
          let '(db, modalStockId) := getSystemModalId hasSupabaseEnv gen db in
          match modalStockId with
          | None => (db, Some "Gagal inisialisasi system item. Cek koneksi Supabase.")
          | Some modalStockId =>
              let row :=
                Sale.mk (new_sale_id gen) modalDate (Some modalStockId)
                  "Modal / Dana Awal" amount 1 amount None lunas in
              (Db.mk (Db.stock_items db) (Db.sales db ++ [row]), None)
          end
    end.

(** *** Editing a sale ([onUpdateSale] as passed to [IncomeSection]) *)

Record SaleUpdate : Set := {
  upd_qty : option Z;
  upd_buyer_name : option (option string);
  upd_status : option SaleStatus;
}.

Definition applyUpdate (data : SaleUpdate) (total_price : option Z) (s : Sale.t) : Sale.t :=
  Sale.mk (Sale.id s) (Sale.sold_at s) (Sale.stock_item_id s) (Sale.item_name s)
    (Sale.unit_price s)
    (default (Sale.qty s) (upd_qty data))
    (default (Sale.total_price s) total_price)
    (default (Sale.buyer_name s) (upd_buyer_name data))
    (default (Sale.status s) (upd_status data)).

Definition onUpdateSale (id : Z) (data : SaleUpdate) (filteredSales : list Sale.t)
    (db : Db.t) : Db.t :=
  let total_price :=
    match upd_qty data with
    | Some qty =>
        match List.find (fun s => Sale.id s =? id) filteredSales with
        | Some sale => Some (Sale.unit_price sale * qty)
        | None => None
        end
    | None => None
    end in
  Db.mk (Db.stock_items db)
    (List.map (fun s => if Sale.id s =? id then applyUpdate data total_price s else s)
       (Db.sales db)).

(** *** Sale form ([effectiveSelectedStockId], [selectedItem], [saleTotal],
    [handleSubmitSale]) *)

Definition effectiveSelectedStockId (selectedStockId : option Z)
    (stockItems : list StockItem.t) : option Z :=
  match selectedStockId with
  | Some i => Some i
  | None => StockItem.id <$> head stockItems
  end.

Definition selectedItem (selectedStockId : option Z) (stockItems : list StockItem.t)
  : option StockItem.t :=
  match effectiveSelectedStockId selectedStockId stockItems with
  | Some i => List.find (fun item => StockItem.id item =? i) stockItems
  | None => None
  end.

Definition saleTotal (selectedItem : option StockItem.t) (qty : Z) : Z :=
  match selectedItem with
  | None => 0
  | Some selectedItem => StockItem.price selectedItem * qty
  end.

(** [s.trim() || null] for a trim function [jsTrim]. *)
Definition trimOrNull (jsTrim : string -> string) (s : string) : option string :=
  let t := jsTrim s in if String.eqb t "" then None else Some t.

Section Forms.
(** [String.prototype.trim], of the language: any function on strings. *)
Variable jsTrim : string -> string.

(** The result is the store after the handler and the message given to
    [setError], [None] when the handler got through. *)
Definition handleSubmitSale (hasSupabaseEnv : bool) (selectedItem : option StockItem.t)
    (qty : Z) (buyerName : string) (soldAt : Timestamp) (saleStatus : SaleStatus)
    (new_id : Z) (db : Db.t) : Db.t * option string :=
  if negb hasSupabaseEnv
  then (db, Some "Supabase environment variables not configured.")
  else
    match selectedItem with
    | None => (db, Some "Pilih item terlebih dulu.")
    | Some selectedItem =>
        if qty <=? 0 then (db, Some "Qty harus lebih dari 0.")
        else if StockItem.stock selectedItem <? qty then (db, Some "Stok tidak cukup.")
        else
          match create_sale new_id (StockItem.id selectedItem) qty
                  (trimOrNull jsTrim buyerName) soldAt
                  (Some (text_of_status saleStatus)) db with
          | (db', inl rpcError) => (db', Some rpcError)
          | (db', inr _) => (db', None)
          end
    end.

(** [handleSubmitExpense] on the rows of [public.expenses].  [price],
    [qtyVal] and [otherCost] are [Number(...)] of the form fields, [None]
    standing for [NaN]. *)
Definition handleSubmitExpense (hasSupabaseEnv : bool) (expenseItem : string)
    (price qtyVal otherCost : option Z) (expenseNote : string)
    (expenseDate : Timestamp) (new_id : Z) (expenses : list Expense.t)
  : list Expense.t * option string :=
  if negb hasSupabaseEnv
  then (expenses, Some "Supabase environment variables not configured.")
  else
    let otherCost := default 0 otherCost in
    if String.eqb (jsTrim expenseItem) ""
    then (expenses, Some "Item pembelian harus diisi.")
    else
      match price with
      | None => (expenses, Some "Harga tidak valid.")
      | Some price =>
          if price <? 0 then (expenses, Some "Harga tidak valid.")
          else
            match qtyVal with
            | None => (expenses, Some "Qty harus lebih dari 0.")
            | Some qtyVal =>
                if qtyVal <=? 0 then (expenses, Some "Qty harus lebih dari 0.")
                else
                  let totalCost := price * qtyVal + otherCost in
                  let description :=
                    String.append (jsTrim expenseItem)
                      (String.append " (Qty: "
                         (String.append (pretty qtyVal)
                            (String.append ")"
                               (if String.eqb expenseNote "" then ""
                                else String.append " - " expenseNote)))) in
                  (expenses ++ [Expense.mk new_id expenseDate (Some description) totalCost],
                   None)
            end
      end.
End Forms.

(** *** Stock edits ([handlePriceSave], [handleAddStock]) *)

Definition with_price (price : Z) (item : StockItem.t) : StockItem.t :=
  StockItem.mk (StockItem.id item) (StockItem.name item) price
    (StockItem.stock item) (StockItem.image_url item) (StockItem.created_at item).

Definition with_stock (stock : Z) (item : StockItem.t) : StockItem.t :=
  StockItem.mk (StockItem.id item) (StockItem.name item) (StockItem.price item)
    stock (StockItem.image_url item) (StockItem.created_at item).

(** [nextPrice] is [Number(priceInput)], [None] standing for [NaN]. *)
Definition handlePriceSave (nextPrice : option Z) (id : Z) (db : Db.t)
  : Db.t * option string :=
  match nextPrice with
  | None => (db, Some "Harga tidak valid.")
  | Some nextPrice =>
      if nextPrice <? 0 then (db, Some "Harga tidak valid.")
      else (Db.mk (alter (with_price nextPrice) id (Db.stock_items db)) (Db.sales db), None)
  end.

(** [nextStock] is [Number(addStockInput)]; [stockItems] is the snapshot
    of the page. *)
Definition handleAddStock (nextStock : option Z) (id : Z) (stockItems : list StockItem.t)
    (db : Db.t) : Db.t * option string :=
  match nextStock with
  | None => (db, Some "Jumlah stok tidak valid (minimal 0).")
  | Some nextStock =>
      if nextStock <? 0 then (db, Some "Jumlah stok tidak valid (minimal 0).")
      else
        match List.find (fun entry => StockItem.id entry =? id) stockItems with
        | None => (db, Some "Item tidak ditemukan.")
        | Some _ =>
            (Db.mk (alter (with_stock nextStock) id (Db.stock_items db)) (Db.sales db),
             None)
        end
  end.

(** *** Deleting a sale ([onDeleteSale] as passed to [IncomeSection]) *)

Definition onDeleteSale (id : Z) (db : Db.t) : Db.t :=
  Db.mk (Db.stock_items db)
    (List.filter (fun s => negb (Sale.id s =? id)) (Db.sales db)).

(** *** Editing and deleting an expense ([handleUpdateExpense],
    [handleDeleteExpense]) *)

Record ExpenseUpdate : Set := {
  upd_description : string;
  upd_total_cost : Z;
  upd_bought_at : Timestamp;
}.

Definition handleUpdateExpense (hasSupabaseEnv : bool) (id : Z) (data : ExpenseUpdate)
    (expenses : list Expense.t) : list Expense.t * option string :=
  if negb hasSupabaseEnv
  then (expenses, Some "Supabase environment variables not configured.")
  else
    (List.map
       (fun e =>
          if Expense.id e =? id
          then Expense.mk (Expense.id e) (upd_bought_at data)
                 (Some (upd_description data)) (upd_total_cost data)
          else e)
       expenses,
     None).

Definition handleDeleteExpense (hasSupabaseEnv : bool) (id : Z)
    (expenses : list Expense.t) : list Expense.t * option string :=
  if negb hasSupabaseEnv
  then (expenses, Some "Supabase environment variables not configured.")
  else (List.filter (fun e => negb (Expense.id e =? id)) expenses, None).

(** A call of [create_sale] as a value, and a run of calls. *)
Record SaleRequest : Set := {
  req_new_id : Z;
  req_stock_item_id : Z;
  req_qty : Z;
  req_buyer_name : option string;
  req_sold_at : Timestamp;
  req_status : option string;
}.

Definition serve (db : Db.t) (r : SaleRequest) : Db.t :=
  (create_sale (req_new_id r) (req_stock_item_id r) (req_qty r) (req_buyer_name r)
     (req_sold_at r) (req_status r) db).1.

(** *** Low stock ([lowStockItems]) *)

Definition LOW_STOCK_THRESHOLD : Z := 5.

Definition lowStockItems (stockItems : list StockItem.t) : list StockItem.t :=
  sort (fun a b => StockItem.stock a - StockItem.stock b)
    (List.filter (fun item => StockItem.stock item <=? LOW_STOCK_THRESHOLD) stockItems).

(** *** The five latest entries ([recentTransactions]) *)

Inductive RecentTransaction : Set :=
| recentSale (s : Sale.t)
| recentExpense (e : Expense.t).

Definition recentDate (t : RecentTransaction) : Timestamp :=
  match t with
  | recentSale a => Sale.sold_at a
  | recentExpense a => Expense.bought_at a
  end.

Definition recentTransactions (sales : list Sale.t) (expenses : list Expense.t)
  : list RecentTransaction :=
  let combined := List.map recentSale sales ++ List.map recentExpense expenses in
  List.firstn 5 (sort (fun a b => recentDate b - recentDate a) combined).

(** *** Status filter and search ([filteredTransactions]) *)


(** [s.includes(q)] *)
Fixpoint includes (s q : string) : bool :=
  String.prefix q s
  || match s with
     | EmptyString => false
     | String _ r => includes r q
     end.


Section Search.
(** [String.prototype.trim] and [String.prototype.toLowerCase], of the
    language: any functions on strings. *)
Variables jsTrim toLowerCase : string -> string.

End Search.

(** *** Opening an entry ([openDetail]) *)

Definition openDetail (item : Transaction.t) (sales : list Sale.t)
    (expenses : list Expense.t) : option (Sale.t + Expense.t) :=
  match Transaction.type item with
  | Transaction.sale =>
      inl <$> List.find (fun s => Sale.id s =? Transaction.numericId item) sales
  | Transaction.expense =>
      inr <$> List.find (fun e => Expense.id e =? Transaction.numericId item) expenses
  end.

(** *** Selecting and deleting stock items ([toggleDeleteSelection],
    [handleDeleteItems]) *)

Definition toggleDeleteSelection (id : Z) (prev : gset Z) : gset Z :=
  if decide (id ∈ prev) then prev ∖ {[ id ]} else prev ∪ {[ id ]}.

Definition itemsToDelete (stockItems : list StockItem.t) (selectedForDelete : gset Z)
  : list StockItem.t :=
  List.filter (fun item => bool_decide (StockItem.id item ∈ selectedForDelete)) stockItems.

(** [s.split(sep)] for a separator of one character: the segments, at
    least one. *)
Fixpoint split (sep : ascii) (s : string) : list string :=
  match s with
  | EmptyString => [EmptyString]
  | String c r =>
      if Ascii.eqb c sep then EmptyString :: split sep r
      else
        match split sep r with
        | seg :: rest => String c seg :: rest
        | [] => [String c EmptyString]
        end
  end.

(** [url.split("/").pop()] *)
Definition lastSegment (url : string) : string := List.last (split "/" url) EmptyString.

(** The names handed to [storage.remove]: the last segment of each image
    URL, where there is a URL and the segment is not empty. *)
Definition filesToDelete (itemsToDelete : list StockItem.t) : list string :=
  List.filter (fun name => negb (String.eqb name ""))
    (omap
       (fun item =>
          match StockItem.image_url item with
          | Some url => if String.eqb url "" then None else Some (lastSegment url)
          | None => None
          end)
       itemsToDelete).

(** *** The range the history opens with ([fromDate], [toDate]) *)

(** [format(subDays(new Date(), 29), "yyyy-MM-dd")] and
    [format(new Date(), "yyyy-MM-dd")], the initial values of the two
    state hooks. *)
Definition initialFromDate (now : Timestamp) : DayNumber :=
  DateFns.dayOf (DateFns.subDays now 29).
Definition initialToDate (now : Timestamp) : DayNumber := DateFns.dayOf now.

(** ** The public store ([src/app/store/page.tsx]) *)

Inductive Slide : Set :=
| promoSlide (id : Z) (url : string)
| placeholderSlide (id : Z) (gradient : string).

Definition PLACEHOLDER_SLIDES : list Slide :=
  [placeholderSlide 1 "from-primary to-accent";
   placeholderSlide 2 "from-emerald-600 to-teal-500"].

Definition displaySlides (promoSlides : list (Z * string)) : list Slide :=
  if (0 <? length promoSlides)%nat
  then List.map (fun '(id, url) => promoSlide id url) promoSlides
  else PLACEHOLDER_SLIDES.

(** The updater of [goSlide]: [(prev + dir + n) % n] for [n] slides; [%]
    is the remainder that takes the sign of the dividend. *)
Definition goSlide (dir : Z) (n : Z) (prev : Z) : Z := Z.rem (prev + dir + n) n.

(** The updater of the auto-play timer: [(prev + 1) % n]. *)
Definition autoPlay (n : Z) (prev : Z) : Z := Z.rem (prev + 1) n.

Section StoreSearch.
(** [String.prototype.toLowerCase], of the language. *)
Variable toLowerCase : string -> string.

Definition filteredItems (items : list StockItem.t) (search : string) : list StockItem.t :=
  List.filter
    (fun i => includes (toLowerCase (StockItem.name i)) (toLowerCase search))
    items.
End StoreSearch.

(** [loadItems] on the store: the rows whose name is not the reserved
    one, by [created_at] from the latest (rows of the same [created_at] in
    the order the table yields them), put in place of the items of the
    page; without configuration the items stay. *)
Definition loadItems (hasSupabaseEnv : bool) (db : Db.t) (items : list StockItem.t)
  : list StockItem.t :=
  if negb hasSupabaseEnv then items
  else
    sort (fun a b => StockItem.created_at b - StockItem.created_at a)
      (List.filter
         (fun item => negb (String.eqb (StockItem.name item) "SYSTEM_MODAL_DONOTDELETE"))
         (List.map snd (map_to_list (Db.stock_items db)))).

(** ** Redirects ([AuthProvider]) *)

(** The redirect effect: where [router.push] sends the visitor, if
    anywhere. *)
Definition redirect (loading : bool) (isAuthenticated : bool) (pathname : string)
  : option string :=
  if loading then None
  else
    let isLoginPage := String.eqb pathname "/login" in
    let isPublicPage :=
      String.eqb pathname "/login" || String.eqb pathname "/store"
      || String.eqb pathname "/" in
    if negb isAuthenticated && negb isPublicPage then Some "/login"
    else if isAuthenticated && isLoginPage then Some "/dashboard"
    else None.

(** ** Dismissing the install prompt ([src/components/InstallPrompt.tsx]) *)

Definition DISMISS_EXPIRY_DAYS : Z := 7.

Section Dismissal.
(** [Number(raw)] of the language on the stored text, [None] standing for
    [NaN]. *)
Variable Number : string -> option Z.

(** [isDismissed] at time [now] on the value stored under the key ([None]
    when there is none): the answer and the value left under the key. *)
Definition isDismissed (hasWindow : bool) (now : Timestamp) (raw : option string)
  : bool * option string :=
  if negb hasWindow then (true, raw)
  else
    match raw with
    | None => (false, raw)
    | Some text =>
        if String.eqb text "" then (false, raw)
        else
          match Number text with
          | Some expiry => if expiry <? now then (false, None) else (true, raw)
          | None => (true, raw)
          end
    end.
End Dismissal.

(** [setDismissed] at time [now]: the value put under the key. *)
Definition setDismissed (now : Timestamp) : option string :=
  Some (pretty (now + DISMISS_EXPIRY_DAYS * 24 * 60 * 60 * 1000)).

(** ** Reference sums, by recursion on the list *)

Fixpoint sumZ (l : list Z) : Z :=
  match l with
  | [] => 0
  | x :: r => x + sumZ r
  end.

Definition is_unpaid (s : Sale.t) : bool := SaleStatus_eqb (Sale.status s) belum_bayar.
Definition is_capital (s : Sale.t) : bool := String.eqb (Sale.item_name s) MODAL_ITEM_NAME.


(** A capital injection as [handleSubmitModal] inserts it. *)
Definition capitalRow (amount : Z) : Sale.t :=
  Sale.mk 1 0 (Some 9) "Modal / Dana Awal" amount 1 amount None lunas.

(** Whether a time stamp lies in the closed interval from 00:00:00 on
    [fromDate] to 23:59:59 on [toDate]. *)
Definition inRange (fromDate toDate : DayNumber) (t : Timestamp) : Prop :=
  DateFns.atStartOfDate fromDate <= t <= DateFns.atEndOfDate toDate.

(** The first message among the errors of the requests, in their order. *)
Fixpoint firstMessage (errors : list (option PostgrestError)) : option string :=
  match errors with
  | [] => None
  | Some e :: _ => Some (message e)
  | None :: rest => firstMessage rest
  end.

(** An entry of expense type does not come before an entry of sale type
    that has the same date. *)
Definition saleFirst (x y : Transaction.t) : Prop :=
  Transaction.type x = Transaction.expense ->
  Transaction.type y = Transaction.sale ->
  Transaction.date x <> Transaction.date y.

(** Dates do not increase from an entry to a later one. *)
Definition notEarlier (x y : Transaction.t) : Prop :=
  Transaction.date y <= Transaction.date x.

(** The edit [handleSave] sends when only the status is switched to
    unpaid on a row of quantity 1 without buyer. *)
Definition markUnpaid : SaleUpdate :=
  {| upd_qty := Some 1; upd_buyer_name := Some None; upd_status := Some belum_bayar |}.

(** The calendar days of the chart window, oldest first. *)
Definition windowDays (now : Timestamp) : list DayNumber :=
  List.map (fun i => DateFns.dayOf now - 29 + i) (seqZ 0 30).


(** No stock item has a negative stock. *)
Definition stockNonNegative (db : Db.t) : Prop :=
  forall k item, Db.stock_items db !! k = Some item -> 0 <= StockItem.stock item.

(** Every stock item is stored under its own [id], the primary key. *)
Definition keyedById (db : Db.t) : Prop :=
  forall k item, Db.stock_items db !! k = Some item -> StockItem.id item = k.

(** The stock of the item with primary key [k], 0 when there is none. *)
Definition stockOf (k : Z) (db : Db.t) : Z :=
  default 0 (StockItem.stock <$> Db.stock_items db !! k).

(** The units the sale rows record for the stock item [k]. *)
Definition unitsSold (k : Z) (sales : list Sale.t) : Z :=
  sumZ (List.map (fun s => match Sale.stock_item_id s with
                           | Some i => if i =? k then Sale.qty s else 0
                           | None => 0
                           end) sales).

(** A sale row whose total is its unit price times its quantity. *)
Definition consistentRow (s : Sale.t) : Prop :=
  Sale.total_price s = Sale.unit_price s * Sale.qty s.

(** Whether a character occurs in a string. *)
Fixpoint occurs (c : ascii) (s : string) : bool :=
  match s with
  | EmptyString => false
  | String c' r => Ascii.eqb c' c || occurs c r
  end.


(** No stock item has the reserved name of the anchor of capital
    entries. *)
Definition noAnchor (db : Db.t) : Prop :=
  forall k item, Db.stock_items db !! k = Some item -> StockItem.name item <> SYSTEM_NAME.

(** Whether a row of the stock table has the reserved name. *)
Definition isAnchorRow (r : Z * StockItem.t) : bool :=
  String.eqb (StockItem.name r.2) "SYSTEM_MODAL_DONOTDELETE".

(** Whether a string begins, or ends, with a space. *)
Definition startsWithSpace (s : string) : bool :=
  match s with
  | String c _ => Ascii.eqb c " "
  | EmptyString => false
  end.

Definition endsWithSpace (s : string) : bool := startsWithSpace (String.rev s).

(** A string of [n] spaces. *)
Fixpoint spaces (n : nat) : string :=
  match n with
  | O => EmptyString
  | S n => String " " (spaces n)
  end.

(** ** Doubles and their exact values *)

(** The value of a finite binary64 number, counted in units of 2^-1074,
    the smallest positive double: every finite double is a whole number
    of them.  [None] for an infinity and for NaN. *)
Definition SFvalue (x : spec_float) : option Z :=
  match x with
  | S754_zero _ => Some 0
  | S754_finite s m e => Some ((if s then Z.neg m else Z.pos m) * 2 ^ (e + 1074))
  | S754_infinity _ | S754_nan => None
  end.

Definition exactValue (x : float) : option Z := SFvalue (Prim2SF x).

(** The sum of the exact values of a list of doubles, in the same
    units. *)
Fixpoint exactSum (l : list float) : option Z :=
  match l with
  | [] => Some 0
  | x :: r =>
      match exactValue x, exactSum r with
      | Some a, Some b => Some (a + b)
      | _, _ => None
      end
  end.

(** Whether adding the doubles of [l] to [acc], one after the other,
    never rounds: every double sum has the exact value of the sum. *)
Fixpoint addsExactly (acc : float) (l : list float) : bool :=
  match l with
  | [] => isSome (exactValue acc)
  | x :: r =>
      match exactValue acc, exactValue x, exactValue (acc + x)%float with
      | Some a, Some b, Some c => (c =? a + b) && addsExactly (acc + x)%float r
      | _, _, _ => false
      end
  end.

(** The totals of the unpaid sales, in the order of the list. *)
Definition unpaidTotals (sales : list Js.Sale.t) : list float :=
  List.map Js.Sale.total_price
    (List.filter (fun s => SaleStatus_eqb (Js.Sale.status s) belum_bayar) sales).

(** A double that carries the whole amount [n]. *)
Definition carries (x : float) (n : Z) : Prop := exactValue x = Some (n * 2 ^ 1074).

(** Whether the running sums of the whole amounts [ns], from [acc] on,
    stay within 2^53 in absolute value. *)
Fixpoint runningSumsFit (acc : Z) (ns : list Z) : bool :=
  match ns with
  | [] => true
  | n :: r => (Z.abs (acc + n) <=? 2 ^ 53) && runningSumsFit (acc + n) r
  end.

(** A sale and an expense of the page on doubles and on whole amounts. *)
Definition sameSale (js : Js.Sale.t) (s : Sale.t) : Prop :=
  carries (Js.Sale.total_price js) (Sale.total_price s)
  /\ Js.Sale.status js = Sale.status s.

Definition sameExpense (js : Js.Expense.t) (e : Expense.t) : Prop :=
  carries (Js.Expense.total_cost js) (Expense.total_cost e).

(** * Calendar *)

Example civil_epoch : DateFns.civilOfDay 0 = (1970, 1, 1).
Proof. reflexivity. Qed.

Example civil_leap : DateFns.civilOfDay (DateFns.dayOfCivil 2024 2 29) = (2024, 2, 29).
Proof. reflexivity. Qed.

Example label_example : DateFns.format_ddMM (DateFns.dayOfCivil 2026 11 3) = "03/11".
Proof. reflexivity. Qed.

Example week_example :
  DateFns.startOfWeekMonday (DateFns.dayOfCivil 2026 11 3 * 86400000 + 5)
  = DateFns.dayOfCivil 2026 11 2 * 86400000.
Proof. reflexivity. Qed.

(** * Metrics *)

Lemma reduce_add {A : Type} (f : A -> Z) (l : list A) (init : Z) :
  reduce (fun acc item => acc + f item) l init = init + sumZ (List.map f l).
Proof.
  unfold reduce. revert init.
  induction l as [|x l IH]; intros init; simpl.
  - lia.
  - rewrite IH. lia.
Qed.

Lemma sumZ_app (l1 l2 : list Z) : sumZ (l1 ++ l2) = sumZ l1 + sumZ l2.
Proof. induction l1 as [|x l1 IH]; simpl; lia. Qed.

(** Summing the rows kept by a filter is summing, over all rows, the
    amount of a kept row and 0 for a dropped one. *)
Lemma sumZ_filter {A : Type} (p : A -> bool) (f : A -> Z) (l : list A) :
  sumZ (List.map f (List.filter p l))
  = sumZ (List.map (fun x => if p x then f x else 0) l).
Proof.
  induction l as [|x l IH]; simpl; [reflexivity|].
  destruct (p x); simpl; lia.
Qed.


Lemma totalRevenue_sum (sales : list Sale.t) (expenses : list Expense.t) :
  totalRevenue (metrics sales expenses) = sumZ (List.map Sale.total_price sales).
Proof. unfold metrics; simpl. rewrite reduce_add. lia. Qed.

Lemma piutang_sum (sales : list Sale.t) (expenses : list Expense.t) :
  piutang (metrics sales expenses)
  = sumZ (List.map (fun s => if is_unpaid s then Sale.total_price s else 0) sales).
Proof.
  unfold metrics; simpl. rewrite reduce_add.
  fold is_unpaid. rewrite (sumZ_filter is_unpaid). lia.
Qed.

(** On whole amounts, where the sums are sums of integers: [totalRevenue]
    is the sum of [total_price] over all sales, [totalExpenses] the sum of
    [total_cost] over all expenses, [profit] their difference (a negative
    number when expenses exceed revenue), and [piutang] the sum of
    [total_price] over the sales whose status is [belum_bayar]; on two
    empty lists all five metrics are 0. *)
Lemma metrics_exact_sums (sales : list Sale.t) (expenses : list Expense.t) :
  let m := metrics sales expenses in
  totalRevenue m = sumZ (List.map Sale.total_price sales)
  /\ totalExpenses m = sumZ (List.map Expense.total_cost expenses)
  /\ profit m = sumZ (List.map Sale.total_price sales)
                - sumZ (List.map Expense.total_cost expenses)
  /\ piutang m
     = sumZ (List.map (fun s => match Sale.status s with
                                | belum_bayar => Sale.total_price s
                                | lunas => 0
                                end) sales)
  /\ metrics [] []
     = {| totalSales := 0; totalRevenue := 0; totalExpenses := 0;
          profit := 0; piutang := 0 |}
  /\ profit (metrics [] [Expense.mk 1 0 None 10000]) = -10000.
Proof.
  cbv zeta. repeat split.
  - apply totalRevenue_sum.
  - unfold metrics; simpl. rewrite reduce_add. lia.
  - unfold metrics; simpl. rewrite !reduce_add. lia.
  - rewrite piutang_sum. f_equal. apply map_ext. intros s.
    unfold is_unpaid. destruct (Sale.status s); reflexivity.
Qed.

(** The scenario of the specification: two sales, one of them unpaid, and
    one expense. *)
Example metrics_scenario :
  metrics [Sale.mk 1 0 None "a" 50000 1 50000 None lunas;
           Sale.mk 2 0 None "b" 20000 1 20000 None belum_bayar]
          [Expense.mk 1 0 None 10000]
  = {| totalSales := 2; totalRevenue := 70000; totalExpenses := 10000;
       profit := 60000; piutang := 20000 |}.
Proof. reflexivity. Qed.



(** On whole amounts: when a sale of the list has status [lunas] and
    only its status is changed to [belum_bayar], [piutang] grows by that
    sale's [total_price] and [totalRevenue] stays the same. *)
Lemma piutang_grows_by_total_price
    (before after : list Sale.t) (s : Sale.t) (expenses : list Expense.t)
    (Hpaid : Sale.status s = lunas) :
  let old := metrics (before ++ s :: after) expenses in
  let new := metrics (before ++ Sale.with_status belum_bayar s :: after) expenses in
  piutang new = piutang old + Sale.total_price s
  /\ totalRevenue new = totalRevenue old.
Proof.
  cbv zeta. rewrite !piutang_sum, !totalRevenue_sum.
  rewrite !map_app, !sumZ_app. cbn [List.map sumZ].
  assert (Hnew : is_unpaid (Sale.with_status belum_bayar s) = true) by reflexivity.
  assert (Hold : is_unpaid s = false) by (unfold is_unpaid; rewrite Hpaid; reflexivity).
  rewrite Hnew, Hold. cbn [Sale.with_status Sale.total_price]. lia.
Qed.

(** * Doubles that carry whole amounts

    The addition and the subtraction of doubles are those of the
    library's specification of binary64 ([add_spec], [sub_spec]): align
    the mantissas, add, round to 53 bits.  On whole numbers whose sum is
    at most 2^53 in absolute value the rounding has nothing to drop. *)

(** The number of binary digits of a mantissa. *)
Lemma digits2_pos_size (p : positive) : digits2_pos p = Pos.size p.
Proof. induction p; simpl; congruence. Qed.

Lemma digits_bounds (p : positive) :
  2 ^ (Z.pos (digits2_pos p) - 1) <= Z.pos p < 2 ^ Z.pos (digits2_pos p).
Proof.
  rewrite digits2_pos_size.
  pose proof (Pos.size_gt p) as Hgt. pose proof (Pos.size_le p) as Hle.
  apply Pos2Z.pos_lt_pos in Hgt. apply Pos2Z.pos_le_pos in Hle.
  rewrite Pos2Z.inj_pow in Hgt, Hle.
  change (Z.pos p~0) with (2 * Z.pos p) in Hle.
  split; [|exact Hgt].
  assert (H : 2 ^ Z.pos (Pos.size p) = 2 * 2 ^ (Z.pos (Pos.size p) - 1)).
  { rewrite <- Z.pow_succ_r by lia. f_equal. lia. }
  lia.
Qed.

Lemma digits_unique (p : positive) (d : Z) :
  2 ^ (d - 1) <= Z.pos p < 2 ^ d -> Z.pos (digits2_pos p) = d.
Proof.
  intros [Hlow Hhigh]. destruct (digits_bounds p) as [Hlow' Hhigh'].
  assert (Hd : 0 < d).
  { destruct (Z_lt_le_dec 0 d) as [|Hneg]; [assumption|exfalso].
    assert (2 ^ d <= 1).
    { destruct (Z.eq_dec d 0) as [->|]; [simpl; lia|].
      rewrite Z.pow_neg_r by lia. lia. }
    lia. }
  destruct (Z_lt_le_dec (Z.pos (digits2_pos p)) d) as [Hlt|Hge].
  - exfalso.
    assert (2 ^ Z.pos (digits2_pos p) <= 2 ^ (d - 1)) by (apply Z.pow_le_mono_r; lia).
    lia.
  - destruct (Z_lt_le_dec d (Z.pos (digits2_pos p))) as [Hlt|Hle]; [exfalso|lia].
    assert (2 ^ d <= 2 ^ (Z.pos (digits2_pos p) - 1)) by (apply Z.pow_le_mono_r; lia).
    lia.
Qed.

Lemma digits_shift (p q : positive) (k : Z) :
  0 <= k -> Z.pos q = Z.pos p * 2 ^ k ->
  Z.pos (digits2_pos q) = Z.pos (digits2_pos p) + k.
Proof.
  intros Hk Hq. apply digits_unique. rewrite Hq.
  destruct (digits_bounds p) as [Hlow Hhigh].
  replace (Z.pos (digits2_pos p) + k - 1) with ((Z.pos (digits2_pos p) - 1) + k) by lia.
  rewrite !Z.pow_add_r by lia.
  assert (0 < 2 ^ k) by (apply Z.pow_pos_nonneg; lia).
  split; nia.
Qed.

(** Shifting a mantissa to the left, and back to the right when the
    digits shifted out are zeros. *)
Lemma iter_xO_value (n : nat) (m : positive) :
  Z.pos (Nat.iter n xO m) = Z.pos m * 2 ^ Z.of_nat n.
Proof.
  induction n as [|n IH]; [simpl; lia|].
  rewrite Nat2Z.inj_succ, Z.pow_succ_r by lia.
  simpl Nat.iter. change (Z.pos (Nat.iter n xO m)~0) with (2 * Z.pos (Nat.iter n xO m)).
  rewrite IH. lia.
Qed.

Lemma pos_iter_nat {A : Type} (f : A -> A) (x : A) (p : positive) :
  Pos.iter f x p = Nat.iter (Pos.to_nat p) f x.
Proof. apply Pos2Nat.inj_iter. Qed.

Lemma pos_iter_xO_value (p m : positive) :
  Z.pos (Pos.iter xO m p) = Z.pos m * 2 ^ Z.pos p.
Proof.
  rewrite pos_iter_nat, iter_xO_value, positive_nat_Z. reflexivity.
Qed.

Lemma iter_pos_iter {A : Type} (f : A -> A) (p : positive) (x : A) :
  SpecFloat.iter_pos f p x = Pos.iter f x p.
Proof.
  revert x. induction p as [p IH|p IH|]; intros x; simpl.
  - rewrite !IH. rewrite <- Pos.iter_swap. rewrite <- Pos.iter_swap. reflexivity.
  - rewrite !IH. reflexivity.
  - reflexivity.
Qed.

Lemma shr_1_exact (n : nat) (m : positive) :
  Nat.iter n shr_1 (Build_shr_record (Z.pos (Nat.iter n xO m)) false false)
  = Build_shr_record (Z.pos m) false false.
Proof.
  induction n as [|n IH]; [reflexivity|].
  rewrite Nat.iter_succ_r. simpl Nat.iter at 2. simpl shr_1. exact IH.
Qed.

Lemma shr_exact (p m q : positive) :
  Z.pos q = Z.pos m * 2 ^ Z.pos p ->
  SpecFloat.iter_pos shr_1 p (Build_shr_record (Z.pos q) false false)
  = Build_shr_record (Z.pos m) false false.
Proof.
  intros Hq. rewrite iter_pos_iter, pos_iter_nat.
  assert (Heq : q = Nat.iter (Pos.to_nat p) xO m).
  { apply Pos2Z.inj. rewrite iter_xO_value, positive_nat_Z. exact Hq. }
  rewrite Heq. apply shr_1_exact.
Qed.

(** The exponent of a double is at least -1074, and 53 digits below the
    magnitude above that. *)
Lemma fexp_value (e : Z) : fexp prec emax e = Z.max (e - 53) (-1074).
Proof. reflexivity. Qed.

(** Rounding leaves a mantissa in canonical form as it is, and a mantissa
    with zeros in the digits to drop loses just those. *)
Lemma round_aux_canonical (s : bool) (m : positive) (e : Z) :
  fexp prec emax (Z.pos (digits2_pos m) + e) = e -> e <= 971 ->
  binary_round_aux prec emax s (Z.pos m) e loc_Exact = S754_finite s m e.
Proof.
  intros Hcanonical Hmax.
  unfold binary_round_aux, shr_fexp. cbn [Zdigits2 shr_record_of_loc].
  rewrite Hcanonical, Z.sub_diag. cbn [shr shr_m loc_of_shr_record round_nearest_even Zdigits2].
  rewrite Hcanonical, Z.sub_diag. cbn [shr shr_m shr_record_of_loc].
  assert (Hle : (e <=? emax - prec) = true) by (apply Z.leb_le; exact Hmax).
  rewrite Hle. reflexivity.
Qed.

Lemma round_aux_shift (s : bool) (M m : positive) (e : Z) (p : positive) :
  Z.pos M = Z.pos m * 2 ^ Z.pos p ->
  fexp prec emax (Z.pos (digits2_pos M) + e) = e + Z.pos p ->
  e + Z.pos p <= 971 ->
  binary_round_aux prec emax s (Z.pos M) e loc_Exact = S754_finite s m (e + Z.pos p).
Proof.
  intros Hshift Hfexp Hmax.
  assert (Hdigits : Z.pos (digits2_pos M) = Z.pos (digits2_pos m) + Z.pos p)
    by (apply digits_shift; [lia|exact Hshift]).
  unfold binary_round_aux, shr_fexp. cbn [Zdigits2 shr_record_of_loc].
  rewrite Hfexp. replace (e + Z.pos p - e) with (Z.pos p) by lia.
  cbn [shr]. rewrite (shr_exact p m M Hshift).
  cbn [shr_m loc_of_shr_record round_nearest_even Zdigits2 shr_record_of_loc].
  replace (Z.pos (digits2_pos m) + (e + Z.pos p)) with (Z.pos (digits2_pos M) + e) by lia.
  rewrite Hfexp, Z.sub_diag. cbn [shr shr_m].
  assert (Hle : (e + Z.pos p <=? emax - prec) = true) by (apply Z.leb_le; exact Hmax).
  rewrite Hle. reflexivity.
Qed.

(** Rounding a number that is representable returns it. *)
Lemma binary_round_exact (s : bool) (M : positive) (e : Z) :
  let f := fexp prec emax (Z.pos (digits2_pos M) + e) in
  -1074 <= e -> f <= 971 ->
  (f <= e \/ exists m, Z.pos M = Z.pos m * 2 ^ (f - e)) ->
  exists m',
    binary_round prec emax s M e = S754_finite s m' f
    /\ Z.pos m' * 2 ^ (f + 1074) = Z.pos M * 2 ^ (e + 1074).
Proof.
  intros f He Hmax Hrep.
  assert (Hfdef : fexp prec emax (Z.pos (digits2_pos M) + e) = f) by reflexivity.
  clearbody f.
  assert (Hf : -1074 <= f) by (rewrite <- Hfdef, fexp_value; lia).
  unfold binary_round. rewrite Hfdef.
  destruct (Z_lt_le_dec e f) as [Hlt|Hge].
  - destruct Hrep as [Hle|[m Hm]]; [lia|].
    unfold shl_align. destruct (f - e) as [|p|p] eqn:Hp; try lia.
    exists m. split.
    + replace f with (e + Z.pos p) by lia. apply round_aux_shift.
      * exact Hm.
      * rewrite Hfdef. lia.
      * lia.
    + rewrite Hm. replace (f + 1074) with (Z.pos p + (e + 1074)) by lia.
      rewrite (Z.pow_add_r 2 (Z.pos p) (e + 1074)) by lia. ring.
  - unfold shl_align. destruct (f - e) as [|p|p] eqn:Hp; try lia.
    + assert (Heq : e = f) by lia. rewrite <- Heq. exists M. split; [|reflexivity].
      apply round_aux_canonical; [rewrite Hfdef; lia|lia].
    + rewrite <- Pos2Z.opp_pos in Hp. exists (Pos.iter xO M p). split.
      * apply round_aux_canonical; [|exact Hmax].
        assert (Hd : Z.pos (digits2_pos (Pos.iter xO M p)) = Z.pos (digits2_pos M) + Z.pos p)
          by (apply digits_shift; [lia|apply pos_iter_xO_value]).
        rewrite Hd. replace (Z.pos (digits2_pos M) + Z.pos p + f)
          with (Z.pos (digits2_pos M) + e) by lia.
        exact Hfdef.
      * rewrite pos_iter_xO_value. replace (e + 1074) with (Z.pos p + (f + 1074)) by lia.
        rewrite (Z.pow_add_r 2 (Z.pos p) (f + 1074)) by lia. ring.
Qed.

(** A whole number of at most 2^53 is representable. *)
Lemma pow_1074_pos : 0 < 2 ^ 1074.
Proof. apply Z.pow_pos_nonneg; lia. Qed.

Lemma digits_of_bounded (N : positive) :
  Z.pos N <= 2 ^ 53 -> Z.pos (digits2_pos N) <= 54.
Proof.
  intros HN. destruct (digits_bounds N) as [Hlow _].
  destruct (Z_lt_le_dec 54 (Z.pos (digits2_pos N))) as [Hbig|]; [exfalso|assumption].
  assert (2 ^ 54 <= 2 ^ (Z.pos (digits2_pos N) - 1)) by (apply Z.pow_le_mono_r; lia).
  assert (2 ^ 53 < 2 ^ 54) by (apply Z.pow_lt_mono_r; lia).
  lia.
Qed.

Lemma binary_round_whole (s : bool) (M N : positive) (ez : Z) :
  -1074 <= ez ->
  Z.pos M * 2 ^ (ez + 1074) = Z.pos N * 2 ^ 1074 ->
  Z.pos N <= 2 ^ 53 ->
  exists m e,
    binary_round prec emax s M ez = S754_finite s m e
    /\ Z.pos m * 2 ^ (e + 1074) = Z.pos N * 2 ^ 1074.
Proof.
  intros Hez Hvalue HN.
  assert (Hpow : 0 < 2 ^ (ez + 1074)) by (apply Z.pow_pos_nonneg; lia).
  pose proof pow_1074_pos as Hpow'.
  (* the digits of M and of N *)
  assert (Hdigits : Z.pos (digits2_pos M) + ez = Z.pos (digits2_pos N)).
  { assert (Hq : exists q, Z.pos q = Z.pos M * 2 ^ (ez + 1074)).
    { destruct (Z.pos M * 2 ^ (ez + 1074)) as [|q|q] eqn:E; [lia|exists q; reflexivity|lia]. }
    destruct Hq as [q Hq].
    pose proof (digits_shift M q (ez + 1074) ltac:(lia) Hq) as H1.
    pose proof (digits_shift N q 1074 ltac:(lia) ltac:(lia)) as H2.
    lia. }
  pose proof (digits_of_bounded N HN) as Hd.
  destruct (binary_round_exact s M ez Hez) as (m & Hround & Hm).
  - rewrite Hdigits, fexp_value. lia.
  - rewrite Hdigits, fexp_value.
    destruct (Z_le_gt_dec (Z.max (Z.pos (digits2_pos N) - 53) (-1074)) ez) as [Hle|Hgt];
      [left; exact Hle|right].
    set (f := Z.max (Z.pos (digits2_pos N) - 53) (-1074)) in *.
    assert (Hf : f <= 1) by (unfold f; lia).
    assert (Hneg : ez <= 0) by lia.
    (* M is N shifted by -ez *)
    assert (HM : Z.pos M = Z.pos N * 2 ^ (- ez)).
    { assert (H1074 : 2 ^ 1074 = 2 ^ (- ez) * 2 ^ (ez + 1074)).
      { rewrite <- Z.pow_add_r by lia. f_equal. lia. }
      rewrite H1074 in Hvalue. nia. }
    destruct (Z_le_gt_dec f 0) as [Hf0|Hf1].
    + assert (Hm : exists m, Z.pos m = Z.pos N * 2 ^ (- f)).
      { assert (0 < 2 ^ (- f)) by (apply Z.pow_pos_nonneg; lia).
        destruct (Z.pos N * 2 ^ (- f)) as [|m|m] eqn:E; [lia|exists m; reflexivity|lia]. }
      destruct Hm as [m Hm]. exists m. rewrite Hm, HM.
      replace (- ez) with (- f + (f - ez)) by lia.
      rewrite Z.pow_add_r by lia. ring.
    + assert (Hf' : f = 1) by lia.
      assert (Hd54 : Z.pos (digits2_pos N) = 54) by (unfold f in Hf'; lia).
      assert (HN' : Z.pos N = 2 ^ 53).
      { destruct (digits_bounds N) as [Hlow _]. rewrite Hd54 in Hlow.
        change (54 - 1) with 53 in Hlow. lia. }
      exists (2 ^ 52)%positive. rewrite HM, HN', Hf'.
      change (Z.pos (2 ^ 52)) with (2 ^ 52).
      replace (2 ^ 53) with (2 ^ 52 * 2 ^ 1) by reflexivity.
      replace (1 - ez) with (1 + - ez) by lia.
      rewrite (Z.pow_add_r 2 1 (- ez)) by lia. ring.
  - exists m, (fexp prec emax (Z.pos (digits2_pos M) + ez)).
    split; [exact Hround|]. rewrite Hm. exact Hvalue.
Qed.

Lemma binary_normalize_whole (S ez n : Z) :
  -1074 <= ez ->
  S * 2 ^ (ez + 1074) = n * 2 ^ 1074 ->
  Z.abs n <= 2 ^ 53 ->
  SFvalue (binary_normalize prec emax S ez false) = Some (n * 2 ^ 1074).
Proof.
  intros Hez Hvalue Hn.
  assert (Hpow : 0 < 2 ^ (ez + 1074)) by (apply Z.pow_pos_nonneg; lia).
  pose proof pow_1074_pos as Hpow'.
  destruct S as [|M|M]; cbn [binary_normalize].
  - cbn [SFvalue]. f_equal. lia.
  - destruct n as [|N|N]; [lia| |lia].
    destruct (binary_round_whole false M N ez Hez Hvalue ltac:(lia)) as (m & e & -> & Hm).
    cbn [SFvalue]. f_equal. exact Hm.
  - destruct n as [|N|N]; [lia|lia|].
    destruct (binary_round_whole true M N ez Hez) as (m & e & -> & Hm); [lia|lia|].
    cbn [SFvalue]. f_equal. lia.
Qed.

(** Aligning two mantissas to the smaller exponent. *)
Lemma shl_align_value (mx : positive) (ex ez : Z) :
  ez <= ex -> Z.pos (fst (shl_align mx ex ez)) = Z.pos mx * 2 ^ (ex - ez).
Proof.
  intros Hle. unfold shl_align.
  destruct (ez - ex) as [|p|p] eqn:Hp; cbn [fst].
  - replace (ex - ez) with 0 by lia. lia.
  - lia.
  - rewrite <- Pos2Z.opp_pos in Hp. rewrite pos_iter_xO_value. f_equal. f_equal. lia.
Qed.

Lemma valid_exponent (s : bool) (m : positive) (e : Z) :
  valid_binary (S754_finite s m e) = true -> -1074 <= e.
Proof.
  cbn [SpecFloat.valid_binary]. unfold bounded, canonical_mantissa.
  intros H. apply andb_true_iff in H as [H _]. apply Z.eqb_eq in H.
  rewrite fexp_value in H. lia.
Qed.

Lemma signed_value (s : bool) (m : positive) : (if s then Z.neg m else Z.pos m) = cond_Zopp s (Z.pos m).
Proof. destruct s; reflexivity. Qed.

(** The addition of the specification is exact when the operands are
    whole and the sum is at most 2^53 in absolute value. *)
Lemma SFadd_whole (x y : spec_float) (a b : Z) :
  valid_binary x = true -> valid_binary y = true ->
  SFvalue x = Some (a * 2 ^ 1074) -> SFvalue y = Some (b * 2 ^ 1074) ->
  Z.abs (a + b) <= 2 ^ 53 ->
  SFvalue (SFadd prec emax x y) = Some ((a + b) * 2 ^ 1074).
Proof.
  intros Hvx Hvy Hx Hy Hsum.
  pose proof pow_1074_pos as Hpow.
  destruct x as [sx|sx| |sx mx ex]; try discriminate Hx;
    destruct y as [sy|sy| |sy my ey]; try discriminate Hy;
    cbn [SFvalue] in Hx, Hy; injection Hx as Ha; injection Hy as Hb.
  - assert (a = 0) by nia. assert (b = 0) by nia. subst.
    destruct sx, sy; reflexivity.
  - assert (a = 0) by nia. subst a. cbn [SFadd SFvalue]. rewrite Hb. reflexivity.
  - assert (b = 0) by nia. subst b. cbn [SFadd SFvalue]. rewrite Ha, Z.add_0_r. reflexivity.
  - cbn [SFadd]. cbv zeta.
    pose proof (valid_exponent _ _ _ Hvx) as Hex.
    pose proof (valid_exponent _ _ _ Hvy) as Hey.
    apply binary_normalize_whole; [lia| |exact Hsum].
    rewrite !shl_align_value by lia.
    rewrite signed_value in Ha, Hb.
    assert (Hpx : 2 ^ (ex - Z.min ex ey) * 2 ^ (Z.min ex ey + 1074) = 2 ^ (ex + 1074)).
    { rewrite <- Z.pow_add_r by lia. f_equal. lia. }
    assert (Hpy : 2 ^ (ey - Z.min ex ey) * 2 ^ (Z.min ex ey + 1074) = 2 ^ (ey + 1074)).
    { rewrite <- Z.pow_add_r by lia. f_equal. lia. }
    change (Z.pow_pos 2 1074) with (2 ^ 1074) in Ha, Hb.
    change (IntDef.Z.min ex ey) with (Z.min ex ey).
    rewrite (Z.mul_add_distr_r a b), <- Ha, <- Hb, <- Hpx, <- Hpy.
    destruct sx, sy; cbn [cond_Zopp]; ring.
Qed.

(** Likewise the subtraction. *)
Lemma SFsub_whole (x y : spec_float) (a b : Z) :
  valid_binary x = true -> valid_binary y = true ->
  SFvalue x = Some (a * 2 ^ 1074) -> SFvalue y = Some (b * 2 ^ 1074) ->
  Z.abs (a - b) <= 2 ^ 53 ->
  SFvalue (SFsub prec emax x y) = Some ((a - b) * 2 ^ 1074).
Proof.
  intros Hvx Hvy Hx Hy Hsum.
  pose proof pow_1074_pos as Hpow.
  destruct x as [sx|sx| |sx mx ex]; try discriminate Hx;
    destruct y as [sy|sy| |sy my ey]; try discriminate Hy;
    cbn [SFvalue] in Hx, Hy; injection Hx as Ha; injection Hy as Hb.
  - assert (a = 0) by nia. assert (b = 0) by nia. subst.
    destruct sx, sy; reflexivity.
  - assert (a = 0) by nia. subst a. cbn [SFsub SFvalue]. f_equal.
    change (Z.pow_pos 2 1074) with (2 ^ 1074) in Hb.
    rewrite Z.sub_0_l, Z.mul_opp_l, <- Hb. destruct sy; cbn [negb]; lia.
  - assert (b = 0) by nia. subst b. cbn [SFsub SFvalue]. rewrite Ha, Z.sub_0_r. reflexivity.
  - cbn [SFsub]. cbv zeta.
    pose proof (valid_exponent _ _ _ Hvx) as Hex.
    pose proof (valid_exponent _ _ _ Hvy) as Hey.
    apply binary_normalize_whole; [lia| |exact Hsum].
    rewrite !shl_align_value by lia.
    rewrite signed_value in Ha, Hb.
    assert (Hpx : 2 ^ (ex - Z.min ex ey) * 2 ^ (Z.min ex ey + 1074) = 2 ^ (ex + 1074)).
    { rewrite <- Z.pow_add_r by lia. f_equal. lia. }
    assert (Hpy : 2 ^ (ey - Z.min ex ey) * 2 ^ (Z.min ex ey + 1074) = 2 ^ (ey + 1074)).
    { rewrite <- Z.pow_add_r by lia. f_equal. lia. }
    change (Z.pow_pos 2 1074) with (2 ^ 1074) in Ha, Hb.
    change (IntDef.Z.min ex ey) with (Z.min ex ey).
    rewrite (Z.mul_sub_distr_r a b), <- Ha, <- Hb, <- Hpx, <- Hpy.
    destruct sx, sy; cbn [cond_Zopp]; ring.
Qed.

(** Adding two doubles that carry whole amounts is exact as long as the
    sum is at most 2^53 in absolute value. *)
Lemma carried_add (x y : float) (a b : Z) :
  carries x a -> carries y b -> Z.abs (a + b) <= 2 ^ 53 ->
  carries (x + y)%float (a + b).
Proof.
  unfold carries, exactValue. rewrite add_spec. intros Hx Hy Hsum.
  apply SFadd_whole; [apply Prim2SF_valid|apply Prim2SF_valid|exact Hx|exact Hy|exact Hsum].
Qed.

Lemma carried_sub (x y : float) (a b : Z) :
  carries x a -> carries y b -> Z.abs (a - b) <= 2 ^ 53 ->
  carries (x - y)%float (a - b).
Proof.
  unfold carries, exactValue. rewrite sub_spec. intros Hx Hy Hsum.
  apply SFsub_whole; [apply Prim2SF_valid|apply Prim2SF_valid|exact Hx|exact Hy|exact Hsum].
Qed.

Lemma whole_sums (xs : list float) (ns : list Z) :
  Forall2 carries xs ns ->
  forall (acc : float) (a : Z),
    carries acc a -> runningSumsFit a ns = true ->
    carries (fold_left PrimFloat.add xs acc) (a + sumZ ns).
Proof.
  induction 1 as [|x n xs ns Hx _ IH]; intros acc a Hacc Hfit.
  - cbn [fold_left sumZ]. rewrite Z.add_0_r. exact Hacc.
  - cbn [runningSumsFit] in Hfit. apply andb_true_iff in Hfit as [Hstep Hrest].
    apply Z.leb_le in Hstep.
    cbn [fold_left sumZ]. rewrite Z.add_assoc.
    apply IH; [|exact Hrest]. apply carried_add; assumption.
Qed.

Lemma carries_zero : carries 0%float 0.
Proof. reflexivity. Qed.

(** * Metrics on doubles *)

Lemma exactValue_zero : exactValue 0%float = Some 0.
Proof. reflexivity. Qed.

Lemma addsExactly_sum (l : list float) (acc : float) (a : Z) :
  exactValue acc = Some a ->
  addsExactly acc l = true ->
  exists total,
    exactSum l = Some total
    /\ exactValue (fold_left PrimFloat.add l acc) = Some (a + total).
Proof.
  revert acc a. induction l as [|x l IH]; intros acc a Hacc Hexact.
  - exists 0. split; [reflexivity|]. cbn [fold_left]. rewrite Hacc, Z.add_0_r. reflexivity.
  - cbn [addsExactly] in Hexact. rewrite Hacc in Hexact.
    destruct (exactValue x) as [b|] eqn:Hx; [|discriminate].
    destruct (exactValue (acc + x)%float) as [c|] eqn:Hc; [|discriminate].
    apply andb_true_iff in Hexact as [Hsum Hrest]. apply Z.eqb_eq in Hsum. subst c.
    destruct (IH _ _ Hc Hrest) as (total & Htotal & Hfold).
    exists (b + total). cbn [exactSum fold_left]. rewrite Hx, Htotal, Hfold.
    split; [reflexivity|]. f_equal. lia.
Qed.

Lemma exactSum_insert (l1 l2 : list float) (x : float) (q : Z) :
  exactSum (l1 ++ x :: l2) = Some q ->
  exists p t, exactSum (l1 ++ l2) = Some p /\ exactValue x = Some t /\ q = p + t.
Proof.
  revert q. induction l1 as [|y l1 IH]; intros q; cbn [app exactSum].
  - destruct (exactValue x) as [t|]; [|discriminate].
    destruct (exactSum l2) as [p|]; [|discriminate].
    intros H. inversion H. exists p, t. repeat split. lia.
  - destruct (exactValue y) as [b|]; [|discriminate].
    destruct (exactSum (l1 ++ x :: l2)) as [r|]; [|discriminate].
    intros H. inversion H. destruct (IH r eq_refl) as (p & t & Hp & Ht & Hr).
    exists (b + p), t. rewrite Hp. repeat split; [exact Ht|lia].
Qed.

Lemma reduce_snoc {A B : Type} (f : B -> A -> B) (l : list A) (x : A) (init : B) :
  reduce f (l ++ [x]) init = f (reduce f l init) x.
Proof. unfold reduce. rewrite fold_left_app. reflexivity. Qed.

Lemma reduce_totals {A : Type} (f : A -> float) (l : list A) (init : float) :
  reduce (fun acc item => (acc + f item)%float) l init
  = fold_left PrimFloat.add (List.map f l) init.
Proof.
  unfold reduce. revert init. induction l as [|x l IH]; intros init; cbn; [reflexivity|].
  apply IH.
Qed.

Lemma Js_totalRevenue_fold (sales : list Js.Sale.t) (expenses : list Js.Expense.t) :
  Js.totalRevenue (Js.metrics sales expenses)
  = fold_left PrimFloat.add (List.map Js.Sale.total_price sales) 0%float.
Proof. unfold Js.metrics. cbn [Js.totalRevenue]. apply reduce_totals. Qed.

Lemma Js_totalExpenses_fold (sales : list Js.Sale.t) (expenses : list Js.Expense.t) :
  Js.totalExpenses (Js.metrics sales expenses)
  = fold_left PrimFloat.add (List.map Js.Expense.total_cost expenses) 0%float.
Proof. unfold Js.metrics. cbn [Js.totalExpenses]. apply reduce_totals. Qed.

Lemma Js_piutang_fold (sales : list Js.Sale.t) (expenses : list Js.Expense.t) :
  Js.piutang (Js.metrics sales expenses)
  = fold_left PrimFloat.add (unpaidTotals sales) 0%float.
Proof. unfold Js.metrics, unpaidTotals. cbn [Js.piutang]. apply reduce_totals. Qed.

Lemma unpaidTotals_app (l1 l2 : list Js.Sale.t) :
  unpaidTotals (l1 ++ l2) = unpaidTotals l1 ++ unpaidTotals l2.
Proof. unfold unpaidTotals. rewrite List.filter_app, map_app. reflexivity. Qed.

(** C1, as stated, fails on amounts with cents.  Of two sales of 0.1 and
    0.2 the page shows 0.30000000000000004 as [totalRevenue]: the double
    next above 0.3, and not the exact sum of the two totals. *)
Lemma totalRevenue_is_rounded :
  let sales := [Js.Sale.mk 1 0 None "Pita" 0.1 1 0.1 None lunas;
                Js.Sale.mk 2 0 None "Pita" 0.1 2 0.2 None lunas] in
  let shown := Js.totalRevenue (Js.metrics sales []) in
  shown = 0.30000000000000004%float
  /\ PrimFloat.eqb shown 0.3 = false
  /\ exists exact rounded,
      exactSum (List.map Js.Sale.total_price sales) = Some exact
      /\ exactValue shown = Some rounded
      /\ rounded <> exact.
Proof.
  cbv zeta. split; [vm_compute; reflexivity|]. split; [vm_compute; reflexivity|].
  eexists. eexists. split; [vm_compute; reflexivity|]. split; [vm_compute; reflexivity|].
  discriminate.
Qed.

(** C1, amended.  [metrics] adds in double arithmetic, in the order of
    the lists and starting from 0: [totalSales] is the number of sales;
    [totalRevenue] is 0 for no sales and, for every further sale, the
    double sum of the revenue so far and the sale's [total_price];
    [totalExpenses] is built in the same way from [total_cost], and
    [piutang] from the [total_price] of the sales whose status is
    [belum_bayar], the other sales leaving it as it is; [profit] is the
    double difference of [totalRevenue] and [totalExpenses], with no
    floor.  On whole amounts whose running sums stay within 2^53 in
    absolute value each of the three sums is the exact sum, and [profit]
    the exact difference when it is within 2^53; more generally a sum is
    exact whenever none of its additions rounds.  On two empty lists the
    five metrics are 0. *)
Theorem metrics_sums_in_double_arithmetic
    (sales : list Js.Sale.t) (expenses : list Js.Expense.t) :
  let m := Js.metrics sales expenses in
  let revenues := List.map Js.Sale.total_price sales in
  let costs := List.map Js.Expense.total_cost expenses in
  Js.totalSales m = Z.of_nat (length sales)
  /\ Js.totalRevenue (Js.metrics [] expenses) = 0%float
  /\ (forall s,
        Js.totalRevenue (Js.metrics (sales ++ [s]) expenses)
        = (Js.totalRevenue m + Js.Sale.total_price s)%float)
  /\ Js.totalExpenses (Js.metrics sales []) = 0%float
  /\ (forall e,
        Js.totalExpenses (Js.metrics sales (expenses ++ [e]))
        = (Js.totalExpenses m + Js.Expense.total_cost e)%float)
  /\ Js.piutang (Js.metrics [] expenses) = 0%float
  /\ (forall s,
        Js.piutang (Js.metrics (sales ++ [s]) expenses)
        = match Js.Sale.status s with
          | belum_bayar => (Js.piutang m + Js.Sale.total_price s)%float
          | lunas => Js.piutang m
          end)
  /\ Js.profit m = (Js.totalRevenue m - Js.totalExpenses m)%float
  /\ (forall amounts,
        Forall2 carries revenues amounts -> runningSumsFit 0 amounts = true ->
        carries (Js.totalRevenue m) (sumZ amounts))
  /\ (forall amounts,
        Forall2 carries costs amounts -> runningSumsFit 0 amounts = true ->
        carries (Js.totalExpenses m) (sumZ amounts))
  /\ (forall amounts,
        Forall2 carries (unpaidTotals sales) amounts -> runningSumsFit 0 amounts = true ->
        carries (Js.piutang m) (sumZ amounts))
  /\ (forall revenue cost,
        carries (Js.totalRevenue m) revenue -> carries (Js.totalExpenses m) cost ->
        Z.abs (revenue - cost) <= 2 ^ 53 ->
        carries (Js.profit m) (revenue - cost))
  /\ (addsExactly 0 revenues = true ->
      exists total,
        exactSum revenues = Some total /\ exactValue (Js.totalRevenue m) = Some total)
  /\ (addsExactly 0 costs = true ->
      exists total,
        exactSum costs = Some total /\ exactValue (Js.totalExpenses m) = Some total)
  /\ (addsExactly 0 (unpaidTotals sales) = true ->
      exists total,
        exactSum (unpaidTotals sales) = Some total
        /\ exactValue (Js.piutang m) = Some total)
  /\ Js.metrics [] []
     = {| Js.totalSales := 0; Js.totalRevenue := 0; Js.totalExpenses := 0;
          Js.profit := 0; Js.piutang := 0 |}.
Proof.
  cbv zeta.
  split; [reflexivity|]. split; [reflexivity|].
  split.
  { intros s. unfold Js.metrics. cbn [Js.totalRevenue].
    apply (reduce_snoc (fun acc item => (acc + Js.Sale.total_price item)%float)). }
  split; [reflexivity|].
  split.
  { intros e. unfold Js.metrics. cbn [Js.totalExpenses].
    apply (reduce_snoc (fun acc item => (acc + Js.Expense.total_cost item)%float)). }
  split; [reflexivity|].
  split.
  { intros s. unfold Js.metrics. cbn [Js.piutang]. rewrite List.filter_app.
    cbn [List.filter]. destruct (Js.Sale.status s); cbn [SaleStatus_eqb].
    - rewrite app_nil_r. reflexivity.
    - apply (reduce_snoc (fun acc item => (acc + Js.Sale.total_price item)%float)). }
  split; [reflexivity|].
  split; [|split; [|split; [|split; [|split; [|split; [|split]]]]]].
  - intros amounts Hwhole Hfit. rewrite Js_totalRevenue_fold.
    exact (whole_sums _ _ Hwhole _ 0 carries_zero Hfit).
  - intros amounts Hwhole Hfit. rewrite Js_totalExpenses_fold.
    exact (whole_sums _ _ Hwhole _ 0 carries_zero Hfit).
  - intros amounts Hwhole Hfit. rewrite Js_piutang_fold.
    exact (whole_sums _ _ Hwhole _ 0 carries_zero Hfit).
  - intros revenue cost Hrevenue Hcost Hfit.
    change (Js.profit (Js.metrics sales expenses))
      with (Js.totalRevenue (Js.metrics sales expenses)
            - Js.totalExpenses (Js.metrics sales expenses))%float.
    apply carried_sub; assumption.
  - intros Hexact. rewrite Js_totalRevenue_fold.
    destruct (addsExactly_sum _ _ 0 exactValue_zero Hexact) as (total & Hsum & Hfold).
    exists total. split; [exact Hsum|exact Hfold].
  - intros Hexact. rewrite Js_totalExpenses_fold.
    destruct (addsExactly_sum _ _ 0 exactValue_zero Hexact) as (total & Hsum & Hfold).
    exists total. split; [exact Hsum|exact Hfold].
  - intros Hexact. rewrite Js_piutang_fold.
    destruct (addsExactly_sum _ _ 0 exactValue_zero Hexact) as (total & Hsum & Hfold).
    exists total. split; [exact Hsum|exact Hfold].
  - vm_compute. reflexivity.
Qed.

(** The scenario of the specification, on whole amounts: two sales, one
    of them unpaid, and an expense that exceeds them. *)
Lemma metrics_sums_in_double_arithmetic_witness :
  let sales := [Js.Sale.mk 1 0 None "a" 50000 1 50000 None lunas;
                Js.Sale.mk 2 0 None "b" 20000 1 20000 None belum_bayar] in
  let expenses := [Js.Expense.mk 1 0 None 100000] in
  let m := Js.metrics sales expenses in
  Forall2 carries (List.map Js.Sale.total_price sales) [50000; 20000]
  /\ runningSumsFit 0 [50000; 20000] = true
  /\ carries (Js.totalRevenue m) 70000
  /\ carries (Js.totalExpenses m) 100000
  /\ carries (Js.piutang m) 20000
  /\ carries (Js.profit m) (-30000)
  /\ addsExactly 0 (List.map Js.Sale.total_price sales) = true.
Proof.
  cbv zeta.
  pose (sales := [Js.Sale.mk 1 0 None "a" 50000 1 50000 None lunas;
                  Js.Sale.mk 2 0 None "b" 20000 1 20000 None belum_bayar]).
  pose (expenses := [Js.Expense.mk 1 0 None 100000]).
  assert (Hsales : Forall2 carries (List.map Js.Sale.total_price sales) [50000; 20000])
    by (repeat constructor).
  assert (Hexpenses : Forall2 carries (List.map Js.Expense.total_cost expenses) [100000])
    by (repeat constructor).
  assert (Hunpaid : Forall2 carries (unpaidTotals sales) [20000]) by (repeat constructor).
  destruct (metrics_sums_in_double_arithmetic sales expenses)
    as (_ & _ & _ & _ & _ & _ & _ & _ & Hrevenue & Hcost & Hpiutang & Hprofit & _).
  pose proof (Hrevenue _ Hsales eq_refl) as Hr.
  pose proof (Hcost _ Hexpenses eq_refl) as Hc.
  split; [exact Hsales|]. split; [reflexivity|].
  split; [exact Hr|]. split; [exact Hc|].
  split; [exact (Hpiutang _ Hunpaid eq_refl)|].
  split; [|vm_compute; reflexivity].
  apply (Hprofit 70000 100000 Hr Hc). vm_compute. discriminate.
Defined.

(** C6, as stated, fails on amounts with cents.  With unpaid sales of 0.1
    and 0.15 around a paid sale of 0.2, marking the paid sale unpaid
    moves [piutang] from 0.25 to 0.45000000000000007: not by the sale's
    total, neither exactly nor as the double sum 0.25 + 0.2 = 0.45. *)
Lemma piutang_step_is_rounded :
  let before := [Js.Sale.mk 1 0 None "Pita" 0.1 1 0.1 None belum_bayar] in
  let s := Js.Sale.mk 2 0 None "Pita" 0.1 2 0.2 None lunas in
  let after := [Js.Sale.mk 3 0 None "Pita" 0.15 1 0.15 None belum_bayar] in
  let old := Js.metrics (before ++ s :: after) [] in
  let new := Js.metrics (before ++ Js.Sale.with_status belum_bayar s :: after) [] in
  Js.piutang old = 0.25%float
  /\ Js.piutang new = 0.45000000000000007%float
  /\ (Js.piutang old + Js.Sale.total_price s)%float = 0.45%float
  /\ PrimFloat.eqb (Js.piutang new) (Js.piutang old + Js.Sale.total_price s) = false
  /\ exists p t q,
      exactValue (Js.piutang old) = Some p
      /\ exactValue (Js.Sale.total_price s) = Some t
      /\ exactValue (Js.piutang new) = Some q
      /\ q <> p + t.
Proof.
  cbv zeta. split; [vm_compute; reflexivity|]. split; [vm_compute; reflexivity|].
  split; [vm_compute; reflexivity|]. split; [vm_compute; reflexivity|].
  eexists. eexists. eexists.
  split; [vm_compute; reflexivity|]. split; [vm_compute; reflexivity|].
  split; [vm_compute; reflexivity|]. vm_compute. discriminate.
Qed.

(** C6, amended.  When a sale of the list has status [lunas] and only its
    status is changed to [belum_bayar], [totalRevenue] (and with it
    [totalSales], [totalExpenses] and [profit]) stays the same double and
    [piutang] becomes the double sum, in the order of the list, of the
    unpaid totals with that sale's [total_price] among them.  It is the
    double sum of the old [piutang] and the sale's [total_price] when no
    unpaid sale follows the sale in the list.  It is larger than the old
    [piutang] by exactly the sale's [total_price] on whole amounts whose
    running sums stay within 2^53 in absolute value, and more generally
    whenever none of the additions of the old and of the new sum
    rounds. *)
Theorem piutang_after_marking_unpaid
    (before after : list Js.Sale.t) (s : Js.Sale.t) (expenses : list Js.Expense.t)
    (Hpaid : Js.Sale.status s = lunas) :
  let old := Js.metrics (before ++ s :: after) expenses in
  let new := Js.metrics (before ++ Js.Sale.with_status belum_bayar s :: after) expenses in
  Js.totalRevenue new = Js.totalRevenue old
  /\ Js.totalSales new = Js.totalSales old
  /\ Js.totalExpenses new = Js.totalExpenses old
  /\ Js.profit new = Js.profit old
  /\ Js.piutang old
     = fold_left PrimFloat.add (unpaidTotals before ++ unpaidTotals after) 0%float
  /\ Js.piutang new
     = fold_left PrimFloat.add
         (unpaidTotals before ++ Js.Sale.total_price s :: unpaidTotals after) 0%float
  /\ (unpaidTotals after = [] ->
      Js.piutang new = (Js.piutang old + Js.Sale.total_price s)%float)
  /\ (forall earlier later amount,
        Forall2 carries (unpaidTotals before) earlier ->
        carries (Js.Sale.total_price s) amount ->
        Forall2 carries (unpaidTotals after) later ->
        runningSumsFit 0 (earlier ++ later) = true ->
        runningSumsFit 0 (earlier ++ amount :: later) = true ->
        carries (Js.piutang old) (sumZ (earlier ++ later))
        /\ carries (Js.piutang new) (sumZ (earlier ++ later) + amount))
  /\ (addsExactly 0 (unpaidTotals before ++ unpaidTotals after) = true ->
      addsExactly 0 (unpaidTotals before ++ Js.Sale.total_price s :: unpaidTotals after)
      = true ->
      exists p t,
        exactValue (Js.piutang old) = Some p
        /\ exactValue (Js.Sale.total_price s) = Some t
        /\ exactValue (Js.piutang new) = Some (p + t)).
Proof.
  cbv zeta.
  assert (Hrevenue : Js.totalRevenue
                       (Js.metrics (before ++ Js.Sale.with_status belum_bayar s :: after)
                          expenses)
                     = Js.totalRevenue (Js.metrics (before ++ s :: after) expenses)).
  { rewrite !Js_totalRevenue_fold, !map_app. reflexivity. }
  assert (Hold : Js.piutang (Js.metrics (before ++ s :: after) expenses)
                 = fold_left PrimFloat.add (unpaidTotals before ++ unpaidTotals after)
                     0%float).
  { rewrite Js_piutang_fold, unpaidTotals_app. f_equal. f_equal.
    unfold unpaidTotals. cbn [List.filter]. rewrite Hpaid. reflexivity. }
  assert (Hnew : Js.piutang
                   (Js.metrics (before ++ Js.Sale.with_status belum_bayar s :: after)
                      expenses)
                 = fold_left PrimFloat.add
                     (unpaidTotals before ++ Js.Sale.total_price s :: unpaidTotals after)
                     0%float).
  { rewrite Js_piutang_fold, unpaidTotals_app. reflexivity. }
  split; [exact Hrevenue|].
  split; [unfold Js.metrics; cbn [Js.totalSales]; rewrite !length_app; reflexivity|].
  split; [reflexivity|].
  split.
  { change (Js.profit (Js.metrics ?l ?e))
      with (Js.totalRevenue (Js.metrics l e) - Js.totalExpenses (Js.metrics l e))%float.
    rewrite Hrevenue. reflexivity. }
  split; [exact Hold|]. split; [exact Hnew|]. split; [|split].
  - intros Hlast. rewrite Hnew, Hold, Hlast, app_nil_r, fold_left_app. reflexivity.
  - intros earlier later amount Hearlier Hamount Hlater Hfit Hfit'.
    rewrite Hold, Hnew. split.
    + exact (whole_sums _ _ (List.Forall2_app Hearlier Hlater) _ 0 carries_zero Hfit).
    + replace (sumZ (earlier ++ later) + amount) with (0 + sumZ (earlier ++ amount :: later))
        by (rewrite !sumZ_app; cbn [sumZ]; lia).
      refine (whole_sums _ _ (List.Forall2_app Hearlier _) _ 0 carries_zero Hfit').
      constructor; assumption.
  - intros Hexact Hexact'. rewrite Hnew, Hold.
    destruct (addsExactly_sum _ _ 0 exactValue_zero Hexact) as (p & Hp & Hfold).
    destruct (addsExactly_sum _ _ 0 exactValue_zero Hexact') as (q & Hq & Hfold').
    destruct (exactSum_insert _ _ _ _ Hq) as (p' & t & Hp' & Ht & Heq).
    rewrite Hp in Hp'. inversion Hp'; subst p'.
    exists p, t. split; [exact Hfold|]. split; [exact Ht|].
    rewrite Hfold'. f_equal. lia.
Qed.

Lemma piutang_after_marking_unpaid_witness :
  let before := [Js.Sale.mk 1 0 None "a" 50000 1 50000 None belum_bayar] in
  let s := Js.Sale.mk 2 0 None "b" 20000 1 20000 None lunas in
  let after := [Js.Sale.mk 3 0 None "c" 7000 1 7000 None belum_bayar] in
  let old := Js.metrics (before ++ s :: after) [] in
  let new := Js.metrics (before ++ Js.Sale.with_status belum_bayar s :: after) [] in
  Js.Sale.status s = lunas
  /\ Js.totalRevenue new = Js.totalRevenue old
  /\ carries (Js.piutang old) 57000
  /\ carries (Js.piutang new) 77000.
Proof.
  cbv zeta.
  pose (before := [Js.Sale.mk 1 0 None "a" 50000 1 50000 None belum_bayar]).
  pose (s := Js.Sale.mk 2 0 None "b" 20000 1 20000 None lunas).
  pose (after := [Js.Sale.mk 3 0 None "c" 7000 1 7000 None belum_bayar]).
  destruct (piutang_after_marking_unpaid before after s [] eq_refl)
    as (Hrevenue & _ & _ & _ & _ & _ & _ & Hwhole & _).
  split; [reflexivity|]. split; [exact Hrevenue|].
  apply (Hwhole [50000] [7000] 20000); try reflexivity; repeat constructor.
Defined.

(** * Range filter *)

Lemma filteredSales_In (fromDate toDate : DayNumber) (sales : list Sale.t) (s : Sale.t) :
  In s (filteredSales fromDate toDate sales)
  <-> In s sales /\ inRange fromDate toDate (Sale.sold_at s).
Proof.
  unfold filteredSales, inRange. rewrite filter_In.
  rewrite andb_true_iff, !Z.leb_le. tauto.
Qed.


Lemma filter_nothing {A : Type} (p : A -> bool) (l : list A) :
  (forall x, In x l -> p x = false) -> List.filter p l = [].
Proof.
  induction l as [|x l IH]; intros H; simpl; [reflexivity|].
  rewrite (H x) by (left; reflexivity).
  apply IH. intros y Hy. apply H. right. exact Hy.
Qed.




(** * Ledger export *)





Example ledger_scenario :
  exportExcel 20000 20002
    [Sale.mk 5 (DateFns.atStartOfDate 20001) (Some 9) "Modal / Dana Awal" 100000 1 100000 None lunas;
     Sale.mk 1 (DateFns.atStartOfDate 20000) None "Gelang" 10000 3 30000 None lunas]
    [Expense.mk 1 (DateFns.atStartOfDate 20002) None 4000]
  = {| totalPenjualan := 1; penjualan := 30000; totalModal := 100000;
       pengeluaran := 4000; pendapatanBersih := 26000 |}.
Proof. reflexivity. Qed.

(** * Snapshot loader *)

(** C9.  When one of the three requests (stock items, sales, expenses)
    comes back with an error, [loadAll] sets as error the first message in
    the order stock, sales, expenses and leaves the three collections of
    the page as they were: nothing of the requests that succeeded is
    stored. *)
Theorem loadAll_failure_keeps_collections
    (toNumber : RawValue -> Z)
    (stockRes : Response RawStockItem) (salesRes : Response RawSale)
    (expensesRes : Response RawExpense) (st : PageState)
    (Hfail : error stockRes <> None \/ error salesRes <> None
             \/ error expensesRes <> None) :
  let st' := loadAll toNumber true stockRes salesRes expensesRes st in
  (exists msg,
      firstMessage [error stockRes; error salesRes; error expensesRes] = Some msg
      /\ st_error st' = Some msg)
  /\ st_stockItems st' = st_stockItems st
  /\ st_sales st' = st_sales st
  /\ st_expenses st' = st_expenses st
  /\ st_loading st' = false.
Proof.
  cbv zeta. unfold loadAll. cbn [negb].
  destruct (error stockRes) as [e1|] eqn:E1;
    [|destruct (error salesRes) as [e2|] eqn:E2;
      [|destruct (error expensesRes) as [e3|] eqn:E3]];
    cbn.
  - split; [exists (message e1); split; reflexivity|]. repeat split.
  - split; [exists (message e2); split; reflexivity|]. repeat split.
  - split; [exists (message e3); split; reflexivity|]. repeat split.
  - exfalso. destruct Hfail as [H|[H|H]]; apply H; reflexivity.
Qed.

Lemma loadAll_failure_keeps_collections_witness :
  let stockRes : Response RawStockItem :=
    {| data := Some [Build_RawStockItem 1 "Gelang" (RawNumber 10000) (RawNumber 5) None 0];
       error := None |} in
  let salesRes : Response RawSale :=
    {| data := None; error := Some {| message := "permission denied for table sales" |} |} in
  let expensesRes : Response RawExpense :=
    {| data := None; error := Some {| message := "timeout" |} |} in
  let st := {| st_loading := true; st_error := None; st_stockItems := [];
               st_sales := [capitalRow 5]; st_expenses := [] |} in
  let st' := loadAll (fun _ => 0) true stockRes salesRes expensesRes st in
  st_error st' = Some "permission denied for table sales"
  /\ st_stockItems st' = [] /\ st_sales st' = [capitalRow 5] /\ st_expenses st' = [].
Proof.
  cbv zeta.
  pose proof (loadAll_failure_keeps_collections (fun _ => 0)
    {| data := Some [Build_RawStockItem 1 "Gelang" (RawNumber 10000) (RawNumber 5) None 0];
       error := None |}
    {| data := None; error := Some {| message := "permission denied for table sales" |} |}
    {| data := None; error := Some {| message := "timeout" |} |}
    {| st_loading := true; st_error := None; st_stockItems := [];
       st_sales := [capitalRow 5]; st_expenses := [] |}
    (or_intror (or_introl (@Some_ne_None _ _))))
    as ((msg & Hfirst & Herr) & Hstock & Hsales & Hexp & _).
  split; [|split; [exact Hstock|split; [exact Hsales|exact Hexp]]].
  rewrite Herr. cbn [firstMessage error message] in Hfirst. exact (eq_sym Hfirst).
Defined.

(** On success the three collections are replaced together. *)
Lemma loadAll_success
    (toNumber : RawValue -> Z)
    (stockRes : Response RawStockItem) (salesRes : Response RawSale)
    (expensesRes : Response RawExpense) (st : PageState) :
  error stockRes = None -> error salesRes = None -> error expensesRes = None ->
  let st' := loadAll toNumber true stockRes salesRes expensesRes st in
  st_error st' = None
  /\ st_sales st' = List.map (parseSale toNumber) (default [] (data salesRes))
  /\ st_expenses st' = List.map (parseExpense toNumber) (default [] (data expensesRes))
  /\ Forall (fun item => StockItem.name item <> SYSTEM_NAME) (st_stockItems st').
Proof.
  intros E1 E2 E3. cbv zeta. unfold loadAll. rewrite E1, E2, E3. cbn.
  repeat split.
  apply List.Forall_forall. intros item Hin.
  apply filter_In in Hin as [_ Hname].
  apply negb_true_iff, String.eqb_neq in Hname. exact Hname.
Qed.

(** * The stored procedure [create_sale] *)

Lemma alter_present (f : StockItem.t -> StockItem.t) (k : Z) (item : StockItem.t)
    (m : gmap Z StockItem.t) :
  m !! k = Some item -> alter f k m = <[k := f item]> m.
Proof.
  intros Hk. apply map_eq. intros j.
  rewrite lookup_alter, lookup_insert.
  destruct (decide (k = j)) as [->|Hne]; [rewrite Hk|]; reflexivity.
Qed.

Lemma status_text_accepted (p_status : option SaleStatus) :
  status_of_text (default "lunas" (text_of_status <$> p_status))
  = Some (default lunas p_status).
Proof. destruct p_status as [[]|]; reflexivity. Qed.

Ltac run_create_sale :=
  unfold create_sale, call, create_sale_body, mbind, Plpgsql_bind, bind,
    select_stock_item, update_stock, insert_sale, assign_numeric_14_2,
    raise_exception, ret.

(** The procedure, case by case, for any arguments. *)
Lemma create_sale_cases
    (new_id p_stock_item_id p_qty : Z) (p_buyer_name : option string)
    (p_sold_at : Timestamp) (p_status : option string) (db : Db.t) :
  create_sale new_id p_stock_item_id p_qty p_buyer_name p_sold_at p_status db
  = if negb (in_bigint p_stock_item_id)
    then (db, inl (out_of_range p_stock_item_id "bigint"))
    else if negb (in_integer p_qty) then (db, inl (out_of_range p_qty "integer"))
    else if p_qty <=? 0 then (db, inl "qty harus lebih dari 0")
    else
      match Db.stock_items db !! p_stock_item_id with
      | None => (db, inl "item tidak ditemukan")
      | Some item =>
          if StockItem.stock item <? p_qty then (db, inl "stok tidak cukup")
          else if negb (in_numeric_14_2 (StockItem.price item * p_qty))
          then (db, inl "numeric field overflow")
          else
            match status_of_text (default "lunas" p_status) with
            | None => (db, inl check_violation)
            | Some st =>
                let row :=
                  Sale.mk new_id p_sold_at (Some (StockItem.id item)) (StockItem.name item)
                    (StockItem.price item) p_qty (StockItem.price item * p_qty)
                    (nullif_trim p_buyer_name) st in
                (Db.mk (<[p_stock_item_id := decrement_stock p_qty item]> (Db.stock_items db))
                   (Db.sales db ++ [row]),
                 inr row)
            end
      end.
Proof.
  run_create_sale.
  destruct (negb (in_bigint p_stock_item_id)); [reflexivity|].
  destruct (negb (in_integer p_qty)); [reflexivity|].
  destruct (p_qty <=? 0); [reflexivity|]. cbn.
  destruct (Db.stock_items db !! p_stock_item_id) as [item|] eqn:Hitem; [|reflexivity].
  destruct (StockItem.stock item <? p_qty); [reflexivity|]. cbn.
  destruct (in_numeric_14_2 (StockItem.price item * p_qty)); [|reflexivity]. cbn.
  destruct (status_of_text (default "lunas" p_status)); [|reflexivity].
  rewrite (alter_present _ _ _ _ Hitem). reflexivity.
Qed.

(** Whatever the arguments, a call that fails leaves the store as it
    was. *)
Lemma create_sale_failure_leaves_store
    (new_id p_stock_item_id p_qty : Z) (p_buyer_name : option string)
    (p_sold_at : Timestamp) (p_status : option string) (db db' : Db.t) (msg : string) :
  create_sale new_id p_stock_item_id p_qty p_buyer_name p_sold_at p_status db
  = (db', inl msg) ->
  db' = db.
Proof.
  rewrite create_sale_cases.
  destruct (negb (in_bigint p_stock_item_id)); [congruence|].
  destruct (negb (in_integer p_qty)); [congruence|].
  destruct (p_qty <=? 0); [congruence|].
  destruct (Db.stock_items db !! p_stock_item_id) as [item|]; [|congruence].
  destruct (StockItem.stock item <? p_qty); [congruence|].
  destruct (negb (in_numeric_14_2 _)); [congruence|].
  destruct (status_of_text _); [discriminate|congruence].
Qed.

(** A status outside the two of the check constraint makes the insert,
    and with it the whole call, fail; the stock is not decremented. *)
Example create_sale_rejects_unknown_status :
  let db := Db.mk {[ 7 := StockItem.mk 7 "Gelang" 10000 5 None 0 ]} [] in
  create_sale 1 7 3 None 0 (Some "hutang") db = (db, inl check_violation).
Proof. vm_compute. reflexivity. Qed.

(** A quantity that is no 32-bit integer is refused as an argument. *)
Example create_sale_refuses_wide_quantity :
  let db := Db.mk {[ 7 := StockItem.mk 7 "Gelang" 10000 5 None 0 ]} [] in
  create_sale 1 7 2147483648 None 0 None db
  = (db, inl (out_of_range 2147483648 "integer"))
  /\ String.length (out_of_range 2147483648 "integer") = 51%nat
  /\ String.get 6 (out_of_range 2147483648 "integer") = Some "034"%char
  /\ String.substring 7 10 (out_of_range 2147483648 "integer") = "2147483648".
Proof. vm_compute. repeat split. Qed.

(** C2, as stated, fails: a quantity above 0, an existing item and enough
    stock do not make the call succeed.  The total of 2 units at
    999999999999 is no [numeric(14, 2)]: the call answers "numeric field
    overflow", takes no stock and adds no row. *)
Lemma create_sale_total_overflows :
  let item := StockItem.mk 7 "Gelang" 999999999999 5 None 0 in
  let db := Db.mk {[ 7 := item ]} [] in
  0 < 2 <= StockItem.stock item
  /\ Db.stock_items db !! 7 = Some item
  /\ create_sale 1 7 2 None 0 None db = (db, inl "numeric field overflow")
  /\ ~ exists item' row,
        create_sale 1 7 2 None 0 None db
        = (Db.mk (<[7 := item']> (Db.stock_items db)) (Db.sales db ++ [row]), inr row).
Proof.
  cbv zeta. split; [simpl; lia|]. split; [vm_compute; reflexivity|].
  assert (H : create_sale 1 7 2 None 0 None
                (Db.mk {[ 7 := StockItem.mk 7 "Gelang" 999999999999 5 None 0 ]} [])
              = (Db.mk {[ 7 := StockItem.mk 7 "Gelang" 999999999999 5 None 0 ]} [],
                 inl "numeric field overflow"))
    by (vm_compute; reflexivity).
  split; [exact H|].
  intros (item' & row & Hrun). rewrite H in Hrun. discriminate Hrun.
Qed.

(** C2, amended.  [create_sale] is all or nothing.  For arguments of the
    parameters' types (a 64-bit id, a 32-bit quantity): with [p_qty > 0],
    an existing stock item, at least [p_qty] in stock, a total
    [price * p_qty] that fits [numeric(14, 2)] and a status text the check
    constraint accepts (or none), it lowers that item's stock by exactly
    [p_qty] and appends one sale row that takes [item_name] and
    [unit_price] from the stock item and has
    [total_price = unit_price * p_qty]; with [p_qty <= 0], no such item,
    or too little stock, it fails, each time with a message of its own;
    with enough stock and a total that does not fit it fails with
    "numeric field overflow".  Whatever the arguments, a call that fails
    leaves the store as it was, and a call succeeds only in the first
    case.  On a stock item of price 10000 and stock 5, a sale of 3 leaves
    stock 2 and a sale row of total 30000; a second sale of 3 fails for
    lack of stock and the stock stays 2. *)
Theorem create_sale_all_or_nothing
    (new_id p_stock_item_id p_qty : Z) (p_buyer_name : option string)
    (p_sold_at : Timestamp) (p_status : option string) (db : Db.t) :
  let result :=
    create_sale new_id p_stock_item_id p_qty p_buyer_name p_sold_at p_status db in
  let typed := in_bigint p_stock_item_id = true /\ in_integer p_qty = true in
  (typed -> p_qty <= 0 -> result = (db, inl "qty harus lebih dari 0"))
  /\ (typed -> 0 < p_qty -> Db.stock_items db !! p_stock_item_id = None ->
      result = (db, inl "item tidak ditemukan"))
  /\ (forall item,
        typed -> 0 < p_qty -> Db.stock_items db !! p_stock_item_id = Some item ->
        StockItem.stock item < p_qty ->
        result = (db, inl "stok tidak cukup"))
  /\ (forall item,
        typed -> 0 < p_qty -> Db.stock_items db !! p_stock_item_id = Some item ->
        p_qty <= StockItem.stock item ->
        in_numeric_14_2 (StockItem.price item * p_qty) = false ->
        result = (db, inl "numeric field overflow"))
  /\ (forall item st,
        typed -> 0 < p_qty -> Db.stock_items db !! p_stock_item_id = Some item ->
        p_qty <= StockItem.stock item ->
        in_numeric_14_2 (StockItem.price item * p_qty) = true ->
        status_of_text (default "lunas" p_status) = Some st ->
        exists item' row,
          result
          = (Db.mk (<[p_stock_item_id := item']> (Db.stock_items db))
               (Db.sales db ++ [row]),
             inr row)
          /\ StockItem.stock item' = StockItem.stock item - p_qty
          /\ StockItem.id item' = StockItem.id item
          /\ StockItem.name item' = StockItem.name item
          /\ StockItem.price item' = StockItem.price item
          /\ Sale.item_name row = StockItem.name item
          /\ Sale.unit_price row = StockItem.price item
          /\ Sale.qty row = p_qty
          /\ Sale.total_price row = Sale.unit_price row * p_qty
          /\ Sale.sold_at row = p_sold_at
          /\ Sale.status row = st)
  /\ (forall db' msg, result = (db', inl msg) -> db' = db)
  /\ (forall db' row,
        result = (db', inr row) ->
        typed /\ 0 < p_qty
        /\ exists item,
            Db.stock_items db !! p_stock_item_id = Some item
            /\ p_qty <= StockItem.stock item
            /\ in_numeric_14_2 (StockItem.price item * p_qty) = true
            /\ status_of_text (default "lunas" p_status) = Some (Sale.status row))
  /\ ("qty harus lebih dari 0" <> "item tidak ditemukan"
      /\ "qty harus lebih dari 0" <> "stok tidak cukup"
      /\ "item tidak ditemukan" <> "stok tidak cukup")
  /\ (let item := StockItem.mk 7 "Gelang" 10000 5 None 0 in
      let db0 := Db.mk {[ 7 := item ]} [] in
      exists db1 sale1,
        create_sale 1 7 3 None 0 None db0 = (db1, inr sale1)
        /\ StockItem.stock <$> Db.stock_items db1 !! 7 = Some 2
        /\ Sale.total_price sale1 = 30000
        /\ exists db2,
            create_sale 2 7 3 None 1 None db1 = (db2, inl "stok tidak cukup")
            /\ StockItem.stock <$> Db.stock_items db2 !! 7 = Some 2
            /\ Db.sales db2 = [sale1]).
Proof.
  cbv zeta. rewrite create_sale_cases.
  split; [|split; [|split; [|split; [|split; [|split; [|split; [|split]]]]]]].
  - intros [Hid Hint] Hq. rewrite Hid, Hint. cbn [negb].
    apply Z.leb_le in Hq. rewrite Hq. reflexivity.
  - intros [Hid Hint] Hq Hnone. rewrite Hid, Hint. cbn [negb].
    apply Z.leb_gt in Hq. rewrite Hq, Hnone. reflexivity.
  - intros item [Hid Hint] Hq Hsome Hlow. rewrite Hid, Hint. cbn [negb].
    apply Z.leb_gt in Hq. rewrite Hq, Hsome.
    apply Z.ltb_lt in Hlow. rewrite Hlow. reflexivity.
  - intros item [Hid Hint] Hq Hsome Henough Hwide. rewrite Hid, Hint. cbn [negb].
    apply Z.leb_gt in Hq. rewrite Hq, Hsome.
    apply Z.ltb_ge in Henough. rewrite Henough, Hwide. reflexivity.
  - intros item st [Hid Hint] Hq Hsome Henough Hfits Hstatus.
    rewrite Hid, Hint. cbn [negb].
    apply Z.leb_gt in Hq. rewrite Hq, Hsome.
    apply Z.ltb_ge in Henough. rewrite Henough, Hfits, Hstatus. cbn [negb].
    eexists. eexists. split; [reflexivity|]. cbn. repeat split.
  - intros db' msg.
    destruct (negb (in_bigint p_stock_item_id)); [congruence|].
    destruct (negb (in_integer p_qty)); [congruence|].
    destruct (p_qty <=? 0); [congruence|].
    destruct (Db.stock_items db !! p_stock_item_id) as [item|]; [|congruence].
    destruct (StockItem.stock item <? p_qty); [congruence|].
    destruct (negb (in_numeric_14_2 _)); [congruence|].
    destruct (status_of_text _); [discriminate|congruence].
  - intros db' row.
    destruct (in_bigint p_stock_item_id); cbn [negb]; [|discriminate].
    destruct (in_integer p_qty); cbn [negb]; [|discriminate].
    destruct (p_qty <=? 0) eqn:Hq; [discriminate|].
    destruct (Db.stock_items db !! p_stock_item_id) as [item|]; [|discriminate].
    destruct (StockItem.stock item <? p_qty) eqn:Hstock; [discriminate|].
    destruct (in_numeric_14_2 _) eqn:Hfits; cbn [negb]; [|discriminate].
    destruct (status_of_text _) as [st|]; [|discriminate].
    intros H. inversion H; subst. cbn [Sale.status].
    apply Z.leb_gt in Hq. apply Z.ltb_ge in Hstock.
    split; [split; reflexivity|]. split; [exact Hq|].
    exists item. repeat split; assumption.
  - repeat split; discriminate.
  - eexists. eexists. split; [vm_compute; reflexivity|].
    split; [vm_compute; reflexivity|].
    split; [reflexivity|].
    eexists. split; [vm_compute; reflexivity|].
    split; vm_compute; reflexivity.
Qed.

Lemma create_sale_all_or_nothing_witness :
  let item := StockItem.mk 7 "Gelang" 10000 5 None 0 in
  let db := Db.mk {[ 7 := item ]} [] in
  create_sale 1 7 0 None 0 (Some "lunas") db = (db, inl "qty harus lebih dari 0")
  /\ create_sale 1 8 1 None 0 (Some "lunas") db = (db, inl "item tidak ditemukan")
  /\ create_sale 1 7 6 None 0 (Some "lunas") db = (db, inl "stok tidak cukup")
  /\ create_sale 1 7 5 None 0 (Some "lunas")
       (Db.mk {[ 7 := StockItem.mk 7 "Gelang" 300000000000 5 None 0 ]} [])
     = (Db.mk {[ 7 := StockItem.mk 7 "Gelang" 300000000000 5 None 0 ]} [],
        inl "numeric field overflow")
  /\ (exists item' row,
        create_sale 1 7 5 None 0 (Some "belum_bayar") db
        = (Db.mk (<[7 := item']> (Db.stock_items db)) [row], inr row)
        /\ StockItem.stock item' = 0
        /\ Sale.total_price row = 50000
        /\ Sale.status row = belum_bayar)
  /\ (forall db' msg, create_sale 1 7 3 None 0 (Some "hutang") db = (db', inl msg) -> db' = db).
Proof.
  cbv zeta.
  pose (item := StockItem.mk 7 "Gelang" 10000 5 None 0).
  pose (db := Db.mk {[ 7 := item ]} []).
  pose (dear := StockItem.mk 7 "Gelang" 300000000000 5 None 0).
  assert (Hitem : Db.stock_items db !! 7 = Some item) by (vm_compute; reflexivity).
  assert (Hnone : Db.stock_items db !! 8 = None) by (vm_compute; reflexivity).
  assert (Hdear : Db.stock_items (Db.mk {[ 7 := dear ]} []) !! 7 = Some dear)
    by (vm_compute; reflexivity).
  assert (Htyped : forall k q, in_bigint k = true -> in_integer q = true ->
                     in_bigint k = true /\ in_integer q = true) by (intros; split; assumption).
  split.
  { exact (proj1 (create_sale_all_or_nothing 1 7 0 None 0 (Some "lunas") db)
             (Htyped 7 0 eq_refl eq_refl) ltac:(lia)). }
  split.
  { exact (proj1 (proj2 (create_sale_all_or_nothing 1 8 1 None 0 (Some "lunas") db))
             (Htyped 8 1 eq_refl eq_refl) ltac:(lia) Hnone). }
  split.
  { refine (proj1 (proj2 (proj2 (create_sale_all_or_nothing 1 7 6 None 0 (Some "lunas") db)))
              item (Htyped 7 6 eq_refl eq_refl) ltac:(lia) Hitem _).
    simpl. lia. }
  split.
  { refine (proj1 (proj2 (proj2 (proj2
              (create_sale_all_or_nothing 1 7 5 None 0 (Some "lunas")
                 (Db.mk {[ 7 := dear ]} [])))))
              dear (Htyped 7 5 eq_refl eq_refl) ltac:(lia) Hdear _ eq_refl).
    simpl. lia. }
  split.
  { destruct (proj1 (proj2 (proj2 (proj2 (proj2
                (create_sale_all_or_nothing 1 7 5 None 0 (Some "belum_bayar") db)))))
                item belum_bayar (Htyped 7 5 eq_refl eq_refl) ltac:(lia) Hitem
                ltac:(simpl; lia) eq_refl eq_refl)
      as (item' & row & Hres & Hstock & _ & _ & _ & _ & Hprice & _ & Htotal & _ & Hstatus).
    exists item', row. split; [exact Hres|]. split; [exact Hstock|].
    split; [rewrite Htotal, Hprice; reflexivity|exact Hstatus]. }
  exact (proj1 (proj2 (proj2 (proj2 (proj2 (proj2
           (create_sale_all_or_nothing 1 7 3 None 0 (Some "hutang") db))))))).
Defined.

(** * Merged transaction feed *)

Section SortFacts.
Context {A : Type} (compareFn : A -> A -> Z).

Lemma sortInsert_Permutation (a : A) (l : list A) :
  Permutation (sortInsert compareFn a l) (a :: l).
Proof.
  induction l as [|b r IH]; simpl.
  - reflexivity.
  - destruct (compareFn a b <=? 0).
    + reflexivity.
    + rewrite IH. apply perm_swap.
Qed.

Lemma sort_Permutation (l : list A) : Permutation (sort compareFn l) l.
Proof.
  induction l as [|a r IH]; simpl.
  - reflexivity.
  - rewrite sortInsert_Permutation. constructor. exact IH.
Qed.

(** A relation between earlier and later elements that holds whenever
    the comparator separates the two survives the sort: the sort only
    moves an element past elements the comparator puts strictly before
    it. *)
Variable R : A -> A -> Prop.
Hypothesis R_separated : forall x y, 0 < compareFn x y -> R y x.

Lemma sortInsert_ForallOrdPairs (a : A) (l : list A) :
  Forall (R a) l -> ForallOrdPairs R l ->
  ForallOrdPairs R (sortInsert compareFn a l).
Proof.
  induction l as [|b r IH]; intros Ha Hl; simpl.
  - constructor; [constructor|constructor].
  - destruct (compareFn a b <=? 0) eqn:E.
    + constructor; assumption.
    + apply Z.leb_gt in E.
      inversion Hl as [|? ? Hb Hr]; subst.
      inversion Ha as [|? ? Hab Har]; subst.
      constructor.
      * apply (Permutation_Forall (Permutation_sym (sortInsert_Permutation a r))).
        constructor; [apply R_separated; exact E | exact Hb].
      * apply IH; assumption.
Qed.

Lemma sort_ForallOrdPairs (l : list A) :
  ForallOrdPairs R l -> ForallOrdPairs R (sort compareFn l).
Proof.
  induction l as [|a r IH]; intros Hl; simpl.
  - constructor.
  - inversion Hl as [|? ? Ha Hr]; subst.
    apply sortInsert_ForallOrdPairs.
    + apply (Permutation_Forall (Permutation_sym (sort_Permutation r))). exact Ha.
    + apply IH. exact Hr.
Qed.
End SortFacts.

Lemma sortInsert_descending (a : Transaction.t) (l : list Transaction.t) :
  StronglySorted notEarlier l ->
  StronglySorted notEarlier (sortInsert byDateDescending a l).
Proof.
  induction l as [|b r IH]; intros Hl; simpl.
  - constructor; constructor.
  - inversion Hl as [|? ? Hr Hb]; subst.
    destruct (byDateDescending a b <=? 0) eqn:E.
    + apply Z.leb_le in E. unfold byDateDescending in E.
      constructor; [exact Hl|].
      constructor; [unfold notEarlier; lia|].
      eapply List.Forall_impl; [|exact Hb].
      unfold notEarlier. intros y Hy. lia.
    + apply Z.leb_gt in E. unfold byDateDescending in E.
      constructor; [apply IH; exact Hr|].
      apply (Permutation_Forall (Permutation_sym (sortInsert_Permutation _ a r))).
      constructor; [unfold notEarlier; lia | exact Hb].
Qed.

Lemma sort_descending (l : list Transaction.t) :
  StronglySorted notEarlier (sort byDateDescending l).
Proof.
  induction l as [|a r IH]; simpl.
  - constructor.
  - apply sortInsert_descending. exact IH.
Qed.

Lemma combined_saleFirst (sales : list Sale.t) (expenses : list Expense.t) :
  ForallOrdPairs saleFirst
    (List.map saleTransaction sales ++ List.map expenseTransaction expenses).
Proof.
  induction sales as [|s sales IH]; simpl.
  - induction expenses as [|e expenses IHe]; simpl; constructor; [|exact IHe].
    apply List.Forall_forall. intros y Hy _ Hsale.
    apply in_map_iff in Hy as (e' & <- & _). discriminate Hsale.
  - constructor; [|exact IH].
    apply List.Forall_forall. intros y _ Hexp. discriminate Hexp.
Qed.

Lemma ForallOrdPairs_middle {A : Type} (R : A -> A -> Prop) (l1 l2 l3 : list A) (x y : A) :
  ForallOrdPairs R (l1 ++ x :: l2 ++ y :: l3) -> R x y.
Proof.
  induction l1 as [|a l1 IH]; simpl; intros H; inversion H as [|? ? Hx Hrest]; subst.
  - rewrite List.Forall_forall in Hx. apply Hx.
    apply in_or_app. right. left. reflexivity.
  - apply IH. exact Hrest.
Qed.

Lemma two_members_ordered {A : Type} (l : list A) (x y : A) :
  x <> y -> In x l -> In y l ->
  (exists l1 l2 l3, l = l1 ++ x :: l2 ++ y :: l3)
  \/ (exists l1 l2 l3, l = l1 ++ y :: l2 ++ x :: l3).
Proof.
  intros Hne Hx Hy.
  apply in_split in Hx as (l1 & l2 & ->).
  apply in_app_or in Hy as [Hy|[Hy|Hy]].
  - right. apply in_split in Hy as (a & b & ->).
    exists a, b, l2. rewrite <- app_assoc. reflexivity.
  - contradiction.
  - left. apply in_split in Hy as (a & b & ->).
    exists l1, a, b. reflexivity.
Qed.

(** C8.  For all sales and expenses, [transactions] holds the merged
    entries (each sale and each expense, once per occurrence) with dates
    that never increase along the list, and for a sale and an expense
    with the same time stamp the entry of the sale comes before the entry
    of the expense; no entry of expense type precedes an entry of sale
    type of the same date. *)
Theorem transactions_sorted_sales_first
    (sales : list Sale.t) (expenses : list Expense.t) :
  Permutation (transactions sales expenses)
    (List.map saleTransaction sales ++ List.map expenseTransaction expenses)
  /\ StronglySorted notEarlier (transactions sales expenses)
  /\ ForallOrdPairs saleFirst (transactions sales expenses)
  /\ (forall s e,
        In s sales -> In e expenses -> Sale.sold_at s = Expense.bought_at e ->
        exists l1 l2 l3,
          transactions sales expenses
          = l1 ++ saleTransaction s :: l2 ++ expenseTransaction e :: l3).
Proof.
  assert (Hperm : Permutation (transactions sales expenses)
            (List.map saleTransaction sales ++ List.map expenseTransaction expenses))
    by apply sort_Permutation.
  assert (Hfirst : ForallOrdPairs saleFirst (transactions sales expenses)).
  { apply sort_ForallOrdPairs; [|apply combined_saleFirst].
    unfold byDateDescending, saleFirst. intros x y Hlt _ _. lia. }
  split; [exact Hperm|]. split; [apply sort_descending|]. split; [exact Hfirst|].
  intros s e Hs He Hdate.
  assert (Hins : In (saleTransaction s) (transactions sales expenses)).
  { apply (Permutation_in _ (Permutation_sym Hperm)).
    apply in_or_app. left. apply in_map. exact Hs. }
  assert (Hine : In (expenseTransaction e) (transactions sales expenses)).
  { apply (Permutation_in _ (Permutation_sym Hperm)).
    apply in_or_app. right. apply in_map. exact He. }
  assert (Hne : saleTransaction s <> expenseTransaction e).
  { intros Habs. apply (f_equal Transaction.type) in Habs. discriminate Habs. }
  destruct (two_members_ordered (transactions sales expenses)
              (saleTransaction s) (expenseTransaction e) Hne Hins Hine)
    as [Hord|(l1 & l2 & l3 & Heq)].
  - exact Hord.
  - exfalso. rewrite Heq in Hfirst.
    apply ForallOrdPairs_middle in Hfirst.
    apply Hfirst; try reflexivity. simpl. symmetry. exact Hdate.
Qed.

Lemma transactions_sorted_sales_first_witness :
  let s := Sale.mk 1 500 None "Gelang" 10000 1 10000 None lunas in
  let e := Expense.mk 1 500 (Some "Kardus") 3000 in
  let sales := [Sale.mk 2 900 None "Pin" 5000 1 5000 None lunas; s] in
  let expenses := [Expense.mk 2 700 None 1000; e] in
  exists l1 l2 l3,
    transactions sales expenses
    = l1 ++ saleTransaction s :: l2 ++ expenseTransaction e :: l3.
Proof.
  cbv zeta.
  apply (proj2 (proj2 (proj2 (transactions_sorted_sales_first
           [Sale.mk 2 900 None "Pin" 5000 1 5000 None lunas;
            Sale.mk 1 500 None "Gelang" 10000 1 10000 None lunas]
           [Expense.mk 2 700 None 1000; Expense.mk 1 500 (Some "Kardus") 3000])))).
  - simpl. right. left. reflexivity.
  - simpl. right. left. reflexivity.
  - reflexivity.
Defined.

Example transactions_example :
  List.map (fun t => (Transaction.type t, Transaction.numericId t, Transaction.date t))
    (transactions
       [Sale.mk 2 900 None "Pin" 5000 1 5000 None lunas;
        Sale.mk 1 500 None "Gelang" 10000 1 10000 None lunas]
       [Expense.mk 2 700 None 1000; Expense.mk 1 500 (Some "Kardus") 3000])
  = [(Transaction.sale, 2, 900); (Transaction.expense, 2, 700);
     (Transaction.sale, 1, 500); (Transaction.expense, 1, 500)].
Proof. reflexivity. Qed.

(** * Capital entry *)

Lemma getSystemModalId_configured (gen : Generated) (db : Db.t) :
  exists db1 modalStockId,
    getSystemModalId true gen db = (db1, Some modalStockId)
    /\ Db.sales db1 = Db.sales db.
Proof.
  unfold getSystemModalId. cbn [negb].
  destruct (List.filter _ _) as [|[k existing] [|second rest]];
    eexists; eexists; split; reflexivity.
Qed.

Lemma piutang_app (l1 l2 : list Sale.t) (expenses : list Expense.t) :
  piutang (metrics (l1 ++ l2) expenses)
  = piutang (metrics l1 expenses) + piutang (metrics l2 expenses).
Proof. rewrite !piutang_sum, map_app, sumZ_app. reflexivity. Qed.

Lemma piutang_paid_capital (snapshot : list Sale.t) (expenses : list Expense.t) :
  (forall s, In s snapshot -> is_capital s = true -> Sale.status s = lunas) ->
  piutang (metrics snapshot expenses)
  = piutang (metrics (List.filter (fun s => negb (is_capital s)) snapshot) expenses).
Proof.
  intros Hpaid. rewrite !piutang_sum.
  rewrite (sumZ_filter (fun s => negb (is_capital s))).
  f_equal. apply map_ext_in. intros s Hs.
  destruct (is_capital s) eqn:Ecap; cbn [negb]; [|reflexivity].
  unfold is_unpaid. rewrite (Hpaid s Hs Ecap). reflexivity.
Qed.

(** C10, as stated, fails on "for every snapshot": a capital injection
    entered through [handleSubmitModal] and then switched to unpaid in the
    edit dialog of the transaction list is a capital row of the snapshot
    that counts in [piutang]. *)
Lemma edited_capital_counts_in_piutang :
  let gen := {| new_stock_item_id := 50; new_sale_id := 60; created_now := 0 |} in
  let db1 := (handleSubmitModal true (Some 100000) 0 gen (Db.mk ∅ [])).1 in
  let db2 := onUpdateSale 60 markUnpaid (Db.sales db1) db1 in
  let snapshot := Db.sales db2 in
  List.map Sale.item_name snapshot = ["Modal / Dana Awal"]
  /\ piutang (metrics snapshot []) = 100000
  /\ piutang (metrics (List.filter (fun s => negb (is_capital s)) snapshot) []) = 0
  /\ piutang (metrics snapshot [])
     <> piutang (metrics (List.filter (fun s => negb (is_capital s)) snapshot) []).
Proof. vm_compute. repeat split; congruence. Qed.

(** C10, amended.  A capital entry with a positive amount succeeds and
    appends one sale row with item name "Modal / Dana Awal", quantity 1,
    unit price and total price equal to the amount, and status [lunas];
    the entry leaves [piutang] as it was, and in every snapshot whose
    capital rows still have the status they were inserted with, the
    capital rows add nothing to [piutang]. *)
Theorem capital_entry_is_paid
    (amount : Z) (modalDate : Timestamp) (gen : Generated) (db : Db.t)
    (expenses : list Expense.t) (Hpositive : 0 < amount) :
  (exists db' row,
      handleSubmitModal true (Some amount) modalDate gen db = (db', None)
      /\ Db.sales db' = Db.sales db ++ [row]
      /\ Sale.item_name row = "Modal / Dana Awal"
      /\ Sale.qty row = 1
      /\ Sale.unit_price row = amount
      /\ Sale.total_price row = amount
      /\ Sale.status row = lunas
      /\ piutang (metrics (Db.sales db') expenses)
         = piutang (metrics (Db.sales db) expenses))
  /\ (forall snapshot : list Sale.t,
        (forall s, In s snapshot -> is_capital s = true -> Sale.status s = lunas) ->
        piutang (metrics snapshot expenses)
        = piutang (metrics (List.filter (fun s => negb (is_capital s)) snapshot) expenses)).
Proof.
  split; [|intros snapshot; apply piutang_paid_capital].
  destruct (getSystemModalId_configured gen db) as (db1 & modalStockId & Hid & Hsales).
  unfold handleSubmitModal. cbn [negb].
  apply Z.leb_gt in Hpositive. rewrite Hpositive, Hid.
  eexists. eexists. split; [reflexivity|].
  cbn [Db.sales]. rewrite Hsales.
  split; [reflexivity|]. repeat (split; [reflexivity|]).
  rewrite piutang_app. rewrite (piutang_sum [_]). cbn. lia.
Qed.

Lemma capital_entry_is_paid_witness :
  let gen := {| new_stock_item_id := 50; new_sale_id := 60; created_now := 0 |} in
  let db := Db.mk ∅ [Sale.mk 1 0 None "Gelang" 10000 2 20000 None belum_bayar] in
  exists db' row,
    handleSubmitModal true (Some 100000) 5 gen db = (db', None)
    /\ Db.sales db' = Db.sales db ++ [row]
    /\ Sale.status row = lunas
    /\ piutang (metrics (Db.sales db') []) = 20000.
Proof.
  cbv zeta.
  destruct (proj1 (capital_entry_is_paid 100000 5
              {| new_stock_item_id := 50; new_sale_id := 60; created_now := 0 |}
              (Db.mk ∅ [Sale.mk 1 0 None "Gelang" 10000 2 20000 None belum_bayar])
              [] ltac:(lia)))
    as (db' & row & Hrun & Hsales & _ & _ & _ & _ & Hstatus & Hpiutang).
  exists db', row.
  split; [exact Hrun|]. split; [exact Hsales|]. split; [exact Hstatus|].
  rewrite Hpiutang. reflexivity.
Defined.

(** * Daily chart series *)

Lemma dayOf_subDays (t : Timestamp) (n : Z) :
  DateFns.dayOf (DateFns.subDays t n) = DateFns.dayOf t - n.
Proof.
  unfold DateFns.dayOf, DateFns.subDays, DateFns.MS_PER_DAY.
  replace (t - n * 86400000) with (t + (- n) * 86400000) by lia.
  rewrite Z.div_add by lia. lia.
Qed.

Lemma before_start_is_earlier_day (t : Timestamp) (d : DayNumber) :
  t < d * DateFns.MS_PER_DAY <-> DateFns.dayOf t < d.
Proof.
  unfold DateFns.dayOf, DateFns.MS_PER_DAY. split; intros H.
  - apply Z.div_lt_upper_bound; lia.
  - pose proof (Z.mul_div_le t 86400000 ltac:(lia)).
    pose proof (Z.mod_pos_bound t 86400000 ltac:(lia)).
    pose proof (Z.div_mod t 86400000 ltac:(lia)). lia.
Qed.

Lemma chart_start (now : Timestamp) :
  DateFns.startOfDay (DateFns.subDays now 29)
  = (DateFns.dayOf now - 29) * DateFns.MS_PER_DAY.
Proof. unfold DateFns.startOfDay. rewrite dayOf_subDays. reflexivity. Qed.


Lemma JsMap_set_present {V : Type} (k : DayNumber) (v : V) (m : JsMap.t V) :
  In k (JsMap.keys m) -> JsMap.keys (JsMap.set k v m) = JsMap.keys m.
Proof.
  unfold JsMap.keys. induction m as [|[k0 v0] m IH]; simpl; intros Hin.
  - contradiction.
  - destruct (k0 =? k) eqn:E; simpl.
    + apply Z.eqb_eq in E. subst. reflexivity.
    + apply Z.eqb_neq in E. destruct Hin as [Hin|Hin]; [contradiction|].
      rewrite IH by exact Hin. reflexivity.
Qed.

Lemma JsMap_set_absent {V : Type} (k : DayNumber) (v : V) (m : JsMap.t V) :
  ~ In k (JsMap.keys m) -> JsMap.set k v m = m ++ [(k, v)].
Proof.
  unfold JsMap.keys. induction m as [|[k0 v0] m IH]; simpl; intros Hin.
  - reflexivity.
  - destruct (k0 =? k) eqn:E.
    + apply Z.eqb_eq in E. tauto.
    + rewrite IH by tauto. reflexivity.
Qed.

Lemma zero_buckets (ks : list DayNumber) (m : JsMap.t Z) :
  NoDup ks -> (forall k, In k ks -> ~ In k (JsMap.keys m)) ->
  fold_left (fun acc k => JsMap.set k 0 acc) ks m
  = m ++ List.map (fun k => (k, 0)) ks.
Proof.
  revert m. induction ks as [|k ks IH]; intros m Hnd Hfresh; simpl.
  - rewrite app_nil_r. reflexivity.
  - apply NoDup_cons in Hnd as [Hk Hnd].
    rewrite JsMap_set_absent by (apply Hfresh; left; reflexivity).
    rewrite IH; [rewrite <- app_assoc; reflexivity | exact Hnd |].
    intros k' Hk' Hin. unfold JsMap.keys in Hin.
    rewrite map_app in Hin. apply in_app_or in Hin as [Hin|[Hin|[]]].
    + apply (Hfresh k'); [right; exact Hk' | exact Hin].
    + simpl in Hin. subst k'. apply Hk. apply list_elem_of_In. exact Hk'.
Qed.

Lemma fold_left_map {A B C : Type} (f : A -> B -> A) (g : C -> B) (l : list C) (a : A) :
  fold_left (fun acc c => f acc (g c)) l a = fold_left f (List.map g l) a.
Proof. revert a. induction l as [|c l IH]; intros a; simpl; [reflexivity|apply IH]. Qed.

Lemma fold_left_pointwise {A B : Type} (f g : A -> B -> A) (l : list B) (a : A) :
  (forall acc b, f acc b = g acc b) -> fold_left f l a = fold_left g l a.
Proof.
  intros Hfg. revert a. induction l as [|b l IH]; intros a; simpl; [reflexivity|].
  rewrite Hfg. apply IH.
Qed.

Lemma windowDays_NoDup (now : Timestamp) : NoDup (windowDays now).
Proof.
  unfold windowDays. apply NoDup_fmap_2; [|apply NoDup_seqZ].
  intros i j Hij. lia.
Qed.

Lemma windowDays_In (now : Timestamp) (k : DayNumber) :
  In k (windowDays now) <-> DateFns.dayOf now - 29 <= k <= DateFns.dayOf now.
Proof.
  unfold windowDays. rewrite in_map_iff. split.
  - intros (i & <- & Hi). apply list_elem_of_In, elem_of_seqZ in Hi. lia.
  - intros Hk. exists (k - (DateFns.dayOf now - 29)). split; [lia|].
    apply list_elem_of_In, elem_of_seqZ. lia.
Qed.

Lemma shifted_seqZ_ascending (c m : Z) (n : nat) :
  StronglySorted Z.lt (List.map (fun i => c + i) (seqZ m (Z.of_nat n))).
Proof.
  revert m. induction n as [|n IH]; intros m.
  - constructor.
  - rewrite seqZ_cons by lia.
    replace (Z.pred (Z.of_nat (S n))) with (Z.of_nat n) by lia.
    cbn [List.map]. constructor; [apply IH|].
    apply List.Forall_forall. intros x Hx.
    apply in_map_iff in Hx as (i & <- & Hi).
    apply list_elem_of_In, elem_of_seqZ in Hi. lia.
Qed.

Lemma windowDays_ascending (now : Timestamp) : StronglySorted Z.lt (windowDays now).
Proof. apply (shifted_seqZ_ascending (DateFns.dayOf now - 29) 0 30). Qed.

(** The loop leaves one zero bucket per day of the window, oldest first. *)
Lemma initialBuckets_window (now : Timestamp) :
  initialBuckets now = List.map (fun k => (k, 0)) (windowDays now).
Proof.
  unfold initialBuckets.
  rewrite (fold_left_pointwise _
             (fun acc i => JsMap.set (DateFns.dayOf now - 29 + i) 0 acc)).
  2:{ intros acc i. cbv zeta. rewrite dayOf_subDays. f_equal. lia. }
  rewrite (fold_left_map (fun acc k => JsMap.set k 0 acc)
             (fun i => DateFns.dayOf now - 29 + i)).
  fold (windowDays now).
  rewrite zero_buckets; [reflexivity | apply windowDays_NoDup | intros k _ []].
Qed.

Lemma addSale_keeps_keys (now : Timestamp) (m : JsMap.t Z) (s : Sale.t) :
  JsMap.keys m = windowDays now ->
  DateFns.dayOf (Sale.sold_at s) <= DateFns.dayOf now ->
  JsMap.keys (addSale (DateFns.startOfDay (DateFns.subDays now 29)) m s)
  = windowDays now.
Proof.
  intros Hkeys Hpast. unfold addSale. rewrite chart_start.
  destruct (Sale.sold_at s <? _) eqn:E; [exact Hkeys|].
  apply Z.ltb_ge in E.
  rewrite JsMap_set_present; [exact Hkeys|].
  rewrite Hkeys. apply windowDays_In. split; [|exact Hpast].
  destruct (Z_lt_le_dec (DateFns.dayOf (Sale.sold_at s)) (DateFns.dayOf now - 29))
    as [Hlt|Hle]; [|exact Hle].
  apply before_start_is_earlier_day in Hlt. lia.
Qed.

(** X15.  What does hold of [chartData].  When no sale is dated after
    today, the series has one entry per day of the window, in strictly
    ascending order of the dates, 30 in all. *)
Lemma chartData_without_future_sales (now : Timestamp) (sales : list Sale.t) :
  (forall s, In s sales -> DateFns.dayOf (Sale.sold_at s) <= DateFns.dayOf now) ->
  JsMap.keys (dailyMap now sales) = windowDays now
  /\ StronglySorted Z.lt (JsMap.keys (dailyMap now sales))
  /\ length (chartData now sales) = 30%nat.
Proof.
  intros Hpast.
  assert (Hkeys : JsMap.keys (dailyMap now sales) = windowDays now).
  { unfold dailyMap.
    assert (Hinit : JsMap.keys (initialBuckets now) = windowDays now).
    { rewrite initialBuckets_window. unfold JsMap.keys.
      generalize (windowDays now) as ks.
      induction ks as [|k0 ks IHks]; cbn [List.map fst]; [reflexivity|].
      rewrite IHks. reflexivity. }
    revert Hinit. generalize (initialBuckets now) as m.
    induction sales as [|s sales IH]; intros m Hm; simpl; [exact Hm|].
    apply IH.
    - intros s' Hs'. apply Hpast. right. exact Hs'.
    - apply addSale_keeps_keys; [exact Hm|]. apply Hpast. left. reflexivity. }
  split; [exact Hkeys|].
  split; [rewrite Hkeys; apply windowDays_ascending|].
  unfold chartData, JsMap.entries. rewrite length_map.
  rewrite <- (length_map fst (dailyMap now sales)).
  change (List.map fst (dailyMap now sales)) with (JsMap.keys (dailyMap now sales)).
  rewrite Hkeys. unfold windowDays. rewrite length_map, length_seqZ. reflexivity.
Qed.


(** C3 fails on the code for a sale dated after today.  [chartData] drops
    a sale only when it is older than the window ([soldDate < start]); a
    sale of tomorrow passes that test, its day is not a key of the map,
    and [dailyMap.set] appends a 31st entry.  With two such sales, newest
    first as the snapshot delivers them, the appended days are not even
    in ascending order. *)
Theorem chartData_future_sale_adds_entry :
  let today := DateFns.dayOfCivil 2026 11 3 in
  let now := DateFns.atStartOfDate today + 10 * 3600000 in
  let tomorrow := Sale.mk 1 (now + DateFns.MS_PER_DAY) None "Gelang" 500 1 500 None lunas in
  let in2days := Sale.mk 2 (now + 2 * DateFns.MS_PER_DAY) None "Pin" 700 1 700 None lunas in
  length (chartData now []) = 30%nat
  /\ length (chartData now [tomorrow]) = 31%nat
  /\ List.last (chartData now [tomorrow]) (ChartRow.mk "" 0) = ChartRow.mk "04/11" 500
  /\ List.skipn 29 (JsMap.keys (dailyMap now [in2days; tomorrow]))
     = [today; today + 2; today + 1].
Proof. vm_compute. repeat split. Qed.

(** * More on [create_sale] *)

(** X1.  [create_sale] never oversells: when no stock is negative before
    the call, none is negative after it, whatever the arguments. *)
Theorem create_sale_keeps_stock_non_negative
    (new_id p_stock_item_id p_qty : Z) (p_buyer_name : option string)
    (p_sold_at : Timestamp) (p_status : option string) (db : Db.t)
    (Hnonneg : stockNonNegative db) :
  stockNonNegative
    (create_sale new_id p_stock_item_id p_qty p_buyer_name p_sold_at p_status db).1.
Proof.
  rewrite create_sale_cases.
  destruct (negb (in_bigint p_stock_item_id)); [exact Hnonneg|].
  destruct (negb (in_integer p_qty)); [exact Hnonneg|].
  destruct (p_qty <=? 0); [exact Hnonneg|].
  destruct (Db.stock_items db !! p_stock_item_id) as [item|] eqn:Hitem; [|exact Hnonneg].
  destruct (StockItem.stock item <? p_qty) eqn:Hstock; [exact Hnonneg|].
  destruct (negb (in_numeric_14_2 _)); [exact Hnonneg|].
  destruct (status_of_text _); [|exact Hnonneg].
  cbn. intros k item' Hk. cbn in Hk.
  rewrite lookup_insert in Hk. destruct (decide (p_stock_item_id = k)) as [->|Hne].
  - inversion Hk; subst. cbn. apply Z.ltb_ge in Hstock. lia.
  - apply (Hnonneg k item' Hk).
Qed.

Lemma singleton_stock_non_negative (item : StockItem.t) :
  0 <= StockItem.stock item ->
  stockNonNegative (Db.mk {[ StockItem.id item := item ]} []).
Proof.
  intros Hitem k item' Hk. cbn in Hk.
  apply lookup_singleton_Some in Hk as [_ <-]. exact Hitem.
Qed.

Lemma create_sale_keeps_stock_non_negative_witness :
  let db := Db.mk {[ 7 := StockItem.mk 7 "Gelang" 10000 5 None 0 ]} [] in
  stockNonNegative db
  /\ stockNonNegative (create_sale 1 7 5 None 0 None db).1.
Proof.
  cbv zeta.
  assert (H : stockNonNegative (Db.mk {[ 7 := StockItem.mk 7 "Gelang" 10000 5 None 0 ]} [])).
  { apply (singleton_stock_non_negative (StockItem.mk 7 "Gelang" 10000 5 None 0)).
    simpl. lia. }
  split; [exact H|].
  exact (create_sale_keeps_stock_non_negative 1 7 5 None 0 None _ H).
Defined.

Lemma create_sale_keeps_keys
    (new_id p_stock_item_id p_qty : Z) (p_buyer_name : option string)
    (p_sold_at : Timestamp) (p_status : option string) (db : Db.t) :
  keyedById db ->
  keyedById
    (create_sale new_id p_stock_item_id p_qty p_buyer_name p_sold_at p_status db).1.
Proof.
  intros Hkeyed. rewrite create_sale_cases.
  destruct (negb (in_bigint p_stock_item_id)); [exact Hkeyed|].
  destruct (negb (in_integer p_qty)); [exact Hkeyed|].
  destruct (p_qty <=? 0); [exact Hkeyed|].
  destruct (Db.stock_items db !! p_stock_item_id) as [item|] eqn:Hitem; [|exact Hkeyed].
  destruct (StockItem.stock item <? p_qty); [exact Hkeyed|].
  destruct (negb (in_numeric_14_2 _)); [exact Hkeyed|].
  destruct (status_of_text _); [|exact Hkeyed].
  cbn. intros k item' Hk. cbn in Hk.
  rewrite lookup_insert in Hk. destruct (decide (p_stock_item_id = k)) as [->|Hne].
  - inversion Hk; subst. cbn. apply (Hkeyed k item Hitem).
  - apply (Hkeyed k item' Hk).
Qed.

Lemma unitsSold_app (k : Z) (l1 l2 : list Sale.t) :
  unitsSold k (l1 ++ l2) = unitsSold k l1 + unitsSold k l2.
Proof. unfold unitsSold. rewrite map_app, sumZ_app. reflexivity. Qed.

Lemma create_sale_conserves_units
    (new_id p_stock_item_id p_qty : Z) (p_buyer_name : option string)
    (p_sold_at : Timestamp) (p_status : option string) (db : Db.t) (k : Z) :
  keyedById db ->
  let db' :=
    (create_sale new_id p_stock_item_id p_qty p_buyer_name p_sold_at p_status db).1 in
  stockOf k db' + unitsSold k (Db.sales db') = stockOf k db + unitsSold k (Db.sales db).
Proof.
  intros Hkeyed. cbv zeta. rewrite create_sale_cases.
  destruct (negb (in_bigint p_stock_item_id)); [reflexivity|].
  destruct (negb (in_integer p_qty)); [reflexivity|].
  destruct (p_qty <=? 0); [reflexivity|].
  destruct (Db.stock_items db !! p_stock_item_id) as [item|] eqn:Hitem; [|reflexivity].
  destruct (StockItem.stock item <? p_qty); [reflexivity|].
  destruct (negb (in_numeric_14_2 _)); [reflexivity|].
  destruct (status_of_text _); [|reflexivity].
  cbn [fst Db.sales]. rewrite unitsSold_app.
  unfold stockOf. cbn [Db.stock_items]. rewrite lookup_insert.
  unfold unitsSold at 2. cbn [List.map sumZ Sale.stock_item_id Sale.qty].
  rewrite (Hkeyed _ _ Hitem).
  destruct (decide (p_stock_item_id = k)) as [->|Hne].
  - rewrite Hitem, Z.eqb_refl. cbn. lia.
  - apply Z.eqb_neq in Hne. rewrite Hne. lia.
Qed.

(** X2.  Units are conserved: over any run of [create_sale] calls,
    accepted or refused, on a store whose stock items are stored under
    their [id], the stock of an item plus the units its sale rows record
    stays what it was. *)
Theorem create_sale_run_conserves_units
    (requests : list SaleRequest) (db : Db.t) (k : Z) (Hkeyed : keyedById db) :
  let db' := fold_left serve requests db in
  stockOf k db' + unitsSold k (Db.sales db') = stockOf k db + unitsSold k (Db.sales db).
Proof.
  cbv zeta. revert db Hkeyed.
  induction requests as [|r requests IH]; intros db Hkeyed; simpl; [reflexivity|].
  rewrite IH by (apply create_sale_keeps_keys; exact Hkeyed).
  apply create_sale_conserves_units. exact Hkeyed.
Qed.

Lemma create_sale_run_conserves_units_witness :
  let db := Db.mk {[ 7 := StockItem.mk 7 "Gelang" 10000 5 None 0 ]} [] in
  let requests :=
    [Build_SaleRequest 1 7 3 None 0 None; Build_SaleRequest 2 7 3 None 1 None;
     Build_SaleRequest 3 7 2 (Some "Budi") 2 (Some "belum_bayar")] in
  let db' := fold_left serve requests db in
  keyedById db
  /\ stockOf 7 db' + unitsSold 7 (Db.sales db') = 5.
Proof.
  cbv zeta.
  assert (H : keyedById (Db.mk {[ 7 := StockItem.mk 7 "Gelang" 10000 5 None 0 ]} [])).
  { intros k item Hk. cbn in Hk. apply lookup_singleton_Some in Hk as [<- <-]. reflexivity. }
  split; [exact H|].
  rewrite (create_sale_run_conserves_units _ _ 7 H). reflexivity.
Defined.

(** * Sale form *)

(** X3.  A sale entered in the form goes through exactly when the
    snapshot item and the store's item of the same [id] both have the
    quantity in stock, the quantity is a 32-bit integer and the [id] a
    64-bit one, and the total at the store's price fits
    [numeric(14, 2)]; then one row is appended, priced by the store, and
    the item's stock goes down by the quantity.  Whenever the handler
    reports an error, from its own checks or from [create_sale], the store
    is what it was. *)
Theorem handleSubmitSale_goes_through_iff
    (jsTrim : string -> string) (hasSupabaseEnv : bool)
    (selected : option StockItem.t) (qty : Z) (buyerName : string)
    (soldAt : Timestamp) (saleStatus : SaleStatus) (new_id : Z) (db : Db.t) :
  let result :=
    handleSubmitSale jsTrim hasSupabaseEnv selected qty buyerName soldAt saleStatus
      new_id db in
  (result.2 = None
   <-> hasSupabaseEnv = true
       /\ exists shown stored,
           selected = Some shown
           /\ 0 < qty <= StockItem.stock shown
           /\ in_bigint (StockItem.id shown) = true
           /\ in_integer qty = true
           /\ Db.stock_items db !! StockItem.id shown = Some stored
           /\ qty <= StockItem.stock stored
           /\ in_numeric_14_2 (StockItem.price stored * qty) = true)
  /\ (result.2 <> None -> result.1 = db)
  /\ (result.2 = None ->
      exists shown stored row,
        selected = Some shown
        /\ Db.stock_items db !! StockItem.id shown = Some stored
        /\ result.1
           = Db.mk (<[StockItem.id shown := decrement_stock qty stored]> (Db.stock_items db))
               (Db.sales db ++ [row])
        /\ Sale.qty row = qty
        /\ Sale.unit_price row = StockItem.price stored
        /\ Sale.total_price row = StockItem.price stored * qty
        /\ Sale.status row = saleStatus
        /\ Sale.buyer_name row = nullif_trim (trimOrNull jsTrim buyerName)).
Proof.
  cbv zeta. unfold handleSubmitSale.
  destruct hasSupabaseEnv; cbn [negb fst snd].
  2:{ split; [split; [discriminate|intros [H _]; discriminate]|].
      split; [reflexivity|discriminate]. }
  destruct selected as [shown|]; cbn [fst snd].
  2:{ split; [split; [discriminate|intros (_ & ? & ? & H & _); discriminate]|].
      split; [reflexivity|discriminate]. }
  destruct (qty <=? 0) eqn:Hq; cbn [fst snd].
  { apply Z.leb_le in Hq.
    split; [split; [discriminate|intros (_ & ? & ? & _ & H & _); lia]|].
    split; [reflexivity|discriminate]. }
  apply Z.leb_gt in Hq.
  destruct (StockItem.stock shown <? qty) eqn:Hshown; cbn [fst snd].
  { apply Z.ltb_lt in Hshown.
    split; [split; [discriminate|intros (_ & ? & ? & Hs & H & _); inversion Hs; subst; lia]|].
    split; [reflexivity|discriminate]. }
  apply Z.ltb_ge in Hshown.
  rewrite create_sale_cases.
  destruct (in_bigint (StockItem.id shown)) eqn:Hid; cbn [negb fst snd].
  2:{ split; [split; [discriminate|]|split; [reflexivity|discriminate]].
      intros (_ & ? & ? & Hs & _ & H & _). inversion Hs; subst. congruence. }
  destruct (in_integer qty) eqn:Hint; cbn [negb fst snd].
  2:{ split; [split; [discriminate|]|split; [reflexivity|discriminate]].
      intros (_ & ? & ? & _ & _ & _ & H & _). congruence. }
  assert (Hq' : (qty <=? 0) = false) by (apply Z.leb_gt; exact Hq). rewrite Hq'.
  destruct (Db.stock_items db !! StockItem.id shown) as [stored|] eqn:Hstored; cbn [fst snd].
  2:{ split; [split; [discriminate|]|split; [reflexivity|discriminate]].
      intros (_ & ? & ? & Hs & _ & _ & _ & H & _). inversion Hs; subst. congruence. }
  destruct (StockItem.stock stored <? qty) eqn:Hst; cbn [fst snd].
  { apply Z.ltb_lt in Hst.
    split; [split; [discriminate|]|split; [reflexivity|discriminate]].
    intros (_ & ? & ? & Hs & _ & _ & _ & H & Hle & _). inversion Hs; subst.
    rewrite Hstored in H. inversion H; subst. lia. }
  apply Z.ltb_ge in Hst.
  destruct (in_numeric_14_2 (StockItem.price stored * qty)) eqn:Hfits; cbn [negb fst snd].
  2:{ split; [split; [discriminate|]|split; [reflexivity|discriminate]].
      intros (_ & ? & ? & Hs & _ & _ & _ & H & _ & Hf). inversion Hs; subst.
      rewrite Hstored in H. inversion H; subst. congruence. }
  change (default "lunas" (Some (text_of_status saleStatus)))
    with (text_of_status saleStatus).
  assert (Htext : status_of_text (text_of_status saleStatus) = Some saleStatus)
    by (destruct saleStatus; reflexivity).
  rewrite Htext. cbn [fst snd].
  split; [split; [intros _|reflexivity]|split; [congruence|intros _]].
  - split; [reflexivity|]. exists shown, stored. repeat split; try assumption; lia.
  - eexists shown, stored, _. repeat split. exact Hstored.
Qed.

(** The total the form shows is the total that is stored when the
    snapshot item is the store's item. *)
Lemma handleSubmitSale_total_as_shown
    (jsTrim : string -> string) (shown : StockItem.t) (qty : Z) (buyerName : string)
    (soldAt : Timestamp) (saleStatus : SaleStatus) (new_id : Z) (db : Db.t) :
  Db.stock_items db !! StockItem.id shown = Some shown ->
  0 < qty <= StockItem.stock shown ->
  in_bigint (StockItem.id shown) = true -> in_integer qty = true ->
  in_numeric_14_2 (StockItem.price shown * qty) = true ->
  exists row,
    Db.sales (handleSubmitSale jsTrim true (Some shown) qty buyerName soldAt saleStatus
                new_id db).1
    = Db.sales db ++ [row]
    /\ Sale.total_price row = saleTotal (Some shown) qty.
Proof.
  intros Hsync [Hpos Hle] Hid Hint Hfits.
  unfold handleSubmitSale. cbn [negb].
  apply Z.leb_gt in Hpos. apply Z.ltb_ge in Hle. rewrite Hpos, Hle.
  rewrite create_sale_cases, Hid, Hint. cbn [negb]. rewrite Hpos, Hsync, Hle, Hfits.
  change (default "lunas" (Some (text_of_status saleStatus)))
    with (text_of_status saleStatus).
  assert (Htext : status_of_text (text_of_status saleStatus) = Some saleStatus)
    by (destruct saleStatus; reflexivity).
  rewrite Htext. cbn. eexists. split; reflexivity.
Qed.

Lemma handleSubmitSale_goes_through_iff_witness :
  let shown := StockItem.mk 7 "Gelang" 10000 5 None 0 in
  let db := Db.mk {[ 7 := shown ]} [] in
  let stale := Db.mk {[ 7 := StockItem.mk 7 "Gelang" 10000 2 None 0 ]} [] in
  (handleSubmitSale trim true (Some shown) 3 " Budi " 0 lunas 1 db).2 = None
  /\ (handleSubmitSale trim true (Some shown) 3 "" 0 lunas 1 stale).2
     = Some "stok tidak cukup"
  /\ (handleSubmitSale trim true (Some shown) 3 "" 0 lunas 1 stale).1 = stale.
Proof.
  cbv zeta.
  pose (shown := StockItem.mk 7 "Gelang" 10000 5 None 0).
  split.
  { apply (proj1 (handleSubmitSale_goes_through_iff trim true (Some shown) 3 " Budi " 0
                    lunas 1 (Db.mk {[ 7 := shown ]} []))).
    split; [reflexivity|]. exists shown, shown.
    split; [reflexivity|]. split; [simpl; lia|].
    split; [reflexivity|]. split; [reflexivity|].
    split; [vm_compute; reflexivity|]. split; [simpl; lia|reflexivity]. }
  assert (Herr : (handleSubmitSale trim true (Some shown) 3 "" 0 lunas 1
                    (Db.mk {[ 7 := StockItem.mk 7 "Gelang" 10000 2 None 0 ]} [])).2
                 = Some "stok tidak cukup") by (vm_compute; reflexivity).
  split; [exact Herr|].
  apply (proj1 (proj2 (handleSubmitSale_goes_through_iff trim true (Some shown) 3 "" 0
                         lunas 1 (Db.mk {[ 7 := StockItem.mk 7 "Gelang" 10000 2 None 0 ]} [])))).
  rewrite Herr. discriminate.
Defined.

(** * Stock edits *)

(** X4.  [handlePriceSave] refuses a price that is not a number or is
    negative and leaves the store alone; a valid price is written to the
    item of the given [id] and to nothing else: the other items, the
    item's other fields and every sale row stay as they were, so the
    metrics of past sales do not move.  For an [id] that is not in the
    store nothing changes and no error is reported. *)
Theorem handlePriceSave_touches_one_price
    (nextPrice : option Z) (id : Z) (db : Db.t) :
  let result := handlePriceSave nextPrice id db in
  (forall p, nextPrice = Some p -> 0 <= p ->
     result.2 = None
     /\ Db.sales result.1 = Db.sales db
     /\ (forall k, k <> id -> Db.stock_items result.1 !! k = Db.stock_items db !! k)
     /\ Db.stock_items result.1 !! id = with_price p <$> Db.stock_items db !! id
     /\ (Db.stock_items db !! id = None -> result.1 = db))
  /\ ((nextPrice = None \/ exists p, nextPrice = Some p /\ p < 0) ->
      result = (db, Some "Harga tidak valid.")).
Proof.
  cbv zeta. unfold handlePriceSave. split.
  - intros p -> Hp. apply Z.ltb_ge in Hp. rewrite Hp. cbn [fst snd Db.sales Db.stock_items].
    split; [reflexivity|]. split; [reflexivity|].
    split; [intros k Hk; apply lookup_alter_ne; congruence|].
    split; [apply lookup_alter_eq|].
    intros Hnone. destruct db as [items sales]. cbn in *. f_equal.
    apply map_eq. intros k. rewrite lookup_alter.
    destruct (decide (id = k)) as [->|]; [rewrite Hnone|]; reflexivity.
  - intros [->|(p & -> & Hp)]; [reflexivity|].
    apply Z.ltb_lt in Hp. rewrite Hp. reflexivity.
Qed.

Lemma handlePriceSave_touches_one_price_witness :
  let db := Db.mk {[ 7 := StockItem.mk 7 "Gelang" 10000 5 None 0 ]}
              [Sale.mk 1 0 (Some 7) "Gelang" 10000 2 20000 None lunas] in
  (handlePriceSave (Some 12000) 7 db).2 = None
  /\ Db.sales (handlePriceSave (Some 12000) 7 db).1 = Db.sales db
  /\ handlePriceSave (Some (-1)) 7 db = (db, Some "Harga tidak valid.").
Proof.
  cbv zeta.
  destruct (handlePriceSave_touches_one_price (Some 12000) 7
              (Db.mk {[ 7 := StockItem.mk 7 "Gelang" 10000 5 None 0 ]}
                 [Sale.mk 1 0 (Some 7) "Gelang" 10000 2 20000 None lunas]))
    as [Hvalid _].
  destruct (Hvalid 12000 eq_refl ltac:(lia)) as (Herr & Hsales & _).
  split; [exact Herr|]. split; [exact Hsales|].
  apply (proj2 (handlePriceSave_touches_one_price (Some (-1)) 7 _)).
  right. exists (-1). split; [reflexivity|lia].
Defined.

(** X5.  A price change applies to later sales only: after a valid
    [handlePriceSave] on an item, a [create_sale] of that item that the
    stock covers, with a 32-bit quantity, a 64-bit [id] and a total at the
    new price that fits [numeric(14, 2)], appends a row with the new price
    as [unit_price] and the new price times the quantity as
    [total_price], and the rows that were there keep their prices and
    totals. *)
Theorem price_change_applies_to_later_sales
    (p id qty new_id : Z) (buyer : option string) (soldAt : Timestamp)
    (item : StockItem.t) (db : Db.t)
    (Hprice : 0 <= p)
    (Hitem : Db.stock_items db !! id = Some item)
    (Hqty : 0 < qty <= StockItem.stock item)
    (Hid : in_bigint id = true)
    (Hint : in_integer qty = true)
    (Hfits : in_numeric_14_2 (p * qty) = true) :
  exists db2 row,
    create_sale new_id id qty buyer soldAt None (handlePriceSave (Some p) id db).1
    = (db2, inr row)
    /\ Sale.unit_price row = p
    /\ Sale.total_price row = p * qty
    /\ Db.sales db2 = Db.sales db ++ [row]
    /\ stockOf id db2 = StockItem.stock item - qty.
Proof.
  unfold handlePriceSave. apply Z.ltb_ge in Hprice. rewrite Hprice. cbn [fst].
  rewrite create_sale_cases, Hid, Hint. cbn [negb Db.stock_items Db.sales].
  rewrite lookup_alter_eq, Hitem.
  cbn [fmap option_fmap option_map with_price StockItem.stock StockItem.price].
  destruct Hqty as [Hpos Hle].
  apply Z.leb_gt in Hpos. rewrite Hpos.
  apply Z.ltb_ge in Hle. rewrite Hle, Hfits.
  cbn. eexists. eexists. split; [reflexivity|]. cbn.
  repeat split. unfold stockOf. cbn. rewrite lookup_insert_eq. reflexivity.
Qed.

Lemma price_change_applies_to_later_sales_witness :
  let item := StockItem.mk 7 "Gelang" 10000 5 None 0 in
  let db := Db.mk {[ 7 := item ]} [Sale.mk 1 0 (Some 7) "Gelang" 10000 2 20000 None lunas] in
  exists db2 row,
    create_sale 2 7 3 None 9 None (handlePriceSave (Some 12000) 7 db).1 = (db2, inr row)
    /\ Sale.total_price row = 36000
    /\ Db.sales db2 = Db.sales db ++ [row].
Proof.
  cbv zeta.
  assert (Hitem : Db.stock_items
                    (Db.mk {[ 7 := StockItem.mk 7 "Gelang" 10000 5 None 0 ]}
                       [Sale.mk 1 0 (Some 7) "Gelang" 10000 2 20000 None lunas]) !! 7
                  = Some (StockItem.mk 7 "Gelang" 10000 5 None 0))
    by (vm_compute; reflexivity).
  destruct (price_change_applies_to_later_sales 12000 7 3 2 None 9 _ _
              ltac:(lia) Hitem ltac:(simpl; lia) eq_refl eq_refl eq_refl)
    as (db2 & row & Hrun & _ & Htotal & Hsales & _).
  exists db2, row. split; [exact Hrun|]. split; [exact Htotal|exact Hsales].
Defined.

(** X6.  [handleAddStock] sets the stock, it does not add to it: for a
    number that is not negative and an item of the snapshot, the stock of
    the store's item is the number entered, whatever it was, and no other
    item, no other field and no sale row changes.  A negative number, a
    value that is not a number, or an [id] that is not in the snapshot is
    refused and the store stays as it was. *)
Theorem handleAddStock_sets_the_stock
    (nextStock : option Z) (id : Z) (stockItems : list StockItem.t) (db : Db.t) :
  let result := handleAddStock nextStock id stockItems db in
  (forall n shown stored,
     nextStock = Some n -> 0 <= n ->
     In shown stockItems -> StockItem.id shown = id ->
     Db.stock_items db !! id = Some stored ->
     result.2 = None
     /\ stockOf id result.1 = n
     /\ Db.stock_items result.1 !! id = Some (with_stock n stored)
     /\ (forall k, k <> id -> Db.stock_items result.1 !! k = Db.stock_items db !! k)
     /\ Db.sales result.1 = Db.sales db)
  /\ ((nextStock = None \/ exists n, nextStock = Some n /\ n < 0) ->
      result = (db, Some "Jumlah stok tidak valid (minimal 0)."))
  /\ (forall n, nextStock = Some n -> 0 <= n ->
      (forall shown, In shown stockItems -> StockItem.id shown <> id) ->
      result = (db, Some "Item tidak ditemukan.")).
Proof.
  cbv zeta. unfold handleAddStock. split; [|split].
  - intros n shown stored -> Hn Hin Hid Hstored.
    apply Z.ltb_ge in Hn. rewrite Hn.
    destruct (List.find _ stockItems) as [found|] eqn:Hfind.
    + cbn [fst snd Db.sales Db.stock_items].
      split; [reflexivity|].
      split; [unfold stockOf; cbn; rewrite lookup_alter_eq, Hstored; reflexivity|].
      split; [rewrite lookup_alter_eq, Hstored; reflexivity|].
      split; [intros k Hk; apply lookup_alter_ne; congruence|reflexivity].
    + exfalso. apply (find_none _ _ Hfind) in Hin.
      apply Z.eqb_neq in Hin. contradiction.
  - intros [->|(n & -> & Hn)]; [reflexivity|].
    apply Z.ltb_lt in Hn. rewrite Hn. reflexivity.
  - intros n -> Hn Habsent. apply Z.ltb_ge in Hn. rewrite Hn.
    destruct (List.find _ stockItems) as [found|] eqn:Hfind; [|reflexivity].
    exfalso. apply find_some in Hfind as [Hin Hid].
    apply Z.eqb_eq in Hid. exact (Habsent found Hin Hid).
Qed.

Lemma handleAddStock_sets_the_stock_witness :
  let item := StockItem.mk 7 "Gelang" 10000 5 None 0 in
  let db := Db.mk {[ 7 := item ]} [] in
  stockOf 7 (handleAddStock (Some 3) 7 [item] db).1 = 3
  /\ handleAddStock (Some (-3)) 7 [item] db
     = (db, Some "Jumlah stok tidak valid (minimal 0).")
  /\ handleAddStock (Some 3) 8 [item] db = (db, Some "Item tidak ditemukan.").
Proof.
  cbv zeta.
  pose (item := StockItem.mk 7 "Gelang" 10000 5 None 0).
  pose (db := Db.mk {[ 7 := item ]} []).
  assert (Hstored : Db.stock_items db !! 7 = Some item) by (vm_compute; reflexivity).
  split.
  { destruct (proj1 (handleAddStock_sets_the_stock (Some 3) 7 [item] db)
                3 item item eq_refl ltac:(lia) ltac:(left; reflexivity) eq_refl Hstored)
      as (_ & Hstock & _).
    exact Hstock. }
  split.
  { apply (proj1 (proj2 (handleAddStock_sets_the_stock (Some (-3)) 7 [item] db))).
    right. exists (-3). split; [reflexivity|lia]. }
  apply (proj2 (proj2 (handleAddStock_sets_the_stock (Some 3) 8 [item] db)) 3 eq_refl).
  - lia.
  - intros shown [<-|[]]. simpl. lia.
Defined.

(** * Editing and deleting a sale *)

Lemma unique_id_split (l : list Sale.t) (s : Sale.t) :
  NoDup (List.map Sale.id l) -> In s l ->
  exists l1 l2,
    l = l1 ++ s :: l2
    /\ (forall x, In x l1 -> Sale.id x <> Sale.id s)
    /\ (forall x, In x l2 -> Sale.id x <> Sale.id s).
Proof.
  intros Hnd Hin. apply in_split in Hin as (l1 & l2 & ->).
  exists l1, l2. split; [reflexivity|].
  rewrite map_app in Hnd. cbn [List.map] in Hnd.
  apply NoDup_app in Hnd as (_ & Hdisj & Hnd2).
  apply NoDup_cons in Hnd2 as [Hnot _].
  split.
  - intros x Hx Heq. apply (Hdisj (Sale.id x)).
    + apply list_elem_of_In, in_map. exact Hx.
    + rewrite Heq. left.
  - intros x Hx Heq. apply Hnot. rewrite <- Heq.
    apply list_elem_of_In, in_map. exact Hx.
Qed.

Lemma map_untouched (f : Sale.t -> Sale.t) (id : Z) (l : list Sale.t) :
  (forall x, In x l -> Sale.id x <> id) ->
  List.map (fun s => if Sale.id s =? id then f s else s) l = l.
Proof.
  induction l as [|x l IH]; intros H; cbn [List.map]; [reflexivity|].
  assert (Hx : (Sale.id x =? id) = false)
    by (apply Z.eqb_neq, H; left; reflexivity).
  rewrite Hx, IH; [reflexivity|]. intros y Hy. apply H. right. exact Hy.
Qed.

(** X7.  Editing the quantity of a sale recomputes its total as unit
    price times the new quantity and leaves the unit price alone: for a
    row of the store that the page's list shows with the same unit price,
    the store afterwards holds the row with the new quantity, the old
    unit price and their product as total, every other row as it was and
    in its place, and the stock items untouched (no stock is given back
    or taken). *)
Theorem onUpdateSale_recomputes_total
    (data : SaleUpdate) (q : Z) (filteredSales : list Sale.t) (db : Db.t)
    (s shown : Sale.t)
    (Hqty : upd_qty data = Some q)
    (Hunique : NoDup (List.map Sale.id (Db.sales db)))
    (Hstored : In s (Db.sales db))
    (Hshown : List.find (fun x => Sale.id x =? Sale.id s) filteredSales = Some shown)
    (Hsync : Sale.unit_price shown = Sale.unit_price s) :
  let db' := onUpdateSale (Sale.id s) data filteredSales db in
  exists before after s',
    Db.sales db = before ++ s :: after
    /\ Db.sales db' = before ++ s' :: after
    /\ Sale.id s' = Sale.id s
    /\ Sale.qty s' = q
    /\ Sale.unit_price s' = Sale.unit_price s
    /\ Sale.total_price s' = Sale.unit_price s * q
    /\ consistentRow s'
    /\ Sale.sold_at s' = Sale.sold_at s
    /\ Sale.item_name s' = Sale.item_name s
    /\ Sale.stock_item_id s' = Sale.stock_item_id s
    /\ Db.stock_items db' = Db.stock_items db.
Proof.
  cbv zeta.
  destruct (unique_id_split _ _ Hunique Hstored) as (before & after & Heq & Hb & Ha).
  unfold onUpdateSale. rewrite Hqty, Hshown. cbn [Db.sales Db.stock_items].
  rewrite Heq, map_app. cbn [List.map]. rewrite Z.eqb_refl.
  rewrite (map_untouched _ _ _ Hb), (map_untouched _ _ _ Ha).
  eexists before, after, _. split; [reflexivity|]. split; [reflexivity|].
  unfold applyUpdate, consistentRow. rewrite Hqty.
  cbn [default Sale.id Sale.qty Sale.unit_price Sale.total_price Sale.sold_at
       Sale.item_name Sale.stock_item_id].
  rewrite Hsync. repeat split.
Qed.

Lemma onUpdateSale_recomputes_total_witness :
  let s := Sale.mk 1 0 (Some 7) "Gelang" 10000 2 20000 None lunas in
  let db := Db.mk ∅ [s; Sale.mk 2 0 (Some 7) "Gelang" 10000 1 10000 None lunas] in
  let data := {| upd_qty := Some 5; upd_buyer_name := Some None; upd_status := Some lunas |} in
  exists before after s',
    Db.sales db = before ++ s :: after
    /\ Db.sales (onUpdateSale 1 data (Db.sales db) db) = before ++ s' :: after
    /\ Sale.qty s' = 5
    /\ Sale.total_price s' = 50000.
Proof.
  cbv zeta.
  pose (s := Sale.mk 1 0 (Some 7) "Gelang" 10000 2 20000 None lunas).
  pose (db := Db.mk ∅ [s; Sale.mk 2 0 (Some 7) "Gelang" 10000 1 10000 None lunas]).
  assert (Hunique : NoDup (List.map Sale.id (Db.sales db))).
  { simpl. apply NoDup_cons. split; [intros H; apply list_elem_of_In in H; simpl in H; lia|].
    apply NoDup_cons. split; [intros H; apply list_elem_of_In in H; simpl in H; tauto|].
    apply NoDup_nil. exact I. }
  destruct (onUpdateSale_recomputes_total
              {| upd_qty := Some 5; upd_buyer_name := Some None; upd_status := Some lunas |}
              5 (Db.sales db) db s s eq_refl Hunique
              ltac:(left; reflexivity) eq_refl eq_refl)
    as (before & after & s' & Hold & Hsales & _ & Hqty & _ & Htotal & _).
  exists before, after, s'. split; [exact Hold|]. split; [exact Hsales|].
  split; [exact Hqty|exact Htotal].
Defined.

(** X8.  Deleting a sale does not give its units back: after a call of
    [create_sale] that made a sale, under an [id] no other row has,
    deleting that sale leaves the sale rows as they were before the sale
    while the stock of the item stays lowered by the quantity sold. *)
Theorem onDeleteSale_keeps_stock_lowered
    (new_id p_stock_item_id p_qty : Z) (p_buyer_name : option string)
    (p_sold_at : Timestamp) (p_status : option string) (db sold : Db.t) (row : Sale.t)
    (Hfresh : forall s, In s (Db.sales db) -> Sale.id s <> new_id)
    (Hsold : create_sale new_id p_stock_item_id p_qty p_buyer_name p_sold_at p_status db
             = (sold, inr row)) :
  let db' := onDeleteSale new_id sold in
  Db.sales sold = Db.sales db ++ [row]
  /\ Sale.id row = new_id
  /\ Db.sales db' = Db.sales db
  /\ Db.stock_items db' = Db.stock_items sold
  /\ stockOf p_stock_item_id db' = stockOf p_stock_item_id db - p_qty
  /\ 0 < p_qty.
Proof.
  cbv zeta. rewrite create_sale_cases in Hsold.
  destruct (negb (in_bigint p_stock_item_id)); [discriminate|].
  destruct (negb (in_integer p_qty)); [discriminate|].
  destruct (p_qty <=? 0) eqn:Hpos; [discriminate|].
  destruct (Db.stock_items db !! p_stock_item_id) as [item|] eqn:Hitem; [|discriminate].
  destruct (StockItem.stock item <? p_qty); [discriminate|].
  destruct (negb (in_numeric_14_2 _)); [discriminate|].
  destruct (status_of_text _) as [st|]; [|discriminate].
  inversion Hsold; subst. clear Hsold.
  unfold onDeleteSale. cbn [Db.sales Db.stock_items Sale.id].
  split; [reflexivity|]. split; [reflexivity|]. split; [|split; [reflexivity|split]].
  - rewrite List.filter_app. cbn [List.filter Sale.id]. rewrite Z.eqb_refl. cbn [negb].
    rewrite app_nil_r.
    clear -Hfresh. induction (Db.sales db) as [|x l IH]; cbn [List.filter]; [reflexivity|].
    assert (Hx : (Sale.id x =? new_id) = false)
      by (apply Z.eqb_neq, Hfresh; left; reflexivity).
    rewrite Hx. cbn [negb]. f_equal. apply IH.
    intros y Hy. apply Hfresh. right. exact Hy.
  - unfold stockOf. cbn [Db.stock_items]. rewrite lookup_insert_eq, Hitem. reflexivity.
  - apply Z.leb_gt. exact Hpos.
Qed.

Lemma onDeleteSale_keeps_stock_lowered_witness :
  let item := StockItem.mk 7 "Gelang" 10000 5 None 0 in
  let db := Db.mk {[ 7 := item ]} [] in
  exists sold row,
    create_sale 1 7 3 None 0 (Some "lunas") db = (sold, inr row)
    /\ Db.sales sold = [row]
    /\ Db.sales (onDeleteSale 1 sold) = []
    /\ stockOf 7 (onDeleteSale 1 sold) = 2.
Proof.
  cbv zeta.
  destruct (create_sale 1 7 3 None 0 (Some "lunas")
              (Db.mk {[ 7 := StockItem.mk 7 "Gelang" 10000 5 None 0 ]} []))
    as [sold [msg|row]] eqn:Hrun; [vm_compute in Hrun; discriminate Hrun|].
  destruct (onDeleteSale_keeps_stock_lowered 1 7 3 None 0 (Some "lunas")
              (Db.mk {[ 7 := StockItem.mk 7 "Gelang" 10000 5 None 0 ]} []) sold row
              ltac:(intros s []) Hrun)
    as (Hsales & _ & Hdeleted & _ & Hstock & _).
  exists sold, row. split; [reflexivity|]. split; [exact Hsales|].
  split; [exact Hdeleted|]. rewrite Hstock. reflexivity.
Defined.

(** * Sorting by a key *)

Section SortOrder.
Context {A : Type} (compareFn : A -> A -> Z) (R : A -> A -> Prop).
Hypothesis R_not_after : forall a b, compareFn a b <= 0 -> R a b.
Hypothesis R_after : forall a b, 0 < compareFn a b -> R b a.
Hypothesis R_trans : forall a b c, R a b -> R b c -> R a c.

Lemma sortInsert_StronglySorted (a : A) (l : list A) :
  StronglySorted R l -> StronglySorted R (sortInsert compareFn a l).
Proof.
  induction l as [|b r IH]; intros Hl; simpl.
  - constructor; constructor.
  - inversion Hl as [|? ? Hr Hb]; subst.
    destruct (compareFn a b <=? 0) eqn:E.
    + apply Z.leb_le in E. constructor; [exact Hl|].
      constructor; [apply R_not_after; exact E|].
      eapply List.Forall_impl; [|exact Hb].
      intros y Hy. apply (R_trans a b y); [apply R_not_after; exact E|exact Hy].
    + apply Z.leb_gt in E. constructor; [apply IH; exact Hr|].
      apply (Permutation_Forall (Permutation_sym (sortInsert_Permutation compareFn a r))).
      constructor; [apply R_after; exact E|exact Hb].
Qed.

Lemma sort_StronglySorted (l : list A) : StronglySorted R (sort compareFn l).
Proof.
  induction l as [|a r IH]; simpl.
  - constructor.
  - apply sortInsert_StronglySorted. exact IH.
Qed.
End SortOrder.

Section SortStable.
Context {A : Type} (compareFn : A -> A -> Z) (p : A -> bool).
Hypothesis p_separated : forall a b, 0 < compareFn a b -> p a = true -> p b = false.

Lemma sortInsert_filter (a : A) (l : list A) :
  List.filter p (sortInsert compareFn a l) = List.filter p (a :: l).
Proof.
  induction l as [|b r IH]; simpl; [reflexivity|].
  destruct (compareFn a b <=? 0) eqn:E; [reflexivity|].
  apply Z.leb_gt in E. simpl. rewrite IH. simpl.
  destruct (p a) eqn:Ha; [|reflexivity].
  rewrite (p_separated a b E Ha). reflexivity.
Qed.

(** The elements of one class come out in the order they went in. *)
Lemma sort_filter (l : list A) :
  List.filter p (sort compareFn l) = List.filter p l.
Proof.
  induction l as [|a r IH]; simpl; [reflexivity|].
  rewrite sortInsert_filter. simpl. rewrite IH. reflexivity.
Qed.
End SortStable.

(** * Low stock *)

(** X9.  [lowStockItems] lists exactly the stock items of the snapshot
    with stock 5 or less, each as often as the snapshot has it, in order
    of stock from the lowest, and items of the same stock in the order of
    the snapshot. *)
Theorem lowStockItems_lists_low_stock (stockItems : list StockItem.t) :
  Permutation (lowStockItems stockItems)
    (List.filter (fun item => StockItem.stock item <=? 5) stockItems)
  /\ Forall (fun item => In item stockItems /\ StockItem.stock item <= 5)
       (lowStockItems stockItems)
  /\ StronglySorted (fun a b => StockItem.stock a <= StockItem.stock b)
       (lowStockItems stockItems)
  /\ forall n : Z,
       List.filter (fun item => StockItem.stock item =? n) (lowStockItems stockItems)
       = List.filter (fun item => StockItem.stock item =? n)
           (List.filter (fun item => StockItem.stock item <=? 5) stockItems).
Proof.
  assert (Hperm : Permutation (lowStockItems stockItems)
            (List.filter (fun item => StockItem.stock item <=? 5) stockItems))
    by apply sort_Permutation.
  split; [exact Hperm|]. split; [|split].
  - apply (Permutation_Forall (Permutation_sym Hperm)).
    apply List.Forall_forall. intros item Hin.
    apply filter_In in Hin as [Hin Hlow]. apply Z.leb_le in Hlow. tauto.
  - apply sort_StronglySorted; intros; lia.
  - intros n. apply sort_filter. intros a b Hlt Ha.
    apply Z.eqb_eq in Ha. apply Z.eqb_neq. lia.
Qed.

(** * The five latest entries *)

Lemma StronglySorted_front {A : Type} (R : A -> A -> Prop) (l1 l2 : list A) :
  StronglySorted R (l1 ++ l2) ->
  StronglySorted R l1 /\ Forall (fun x => Forall (R x) l2) l1.
Proof.
  induction l1 as [|a l1 IH]; simpl; intros H.
  - split; constructor.
  - inversion H as [|? ? Hrest Ha]; subst.
    destruct (IH Hrest) as [Hs Hf].
    apply Forall_app in Ha as [Ha1 Ha2].
    split; constructor; assumption.
Qed.

(** X10.  [recentTransactions] has five entries, or all of them when
    there are fewer than five sales and expenses together; their dates do
    not increase along the list, and no entry left out is later than an
    entry shown. *)
Theorem recentTransactions_are_the_latest
    (sales : list Sale.t) (expenses : list Expense.t) :
  let shown := recentTransactions sales expenses in
  length shown = Nat.min 5 (length sales + length expenses)
  /\ StronglySorted (fun x y => recentDate y <= recentDate x) shown
  /\ exists rest,
      Permutation (shown ++ rest)
        (List.map recentSale sales ++ List.map recentExpense expenses)
      /\ Forall (fun x => Forall (fun y => recentDate y <= recentDate x) rest) shown.
Proof.
  cbv zeta. unfold recentTransactions.
  set (combined := List.map recentSale sales ++ List.map recentExpense expenses).
  set (sorted := sort (fun a b => recentDate b - recentDate a) combined).
  assert (Hperm : Permutation sorted combined) by apply sort_Permutation.
  assert (Hsorted : StronglySorted (fun x y => recentDate y <= recentDate x) sorted)
    by (apply sort_StronglySorted; intros; lia).
  rewrite <- (firstn_skipn 5 sorted) in Hsorted.
  split; [|split].
  - rewrite length_firstn, (Permutation_length Hperm).
    unfold combined. rewrite length_app, !length_map. reflexivity.
  - apply (StronglySorted_front _ _ _ Hsorted).
  - exists (List.skipn 5 sorted). split.
    + rewrite firstn_skipn. exact Hperm.
    + apply (StronglySorted_front _ _ _ Hsorted).
Qed.

(** * Status filter and search *)


Lemma filter_Permutation {A : Type} (p : A -> bool) (l1 l2 : list A) :
  Permutation l1 l2 -> Permutation (List.filter p l1) (List.filter p l2).
Proof.
  induction 1 as [|x l1 l2 _ IH|x y l|l1 l2 l3 _ IH1 _ IH2]; simpl.
  - constructor.
  - destruct (p x); [constructor|]; exact IH.
  - destruct (p x), (p y); try reflexivity. apply perm_swap.
  - etransitivity; eassumption.
Qed.






(** * Opening an entry *)

Lemma find_unique_sale (sales : list Sale.t) (s : Sale.t) :
  NoDup (List.map Sale.id sales) -> In s sales ->
  List.find (fun x => Sale.id x =? Sale.id s) sales = Some s.
Proof.
  intros Hnd Hin.
  destruct (unique_id_split _ _ Hnd Hin) as (l1 & l2 & -> & Hb & _).
  clear Hnd Hin. induction l1 as [|x l1 IH]; simpl.
  - rewrite Z.eqb_refl. reflexivity.
  - assert (Hx : (Sale.id x =? Sale.id s) = false)
      by (apply Z.eqb_neq, Hb; left; reflexivity).
    rewrite Hx. apply IH. intros y Hy. apply Hb. right. exact Hy.
Qed.

Lemma find_unique_expense (expenses : list Expense.t) (e : Expense.t) :
  NoDup (List.map Expense.id expenses) -> In e expenses ->
  List.find (fun x => Expense.id x =? Expense.id e) expenses = Some e.
Proof.
  induction expenses as [|x l IH]; simpl; intros Hnd Hin; [contradiction|].
  apply NoDup_cons in Hnd as [Hx Hnd].
  destruct Hin as [->|Hin]; [rewrite Z.eqb_refl; reflexivity|].
  destruct (Expense.id x =? Expense.id e) eqn:E; [|apply IH; assumption].
  apply Z.eqb_eq in E. exfalso. apply Hx. rewrite E.
  apply list_elem_of_In, in_map. exact Hin.
Qed.

(** X12.  Opening a listed entry brings up the record it was made from:
    when the sales have distinct ids and the expenses have distinct ids,
    [openDetail] on the entry of a sale finds that sale, on the entry of
    an expense that expense, also when a sale and an expense have the same
    id. *)
Theorem openDetail_finds_the_record
    (sales : list Sale.t) (expenses : list Expense.t)
    (Hsales : NoDup (List.map Sale.id sales))
    (Hexpenses : NoDup (List.map Expense.id expenses)) :
  (forall s, In s sales -> openDetail (saleTransaction s) sales expenses = Some (inl s))
  /\ (forall e, In e expenses ->
        openDetail (expenseTransaction e) sales expenses = Some (inr e)).
Proof.
  split.
  - intros s Hin. unfold openDetail. cbn [saleTransaction Transaction.type Transaction.numericId].
    rewrite (find_unique_sale _ _ Hsales Hin). reflexivity.
  - intros e Hin. unfold openDetail.
    cbn [expenseTransaction Transaction.type Transaction.numericId].
    rewrite (find_unique_expense _ _ Hexpenses Hin). reflexivity.
Qed.

Lemma openDetail_finds_the_record_witness :
  let s := Sale.mk 1 500 None "Gelang" 10000 1 10000 None lunas in
  let e := Expense.mk 1 500 (Some "Kardus") 3000 in
  openDetail (saleTransaction s) [s] [e] = Some (inl s)
  /\ openDetail (expenseTransaction e) [s] [e] = Some (inr e).
Proof.
  cbv zeta.
  assert (H1 : NoDup (List.map Sale.id [Sale.mk 1 500 None "Gelang" 10000 1 10000 None lunas])).
  { apply NoDup_cons. split; [intros H; inversion H|apply NoDup_nil; exact I]. }
  assert (H2 : NoDup (List.map Expense.id [Expense.mk 1 500 (Some "Kardus") 3000])).
  { apply NoDup_cons. split; [intros H; inversion H|apply NoDup_nil; exact I]. }
  destruct (openDetail_finds_the_record _ _ H1 H2) as [Hs He].
  split; [apply Hs|apply He]; left; reflexivity.
Defined.

(** * Selecting stock items for deletion *)

(** X13.  Toggling an [id] in the selection twice gives the selection
    back; one toggle puts the [id] in exactly when it was out and leaves
    every other [id] as it was.  The items to delete are exactly the
    items of the snapshot whose [id] is selected, in the order of the
    snapshot: all of them when every [id] is selected, none when none
    is, and after a toggle of [id] the snapshot items of that [id] are
    among them exactly when they were not before. *)
Theorem toggleDeleteSelection_involutive
    (id : Z) (prev : gset Z) (stockItems : list StockItem.t) :
  toggleDeleteSelection id (toggleDeleteSelection id prev) = prev
  /\ (id ∈ toggleDeleteSelection id prev <-> id ∉ prev)
  /\ toggleDeleteSelection id prev ∖ {[ id ]} = prev ∖ {[ id ]}
  /\ (forall item,
        In item (itemsToDelete stockItems prev)
        <-> In item stockItems /\ StockItem.id item ∈ prev)
  /\ (forall item,
        In item stockItems -> StockItem.id item = id ->
        (In item (itemsToDelete stockItems (toggleDeleteSelection id prev))
         <-> ~ In item (itemsToDelete stockItems prev)))
  /\ (forall item,
        StockItem.id item <> id ->
        (In item (itemsToDelete stockItems (toggleDeleteSelection id prev))
         <-> In item (itemsToDelete stockItems prev)))
  /\ ((forall item, In item stockItems -> StockItem.id item ∈ prev) ->
      itemsToDelete stockItems prev = stockItems)
  /\ (forall more,
        itemsToDelete (stockItems ++ more) prev
        = itemsToDelete stockItems prev ++ itemsToDelete more prev)
  /\ itemsToDelete stockItems ∅ = [].
Proof.
  assert (Hmember : forall sel item,
            In item (itemsToDelete stockItems sel)
            <-> In item stockItems /\ StockItem.id item ∈ sel).
  { intros sel item. unfold itemsToDelete. rewrite filter_In, bool_decide_eq_true.
    reflexivity. }
  assert (Hin : id ∈ toggleDeleteSelection id prev <-> id ∉ prev).
  { unfold toggleDeleteSelection. destruct (decide (id ∈ prev)) as [Hin|Hout].
    + rewrite elem_of_difference, elem_of_singleton. tauto.
    + rewrite elem_of_union, elem_of_singleton. tauto. }
  assert (Hother : forall j, j <> id -> j ∈ toggleDeleteSelection id prev <-> j ∈ prev).
  { intros j Hj. unfold toggleDeleteSelection. destruct (decide (id ∈ prev)) as [Hin'|Hout].
    + rewrite elem_of_difference, elem_of_singleton. tauto.
    + rewrite elem_of_union, elem_of_singleton. tauto. }
  split; [|split; [|split; [|split; [|split; [|split; [|split; [|split]]]]]]].
  - unfold toggleDeleteSelection. destruct (decide (id ∈ prev)) as [Hin'|Hout].
    + rewrite decide_False by (rewrite elem_of_difference, elem_of_singleton; tauto).
      apply set_eq. intros j.
      rewrite elem_of_union, elem_of_difference, !elem_of_singleton.
      destruct (decide (j = id)) as [->|]; tauto.
    + rewrite decide_True by (rewrite elem_of_union, elem_of_singleton; tauto).
      apply set_eq. intros j.
      rewrite elem_of_difference, elem_of_union, !elem_of_singleton.
      destruct (decide (j = id)) as [->|]; tauto.
  - exact Hin.
  - apply set_eq. intros j. rewrite !elem_of_difference, !elem_of_singleton.
    destruct (decide (j = id)) as [->|Hne]; [tauto|].
    rewrite (Hother j Hne). tauto.
  - apply Hmember.
  - intros item Hitem Hid. rewrite !Hmember, Hid. tauto.
  - intros item Hid. rewrite !Hmember, (Hother _ Hid). tauto.
  - intros Hall. unfold itemsToDelete.
    induction stockItems as [|x l IH]; cbn [List.filter]; [reflexivity|].
    rewrite bool_decide_eq_true_2 by (apply Hall; left; reflexivity).
    f_equal. apply IH.
    + intros sel item. unfold itemsToDelete. rewrite filter_In, bool_decide_eq_true.
      reflexivity.
    + intros item Hitem. apply Hall. right. exact Hitem.
  - intros more. unfold itemsToDelete. apply List.filter_app.
  - apply filter_nothing. intros item _. apply bool_decide_eq_false.
    apply not_elem_of_empty.
Qed.

Lemma toggleDeleteSelection_involutive_witness :
  let gelang := StockItem.mk 3 "Gelang" 10000 5 None 0 in
  let cincin := StockItem.mk 1 "Cincin" 5000 2 None 0 in
  toggleDeleteSelection 3 (toggleDeleteSelection 3 {[ 1 ]}) = {[ 1 ]}
  /\ 3 ∈ toggleDeleteSelection 3 {[ 1 ]}
  /\ In cincin (itemsToDelete [gelang; cincin] {[ 1 ]})
  /\ ~ In gelang (itemsToDelete [gelang; cincin] {[ 1 ]})
  /\ In gelang (itemsToDelete [gelang; cincin] (toggleDeleteSelection 3 {[ 1 ]})).
Proof.
  cbv zeta.
  pose (gelang := StockItem.mk 3 "Gelang" 10000 5 None 0).
  pose (cincin := StockItem.mk 1 "Cincin" 5000 2 None 0).
  destruct (toggleDeleteSelection_involutive 3 {[ 1 ]} [gelang; cincin])
    as (Htwice & Hin & _ & Hmember & Htoggled & _).
  assert (Hout : ~ In gelang (itemsToDelete [gelang; cincin] {[ 1 ]})).
  { rewrite Hmember, elem_of_singleton. simpl. intros [_ H]. discriminate H. }
  split; [exact Htwice|].
  split; [apply Hin; rewrite elem_of_singleton; discriminate|].
  split; [apply Hmember; split; [right; left; reflexivity|apply elem_of_singleton; reflexivity]|].
  split; [exact Hout|].
  apply (Htoggled gelang); [left; reflexivity|reflexivity|exact Hout].
Defined.

(** * File names of stored images *)

Lemma append_cons (c : ascii) (a b : string) :
  String.append (String c a) b = String c (String.append a b).
Proof. reflexivity. Qed.

Lemma split_not_nil (sep : ascii) (s : string) : split sep s <> [].
Proof.
  destruct s as [|c r]; simpl; [discriminate|].
  destruct (Ascii.eqb c sep); [discriminate|].
  destruct (split sep r); discriminate.
Qed.

Lemma last_cons_not_nil {A : Type} (x d : A) (l : list A) :
  l <> [] -> List.last (x :: l) d = List.last l d.
Proof. destruct l; [contradiction|reflexivity]. Qed.

Lemma last_split_cons (sep c : ascii) (r : string) (d : string) :
  List.tl (split sep r) <> [] ->
  List.last (split sep (String c r)) d = List.last (split sep r) d
  /\ List.tl (split sep (String c r)) <> [].
Proof.
  intros Htl. simpl. destruct (Ascii.eqb c sep).
  - split; [|apply split_not_nil]. apply last_cons_not_nil, split_not_nil.
  - destruct (split sep r) as [|seg rest]; [contradiction (split_not_nil sep r Htl) || contradiction|].
    simpl in Htl. split; [|exact Htl].
    destruct rest; [contradiction|reflexivity].
Qed.

Lemma last_split_append (sep : ascii) (a b d : string) :
  List.last (split sep (String.append a (String sep b))) d = List.last (split sep b) d
  /\ List.tl (split sep (String.append a (String sep b))) <> [].
Proof.
  induction a as [|c a IH].
  - change (String.append "" (String sep b)) with (String sep b).
    simpl. rewrite Ascii.eqb_refl. split; [|apply split_not_nil].
    apply last_cons_not_nil, split_not_nil.
  - rewrite append_cons. destruct IH as [IHlast IHtl].
    destruct (last_split_cons sep c _ d IHtl) as [Hlast Htl].
    split; [rewrite Hlast; exact IHlast|exact Htl].
Qed.

Lemma split_without_separator (sep : ascii) (s : string) :
  occurs sep s = false -> split sep s = [s].
Proof.
  induction s as [|c r IH]; simpl; intros H; [reflexivity|].
  apply orb_false_iff in H as [Hc Hr]. rewrite Hc, (IH Hr). reflexivity.
Qed.

Lemma last_split_no_separator (sep : ascii) (s d : string) :
  occurs sep (List.last (split sep s) d) = false.
Proof.
  induction s as [|c r IH]; simpl; [reflexivity|].
  destruct (Ascii.eqb c sep) eqn:Hc.
  - rewrite last_cons_not_nil by apply split_not_nil. exact IH.
  - destruct (split sep r) as [|seg rest] eqn:Hsplit; [simpl; rewrite Hc; reflexivity|].
    destruct rest as [|seg' rest'].
    + simpl in *. rewrite Hc, IH. reflexivity.
    + exact IH.
Qed.

(** X14.  The file removed with a stock item is the file that was
    uploaded for it: for a name without "/", the name taken from an
    image URL that ends in "/" and that name is the name itself; and
    whatever the URLs, no name handed to the storage contains a "/" or is
    empty. *)
Theorem lastSegment_recovers_file_name
    (base fileName : string) (items : list StockItem.t)
    (Hname : occurs "/" fileName = false) :
  lastSegment (String.append base (String "/" fileName)) = fileName
  /\ Forall (fun name => occurs "/" name = false /\ name <> "") (filesToDelete items).
Proof.
  split.
  - unfold lastSegment.
    rewrite (proj1 (last_split_append "/" base fileName "")).
    rewrite (split_without_separator _ _ Hname). reflexivity.
  - apply List.Forall_forall. intros name Hin. unfold filesToDelete in Hin.
    apply filter_In in Hin as [Hin Hne].
    apply negb_true_iff, String.eqb_neq in Hne. split; [|exact Hne].
    apply list_elem_of_In, list_elem_of_omap in Hin as (item & _ & Hitem).
    destruct (StockItem.image_url item) as [url|]; [|discriminate].
    destruct (String.eqb url ""); [discriminate|].
    inversion Hitem; subst. apply last_split_no_separator.
Qed.

Lemma lastSegment_recovers_file_name_witness :
  occurs "/" "item_1700000000000_k3x9ab.webp" = false
  /\ lastSegment "https://x.supabase.co/storage/v1/object/public/item/item_1700000000000_k3x9ab.webp"
     = "item_1700000000000_k3x9ab.webp".
Proof.
  split; [reflexivity|].
  exact (proj1 (lastSegment_recovers_file_name
                  "https://x.supabase.co/storage/v1/object/public/item"
                  "item_1700000000000_k3x9ab.webp" [] eq_refl)).
Defined.

(** * More on the daily chart series *)

Lemma chartData_without_future_sales_witness :
  let now := DateFns.atStartOfDate 20000 + 36000000 in
  let sales := [Sale.mk 1 now None "Gelang" 500 1 500 None lunas;
                Sale.mk 2 (now - 40 * DateFns.MS_PER_DAY) None "Pin" 700 1 700 None lunas] in
  (forall s, In s sales -> DateFns.dayOf (Sale.sold_at s) <= DateFns.dayOf now)
  /\ length (chartData now sales) = 30%nat.
Proof.
  cbv zeta.
  assert (H : forall s,
             In s [Sale.mk 1 (DateFns.atStartOfDate 20000 + 36000000) None "Gelang" 500 1 500
                     None lunas;
                   Sale.mk 2 (DateFns.atStartOfDate 20000 + 36000000 - 40 * DateFns.MS_PER_DAY)
                     None "Pin" 700 1 700 None lunas] ->
             DateFns.dayOf (Sale.sold_at s)
             <= DateFns.dayOf (DateFns.atStartOfDate 20000 + 36000000)).
  { intros s [<-|[<-|[]]]; vm_compute; discriminate. }
  split; [exact H|].
  exact (proj2 (proj2 (chartData_without_future_sales _ _ H))).
Defined.





(** * Ledger and dashboard *)

Lemma length_split {A : Type} (p : A -> bool) (l : list A) :
  length l
  = (length (List.filter (fun x => negb (p x)) l) + length (List.filter p l))%nat.
Proof.
  induction l as [|x l IH]; simpl; [reflexivity|].
  destruct (p x); simpl; lia.
Qed.

(** X18.  The counts of the ledger header and of the dashboard metrics
    reconcile: over the same range-filtered sales and expenses, the count
    of "Total Penjualan" is the number of the rows that are no capital
    entries, so that with the number of capital rows it is [totalSales],
    the number of rows of the table; and "Pengeluaran" is
    [totalExpenses], the same sum over the same rows in the same
    order. *)
Theorem ledger_reconciles_with_metrics
    (fromDate toDate : DayNumber) (sales : list Sale.t) (expenses : list Expense.t) :
  let h := exportExcel fromDate toDate sales expenses in
  let rows := filteredSales fromDate toDate sales in
  let m := metrics rows (filteredExpenses fromDate toDate expenses) in
  totalPenjualan h
  = Z.of_nat (length (List.filter (fun s => negb (is_capital s)) rows))
  /\ totalPenjualan h + Z.of_nat (length (List.filter is_capital rows)) = totalSales m
  /\ (0 <= totalPenjualan h <= totalSales m)
  /\ ((forall s, In s rows -> is_capital s = false) -> totalPenjualan h = totalSales m)
  /\ pengeluaran h = totalExpenses m.
Proof.
  cbv zeta. unfold exportExcel, metrics.
  cbn [pengeluaran totalPenjualan totalExpenses totalSales].
  pose proof (length_split is_capital (filteredSales fromDate toDate sales)) as Hlen.
  unfold is_capital, MODAL_ITEM_NAME in *.
  split; [reflexivity|]. split; [lia|]. split; [lia|]. split; [|reflexivity].
  intros Hnone.
  rewrite (filter_nothing (fun s => String.eqb (Sale.item_name s) "Modal / Dana Awal")
             (filteredSales fromDate toDate sales) Hnone) in Hlen.
  cbn [length] in Hlen. lia.
Qed.

Lemma ledger_reconciles_with_metrics_witness :
  let gelang := Sale.mk 1 0 None "Gelang" 10000 1 10000 None lunas in
  let modal := Sale.mk 2 0 None "Modal / Dana Awal" 100000 1 100000 None lunas in
  totalPenjualan (exportExcel 0 0 [gelang; modal] []) = 1
  /\ totalPenjualan (exportExcel 0 0 [gelang] [])
     = totalSales (metrics (filteredSales 0 0 [gelang]) (filteredExpenses 0 0 [])).
Proof.
  cbv zeta.
  pose (gelang := Sale.mk 1 0 None "Gelang" 10000 1 10000 None lunas).
  pose (modal := Sale.mk 2 0 None "Modal / Dana Awal" 100000 1 100000 None lunas).
  destruct (ledger_reconciles_with_metrics 0 0 [gelang; modal] []) as (Hcount & _).
  split; [exact (eq_trans Hcount eq_refl)|].
  apply (proj1 (proj2 (proj2 (proj2 (ledger_reconciles_with_metrics 0 0 [gelang] []))))).
  intros s Hs. vm_compute in Hs. destruct Hs as [<-|[]]. reflexivity.
Defined.

(** * More on the range filter *)

Lemma whole_second_in_range (fromDate toDate : DayNumber) (t : Timestamp) :
  t mod 1000 = 0 ->
  (inRange fromDate toDate t <-> fromDate <= DateFns.dayOf t <= toDate).
Proof.
  unfold inRange, DateFns.atStartOfDate, DateFns.atEndOfDate, DateFns.dayOf,
    DateFns.MS_PER_DAY, DateFns.MS_PER_SECOND.
  intros Hsec.
  pose proof (Z.div_mod t 86400000 ltac:(lia)) as Hdm.
  pose proof (Z.mod_pos_bound t 86400000 ltac:(lia)) as Hbound.
  assert (Hrem : (t mod 86400000) mod 1000 = 0).
  { rewrite (Z.mod_mod_divide t 86400000 1000); [exact Hsec|].
    exists 86400. reflexivity. }
  pose proof (Z.div_mod (t mod 86400000) 1000 ltac:(lia)) as Hdm2.
  split; intros H; lia.
Qed.

(** X19.  For time stamps on whole seconds the range filter is a filter
    on the calendar day: a sale is kept exactly when its day lies between
    [fromDate] and [toDate]; and with the range the history opens with,
    the kept sales are the sales of the 30 days of the chart window.  A
    time stamp in the last second of [toDate], after 23:59:59.000, is
    dropped although its day is [toDate]. *)
Theorem range_filter_by_calendar_day
    (fromDate toDate : DayNumber) (now : Timestamp) (sales : list Sale.t) :
  (forall s, Sale.sold_at s mod 1000 = 0 ->
     (In s (filteredSales fromDate toDate sales)
      <-> In s sales /\ fromDate <= DateFns.dayOf (Sale.sold_at s) <= toDate))
  /\ (forall s, Sale.sold_at s mod 1000 = 0 ->
        (In s (filteredSales (initialFromDate now) (initialToDate now) sales)
         <-> In s sales /\ In (DateFns.dayOf (Sale.sold_at s)) (windowDays now)))
  /\ (forall s, DateFns.atEndOfDate toDate < Sale.sold_at s ->
        ~ In s (filteredSales fromDate toDate sales))
  /\ DateFns.dayOf (DateFns.atEndOfDate toDate + 500) = toDate.
Proof.
  split; [|split; [|split]].
  - intros s Hsec. rewrite filteredSales_In, (whole_second_in_range _ _ _ Hsec). tauto.
  - intros s Hsec. rewrite filteredSales_In, (whole_second_in_range _ _ _ Hsec).
    rewrite windowDays_In. unfold initialFromDate, initialToDate.
    rewrite dayOf_subDays. tauto.
  - intros s Hlate Hin. apply filteredSales_In in Hin as [_ [_ Hr]]. lia.
  - unfold DateFns.dayOf, DateFns.atEndOfDate, DateFns.MS_PER_DAY, DateFns.MS_PER_SECOND.
    symmetry. apply (Z.div_unique _ _ toDate 86399500); lia.
Qed.

Lemma range_filter_by_calendar_day_witness :
  let s := Sale.mk 1 (DateFns.atStartOfDate 20001 + 3600000) None "Gelang" 10 1 10 None lunas in
  let late := Sale.mk 2 (DateFns.atEndOfDate 20002 + 500) None "Pin" 10 1 10 None lunas in
  Sale.sold_at s mod 1000 = 0
  /\ In s (filteredSales 20000 20002 [s; late])
  /\ ~ In late (filteredSales 20000 20002 [s; late]).
Proof.
  cbv zeta.
  pose (s := Sale.mk 1 (DateFns.atStartOfDate 20001 + 3600000) None "Gelang" 10 1 10 None lunas).
  pose (late := Sale.mk 2 (DateFns.atEndOfDate 20002 + 500) None "Pin" 10 1 10 None lunas).
  assert (Hsec : Sale.sold_at s mod 1000 = 0) by reflexivity.
  destruct (range_filter_by_calendar_day 20000 20002 0 [s; late])
    as (Hday & _ & Hlate & _).
  split; [exact Hsec|]. split.
  - apply (Hday s Hsec). split; [left; reflexivity|]. vm_compute. split; discriminate.
  - apply Hlate. vm_compute. reflexivity.
Defined.

(** * Expenses *)

Lemma totalExpenses_sum (sales : list Sale.t) (expenses : list Expense.t) :
  totalExpenses (metrics sales expenses) = sumZ (List.map Expense.total_cost expenses).
Proof. unfold metrics; simpl. rewrite reduce_add. lia. Qed.

Lemma profit_difference (sales : list Sale.t) (expenses : list Expense.t) :
  profit (metrics sales expenses)
  = totalRevenue (metrics sales expenses) - totalExpenses (metrics sales expenses).
Proof. reflexivity. Qed.

(** X20.  An expense with an item name that is not blank, a price that is
    not negative and a quantity above 0 is stored as one row, after the
    rows that were there, whose total cost is price times quantity plus
    the other cost (0 when that field is not a number), dated as entered
    and described by the trimmed item name and the quantity.  When the
    handler reports an error, no row is added. *)
Theorem handleSubmitExpense_adds_the_total
    (jsTrim : string -> string) (expenseItem expenseNote : string)
    (price qtyVal : Z) (otherCost : option Z) (expenseDate : Timestamp) (new_id : Z)
    (expenses : list Expense.t)
    (Hitem : jsTrim expenseItem <> "")
    (Hprice : 0 <= price)
    (Hqty : 0 < qtyVal) :
  let total := price * qtyVal + default 0 otherCost in
  (exists row,
      handleSubmitExpense jsTrim true expenseItem (Some price) (Some qtyVal) otherCost
        expenseNote expenseDate new_id expenses
      = (expenses ++ [row], None)
      /\ Expense.id row = new_id
      /\ Expense.total_cost row = total
      /\ Expense.bought_at row = expenseDate
      /\ (expenseNote = "" ->
          Expense.description row
          = Some (String.append (jsTrim expenseItem)
                    (String.append " (Qty: " (String.append (pretty qtyVal) ")"))))
      /\ (otherCost = None -> Expense.total_cost row = price * qtyVal))
  /\ (forall hasSupabaseEnv item' price' qty' other' note' result message,
        handleSubmitExpense jsTrim hasSupabaseEnv item' price' qty' other' note'
          expenseDate new_id expenses
        = (result, Some message) ->
        result = expenses)
  /\ (forall item' other' note',
        fst (handleSubmitExpense jsTrim true item' (Some price) (Some 0) other' note'
               expenseDate new_id expenses) = expenses
        /\ fst (handleSubmitExpense jsTrim true item' (Some (-1)) (Some qtyVal) other' note'
                  expenseDate new_id expenses) = expenses
        /\ fst (handleSubmitExpense jsTrim true item' None (Some qtyVal) other' note'
                  expenseDate new_id expenses) = expenses).
Proof.
  cbv zeta. split; [|split].
  - unfold handleSubmitExpense. cbn [negb].
    apply String.eqb_neq in Hitem. rewrite Hitem.
    apply Z.ltb_ge in Hprice. rewrite Hprice.
    apply Z.leb_gt in Hqty. rewrite Hqty.
    eexists. split; [reflexivity|].
    cbn [Expense.id Expense.total_cost Expense.bought_at Expense.description].
    split; [reflexivity|]. split; [reflexivity|]. split; [reflexivity|]. split.
    + intros ->. reflexivity.
    + intros ->. cbn [default]. unfold id. lia.
  - intros hasEnv item' price' qty' other' note' result message.
    unfold handleSubmitExpense.
    destruct hasEnv; cbn [negb]; [|intros H; inversion H; reflexivity].
    destruct (String.eqb (jsTrim item') ""); [intros H; inversion H; reflexivity|].
    destruct price' as [p|]; [|intros H; inversion H; reflexivity].
    destruct (p <? 0); [intros H; inversion H; reflexivity|].
    destruct qty' as [q|]; [|intros H; inversion H; reflexivity].
    destruct (q <=? 0); [intros H; inversion H; reflexivity|].
    intros H; inversion H.
  - intros item' other' note'. unfold handleSubmitExpense. cbn [negb].
    apply Z.ltb_ge in Hprice. rewrite Hprice.
    destruct (String.eqb (jsTrim item') ""); repeat split.
Qed.

Lemma handleSubmitExpense_adds_the_total_witness :
  exists row,
    handleSubmitExpense trim true " Kardus " (Some 2000) (Some 3) None "" 0 1 []
    = ([row], None)
    /\ Expense.total_cost row = 6000
    /\ Expense.description row = Some "Kardus (Qty: 3)".
Proof.
  destruct (proj1 (handleSubmitExpense_adds_the_total trim " Kardus " "" 2000 3 None 0 1 []
                     ltac:(discriminate) ltac:(lia) ltac:(lia)))
    as (row & Hrun & _ & Htotal & _ & Hdescription & _).
  exists row. split; [exact Hrun|]. split; [exact Htotal|].
  rewrite (Hdescription eq_refl). vm_compute. reflexivity.
Defined.

(** X25.  Deleting an expense removes the rows of that [id] and no other:
    the rows left are exactly the rows of another [id], in their order.
    Editing an expense keeps the number of rows and every row of another
    [id], and gives the rows of that [id] the description, the total
    cost and the date of the edit. *)
Theorem expense_delete_and_edit
    (id : Z) (data : ExpenseUpdate) (expenses : list Expense.t) :
  let afterDelete := (handleDeleteExpense true id expenses).1 in
  let afterEdit := (handleUpdateExpense true id data expenses).1 in
  (forall e, In e afterDelete <-> In e expenses /\ Expense.id e <> id)
  /\ ((forall e, In e expenses -> Expense.id e <> id) -> afterDelete = expenses)
  /\ (forall before e after,
        expenses = before ++ e :: after -> Expense.id e = id ->
        (forall x, In x (before ++ after) -> Expense.id x <> id) ->
        afterDelete = before ++ after)
  /\ length afterEdit = length expenses
  /\ List.map Expense.id afterEdit = List.map Expense.id expenses
  /\ List.filter (fun e => negb (Expense.id e =? id)) afterEdit
     = List.filter (fun e => negb (Expense.id e =? id)) expenses
  /\ Forall (fun e => Expense.id e = id ->
                      Expense.total_cost e = upd_total_cost data
                      /\ Expense.description e = Some (upd_description data)
                      /\ Expense.bought_at e = upd_bought_at data)
       afterEdit.
Proof.
  cbv zeta. unfold handleDeleteExpense, handleUpdateExpense. cbn [negb fst].
  assert (Hkeep : forall l : list Expense.t,
            (forall x, In x l -> Expense.id x <> id) ->
            List.filter (fun e => negb (Expense.id e =? id)) l = l).
  { intros l Hl. induction l as [|x l IH]; cbn [List.filter]; [reflexivity|].
    assert (Hx : (Expense.id x =? id) = false)
      by (apply Z.eqb_neq, Hl; left; reflexivity).
    rewrite Hx. cbn [negb]. f_equal. apply IH. intros y Hy. apply Hl. right. exact Hy. }
  split; [|split; [|split; [|split; [|split; [|split]]]]].
  - intros e. rewrite filter_In, negb_true_iff, Z.eqb_neq. reflexivity.
  - apply Hkeep.
  - intros before e after -> Hid Hothers.
    rewrite List.filter_app. cbn [List.filter].
    apply Z.eqb_eq in Hid. rewrite Hid. cbn [negb].
    rewrite <- List.filter_app. apply Hkeep. exact Hothers.
  - apply length_map.
  - rewrite List.map_map. apply map_ext. intros e.
    destruct (Expense.id e =? id); reflexivity.
  - induction expenses as [|e l IH]; simpl; [reflexivity|].
    destruct (Expense.id e =? id) eqn:E; simpl; rewrite ?Z.eqb_refl, ?E; simpl;
      rewrite IH; reflexivity.
  - apply List.Forall_forall. intros e He Hid.
    apply in_map_iff in He as (x & Hx & _).
    destruct (Expense.id x =? id) eqn:E; subst e; [repeat split|].
    apply Z.eqb_neq in E. contradiction.
Qed.

Lemma expense_delete_and_edit_witness :
  let kardus := Expense.mk 1 0 (Some "Kardus") 3000 in
  let ongkir := Expense.mk 2 0 None 1000 in
  (handleDeleteExpense true 1 [kardus; ongkir]).1 = [ongkir]
  /\ length (handleUpdateExpense true 2 (Build_ExpenseUpdate "Lakban" 1500 5)
               [kardus; ongkir]).1
     = 2%nat.
Proof.
  cbv zeta.
  pose (kardus := Expense.mk 1 0 (Some "Kardus") 3000).
  pose (ongkir := Expense.mk 2 0 None 1000).
  destruct (expense_delete_and_edit 1 (Build_ExpenseUpdate "Lakban" 1500 5) [kardus; ongkir])
    as (_ & _ & Hdelete & _).
  destruct (expense_delete_and_edit 2 (Build_ExpenseUpdate "Lakban" 1500 5) [kardus; ongkir])
    as (_ & _ & _ & Hlength & _).
  split; [|exact Hlength].
  apply (Hdelete [] kardus [ongkir] eq_refl eq_refl).
  intros x [<-|[]]. simpl. lia.
Defined.

(** * More on the snapshot loader *)

(** X21.  A load without error hides the anchor item of the capital
    entries and keeps the capital entries themselves: no stock item of the
    page has the reserved name, every other stock item of the answer is on
    the page, and the sales of the page are the rows of the answer, one
    for one, with their item names and status.  Without configuration the
    load only ends the loading state. *)
Theorem loadAll_hides_anchor_keeps_sales
    (toNumber : RawValue -> Z)
    (stockRes : Response RawStockItem) (salesRes : Response RawSale)
    (expensesRes : Response RawExpense) (st : PageState)
    (Hstock : error stockRes = None) (Hsales : error salesRes = None)
    (Hexpenses : error expensesRes = None) :
  let st' := loadAll toNumber true stockRes salesRes expensesRes st in
  Forall (fun item => StockItem.name item <> "SYSTEM_MODAL_DONOTDELETE") (st_stockItems st')
  /\ (forall raw, In raw (default [] (data stockRes)) ->
        raw_stock_name raw <> "SYSTEM_MODAL_DONOTDELETE" ->
        In (parseStock toNumber raw) (st_stockItems st'))
  /\ List.map Sale.item_name (st_sales st')
     = List.map raw_sale_item_name (default [] (data salesRes))
  /\ List.map Sale.status (st_sales st')
     = List.map raw_sale_status (default [] (data salesRes))
  /\ length (st_expenses st') = length (default [] (data expensesRes))
  /\ st_error st' = None /\ st_loading st' = false
  /\ loadAll toNumber false stockRes salesRes expensesRes st = setLoading false st.
Proof.
  cbv zeta. unfold loadAll. rewrite Hstock, Hsales, Hexpenses. cbn.
  split; [|split; [|split; [|split; [|split]]]].
  - apply List.Forall_forall. intros item Hin.
    apply filter_In in Hin as [_ Hname].
    apply negb_true_iff, String.eqb_neq in Hname. exact Hname.
  - intros raw Hin Hname. apply filter_In. split; [apply in_map; exact Hin|].
    apply negb_true_iff, String.eqb_neq. exact Hname.
  - rewrite List.map_map. reflexivity.
  - rewrite List.map_map. reflexivity.
  - apply length_map.
  - repeat split.
Qed.

Lemma loadAll_hides_anchor_keeps_sales_witness :
  let stockRes : Response RawStockItem :=
    {| data := Some [Build_RawStockItem 9 "SYSTEM_MODAL_DONOTDELETE" (RawNumber 0)
                       (RawNumber 0) None 0;
                     Build_RawStockItem 1 "Gelang" (RawNumber 10000) RawNull None 0];
       error := None |} in
  let salesRes : Response RawSale :=
    {| data := Some [Build_RawSale 1 0 (Some 9) "Modal / Dana Awal" (RawNumber 5) (RawNumber 1)
                       (RawNumber 5) None lunas];
       error := None |} in
  let expensesRes : Response RawExpense := {| data := None; error := None |} in
  let st := {| st_loading := true; st_error := None; st_stockItems := [];
               st_sales := []; st_expenses := [] |} in
  let st' := loadAll (fun _ => 0) true stockRes salesRes expensesRes st in
  List.map StockItem.name (st_stockItems st') = ["Gelang"]
  /\ List.map Sale.item_name (st_sales st') = ["Modal / Dana Awal"].
Proof.
  cbv zeta.
  destruct (loadAll_hides_anchor_keeps_sales (fun _ => 0)
    {| data := Some [Build_RawStockItem 9 "SYSTEM_MODAL_DONOTDELETE" (RawNumber 0)
                       (RawNumber 0) None 0;
                     Build_RawStockItem 1 "Gelang" (RawNumber 10000) RawNull None 0];
       error := None |}
    {| data := Some [Build_RawSale 1 0 (Some 9) "Modal / Dana Awal" (RawNumber 5) (RawNumber 1)
                       (RawNumber 5) None lunas];
       error := None |}
    {| data := None; error := None |}
    {| st_loading := true; st_error := None; st_stockItems := [];
       st_sales := []; st_expenses := [] |}
    eq_refl eq_refl eq_refl) as (_ & _ & Hnames & _).
  split; [reflexivity|exact Hnames].
Defined.

(** * The anchor of the capital entries *)

Lemma getSystemModalId_unfold (gen : Generated) (db : Db.t) :
  getSystemModalId true gen db
  = match List.filter isAnchorRow (map_to_list (Db.stock_items db)) with
    | [(_, existing)] => (db, Some (StockItem.id existing))
    | _ =>
        let created :=
          StockItem.mk (new_stock_item_id gen) "SYSTEM_MODAL_DONOTDELETE" 0 0 None
            (created_now gen) in
        (Db.mk (<[StockItem.id created := created]> (Db.stock_items db)) (Db.sales db),
         Some (StockItem.id created))
    end.
Proof. reflexivity. Qed.

Lemma no_anchor_rows (db : Db.t) :
  noAnchor db -> List.filter isAnchorRow (map_to_list (Db.stock_items db)) = [].
Proof.
  intros Hnone. apply filter_nothing. intros [k item] Hin.
  apply list_elem_of_In, elem_of_map_to_list in Hin.
  apply String.eqb_neq. exact (Hnone k item Hin).
Qed.

Lemma one_anchor_row (db : Db.t) (k : Z) (anchor : StockItem.t) :
  noAnchor db -> Db.stock_items db !! k = None ->
  StockItem.name anchor = "SYSTEM_MODAL_DONOTDELETE" ->
  List.filter isAnchorRow (map_to_list (<[k := anchor]> (Db.stock_items db)))
  = [(k, anchor)].
Proof.
  intros Hnone Hfresh Hname.
  apply Permutation_singleton_r.
  rewrite (filter_Permutation isAnchorRow _ _ (map_to_list_insert _ k anchor Hfresh)).
  cbn [List.filter]. unfold isAnchorRow at 1. cbn [snd]. rewrite Hname.
  change (String.eqb "SYSTEM_MODAL_DONOTDELETE" "SYSTEM_MODAL_DONOTDELETE") with true.
  cbn iota. rewrite (no_anchor_rows db Hnone). reflexivity.
Qed.

(** X22.  The anchor item of the capital entries is created once.  On a
    store without an item of the reserved name, the first capital entry
    inserts the anchor (stock 0, price 0) under the generated [id]; a
    second entry reuses it, so the stock items are the same after it, and
    both sale rows refer to the anchor.  With its stock of 0 the anchor
    cannot be sold: whatever the arguments, [create_sale] on it fails and
    leaves the store as it is, for a quantity above 0 that is a 32-bit
    integer (and a 64-bit [id]) for lack of stock. *)
Theorem capital_anchor_is_created_once
    (gen gen' : Generated) (db : Db.t) (amount amount' : Z) (date date' : Timestamp)
    (Hnone : noAnchor db)
    (Hfresh : Db.stock_items db !! new_stock_item_id gen = None)
    (Hamount : 0 < amount) (Hamount' : 0 < amount') :
  let anchor :=
    StockItem.mk (new_stock_item_id gen) "SYSTEM_MODAL_DONOTDELETE" 0 0 None
      (created_now gen) in
  let db1 := (handleSubmitModal true (Some amount) date gen db).1 in
  let db2 := (handleSubmitModal true (Some amount') date' gen' db1).1 in
  Db.stock_items db1 = <[new_stock_item_id gen := anchor]> (Db.stock_items db)
  /\ Db.stock_items db2 = Db.stock_items db1
  /\ (exists row1 row2,
        Db.sales db2 = Db.sales db ++ [row1; row2]
        /\ Sale.stock_item_id row1 = Some (new_stock_item_id gen)
        /\ Sale.stock_item_id row2 = Some (new_stock_item_id gen)
        /\ Sale.total_price row1 = amount /\ Sale.total_price row2 = amount')
  /\ (forall new_id qty buyer soldAt status,
        exists message,
          create_sale new_id (new_stock_item_id gen) qty buyer soldAt status db2
          = (db2, inl message))
  /\ (forall new_id qty buyer soldAt status,
        0 < qty -> in_integer qty = true -> in_bigint (new_stock_item_id gen) = true ->
        create_sale new_id (new_stock_item_id gen) qty buyer soldAt status db2
        = (db2, inl "stok tidak cukup")).
Proof.
  cbv zeta.
  set (anchor := StockItem.mk (new_stock_item_id gen) "SYSTEM_MODAL_DONOTDELETE" 0 0 None
                   (created_now gen)).
  assert (H1 : handleSubmitModal true (Some amount) date gen db
               = (Db.mk (<[new_stock_item_id gen := anchor]> (Db.stock_items db))
                    (Db.sales db
                     ++ [Sale.mk (new_sale_id gen) date (Some (new_stock_item_id gen))
                           "Modal / Dana Awal" amount 1 amount None lunas]),
                  None)).
  { unfold handleSubmitModal. cbn [negb].
    assert (Ha : (amount <=? 0) = false) by (apply Z.leb_gt; exact Hamount).
    rewrite Ha, getSystemModalId_unfold, (no_anchor_rows db Hnone). reflexivity. }
  rewrite H1. cbn [fst].
  set (db1 := Db.mk (<[new_stock_item_id gen := anchor]> (Db.stock_items db)) _).
  assert (H2 : handleSubmitModal true (Some amount') date' gen' db1
               = (Db.mk (Db.stock_items db1)
                    (Db.sales db1
                     ++ [Sale.mk (new_sale_id gen') date' (Some (new_stock_item_id gen))
                           "Modal / Dana Awal" amount' 1 amount' None lunas]),
                  None)).
  { unfold handleSubmitModal. cbn [negb].
    assert (Ha : (amount' <=? 0) = false) by (apply Z.leb_gt; exact Hamount').
    rewrite Ha, getSystemModalId_unfold. unfold db1 at 1. cbn [Db.stock_items].
    rewrite (one_anchor_row db _ anchor Hnone Hfresh eq_refl). reflexivity. }
  rewrite H2. cbn [fst Db.stock_items Db.sales].
  split; [reflexivity|]. split; [reflexivity|]. split; [|split].
  - eexists. eexists. unfold db1. cbn [Db.sales]. rewrite <- app_assoc.
    split; [reflexivity|]. repeat split.
  - intros new_id qty buyer soldAt status.
    rewrite create_sale_cases. cbn [Db.stock_items]. unfold db1. cbn [Db.stock_items].
    rewrite lookup_insert_eq.
    destruct (negb (in_bigint _)); [eexists; reflexivity|].
    destruct (negb (in_integer _)); [eexists; reflexivity|].
    destruct (qty <=? 0) eqn:Hq; [eexists; reflexivity|].
    apply Z.leb_gt in Hq.
    assert (Hs : (StockItem.stock anchor <? qty) = true) by (apply Z.ltb_lt; simpl; lia).
    rewrite Hs. eexists; reflexivity.
  - intros new_id qty buyer soldAt status Hqty Hint Hid.
    rewrite create_sale_cases, Hid, Hint. cbn [negb Db.stock_items].
    unfold db1. cbn [Db.stock_items].
    rewrite lookup_insert_eq.
    assert (Hq : (qty <=? 0) = false) by (apply Z.leb_gt; exact Hqty). rewrite Hq.
    assert (Hs : (StockItem.stock anchor <? qty) = true) by (apply Z.ltb_lt; simpl; lia).
    rewrite Hs. reflexivity.
Qed.

Lemma capital_anchor_is_created_once_witness :
  let gen := {| new_stock_item_id := 50; new_sale_id := 60; created_now := 0 |} in
  let gen' := {| new_stock_item_id := 51; new_sale_id := 61; created_now := 1 |} in
  let db := Db.mk {[ 7 := StockItem.mk 7 "Gelang" 10000 5 None 0 ]} [] in
  let db1 := (handleSubmitModal true (Some 100000) 0 gen db).1 in
  let db2 := (handleSubmitModal true (Some 50000) 1 gen' db1).1 in
  noAnchor db
  /\ Db.stock_items db2 = Db.stock_items db1
  /\ create_sale 1 50 1 None 0 None db2 = (db2, inl "stok tidak cukup").
Proof.
  cbv zeta.
  pose (db := Db.mk {[ 7 := StockItem.mk 7 "Gelang" 10000 5 None 0 ]} []).
  assert (Hnone : noAnchor db).
  { intros k item Hk. cbn in Hk. apply lookup_singleton_Some in Hk as [_ <-].
    discriminate. }
  assert (Hfresh : Db.stock_items db !! 50 = None) by (vm_compute; reflexivity).
  destruct (capital_anchor_is_created_once
              {| new_stock_item_id := 50; new_sale_id := 60; created_now := 0 |}
              {| new_stock_item_id := 51; new_sale_id := 61; created_now := 1 |}
              db 100000 50000 0 1 Hnone Hfresh ltac:(lia) ltac:(lia))
    as (_ & Hsame & _ & _ & Hsell).
  split; [exact Hnone|]. split; [exact Hsame|].
  apply Hsell; [lia|reflexivity|reflexivity].
Defined.

(** * Slides of the public store *)

(** X23.  The slide show always has a slide, and stepping keeps the index
    on one: for an index within the slides, a step forward or back gives
    an index within the slides, forward then back (or back then forward)
    returns to the index, the last slide steps forward to the first and
    the first back to the last, and the timer's step is the step
    forward. *)
Theorem goSlide_stays_on_a_slide (promoSlides : list (Z * string)) :
  let n := Z.of_nat (length (displaySlides promoSlides)) in
  0 < n
  /\ forall prev, 0 <= prev < n ->
       0 <= goSlide 1 n prev < n
       /\ 0 <= goSlide (-1) n prev < n
       /\ goSlide (-1) n (goSlide 1 n prev) = prev
       /\ goSlide 1 n (goSlide (-1) n prev) = prev
       /\ goSlide 1 n (n - 1) = 0
       /\ goSlide (-1) n 0 = n - 1
       /\ autoPlay n prev = goSlide 1 n prev
       /\ is_Some (displaySlides promoSlides !! Z.to_nat (goSlide 1 n prev))
       /\ is_Some (displaySlides promoSlides !! Z.to_nat (goSlide (-1) n prev)).
Proof.
  cbv zeta. set (n := Z.of_nat (length (displaySlides promoSlides))) in *.
  assert (Hn : 0 < n).
  { unfold n, displaySlides. destruct promoSlides as [|x l]; simpl; lia. }
  split; [exact Hn|]. intros prev Hprev.
  assert (Hstep : forall d p, 0 <= p + d + n -> goSlide d n p = (p + d + n) mod n).
  { intros d p Hp. unfold goSlide. apply Z.rem_mod_nonneg; lia. }
  assert (Hf : goSlide 1 n prev = if prev + 1 <? n then prev + 1 else 0).
  { rewrite Hstep by lia. destruct (prev + 1 <? n) eqn:E.
    - apply Z.ltb_lt in E. symmetry. apply (Z.mod_unique_pos _ _ 1); lia.
    - apply Z.ltb_ge in E. symmetry. apply (Z.mod_unique_pos _ _ 2); lia. }
  assert (Hb : goSlide (-1) n prev = if 0 <? prev then prev - 1 else n - 1).
  { rewrite Hstep by lia. destruct (0 <? prev) eqn:E.
    - apply Z.ltb_lt in E. symmetry. apply (Z.mod_unique_pos _ _ 1); lia.
    - apply Z.ltb_ge in E. symmetry. apply (Z.mod_unique_pos _ _ 0); lia. }
  assert (Hrangef : 0 <= goSlide 1 n prev < n)
    by (rewrite Hf; destruct (prev + 1 <? n) eqn:E; [apply Z.ltb_lt in E|]; lia).
  assert (Hrangeb : 0 <= goSlide (-1) n prev < n)
    by (rewrite Hb; destruct (0 <? prev) eqn:E; [apply Z.ltb_lt in E|]; lia).
  split; [exact Hrangef|]. split; [exact Hrangeb|].
  split.
  { rewrite (Hstep (-1)) by lia. rewrite Hf.
    destruct (prev + 1 <? n) eqn:E.
    - apply Z.ltb_lt in E. symmetry. apply (Z.mod_unique_pos _ _ 1); lia.
    - apply Z.ltb_ge in E. symmetry. apply (Z.mod_unique_pos _ _ 0); lia. }
  split.
  { rewrite (Hstep 1) by lia. rewrite Hb.
    destruct (0 <? prev) eqn:E.
    - apply Z.ltb_lt in E. symmetry. apply (Z.mod_unique_pos _ _ 1); lia.
    - apply Z.ltb_ge in E. symmetry. apply (Z.mod_unique_pos _ _ 2); lia. }
  split.
  { rewrite Hstep by lia. symmetry. apply (Z.mod_unique_pos _ _ 2); lia. }
  split.
  { rewrite Hstep by lia. symmetry. apply (Z.mod_unique_pos _ _ 0); lia. }
  split.
  { unfold autoPlay. rewrite Hstep by lia.
    rewrite Z.rem_mod_nonneg by lia.
    replace (prev + 1 + n) with (prev + 1 + 1 * n) by lia.
    rewrite Z.mod_add by lia. reflexivity. }
  split; apply lookup_lt_is_Some; lia.
Qed.

Lemma goSlide_stays_on_a_slide_witness :
  let promoSlides := [(1, "a.webp"); (2, "b.webp"); (3, "c.webp")] in
  0 <= 2 < Z.of_nat (length (displaySlides promoSlides))
  /\ goSlide 1 3 2 = 0
  /\ goSlide (-1) 3 (goSlide 1 3 2) = 2.
Proof.
  cbv zeta.
  assert (H : 0 <= 2 < Z.of_nat (length (displaySlides
                                          [(1, "a.webp"); (2, "b.webp"); (3, "c.webp")])))
    by (simpl; lia).
  destruct (proj2 (goSlide_stays_on_a_slide [(1, "a.webp"); (2, "b.webp"); (3, "c.webp")])
              2 H) as (_ & _ & Hback & _ & Hlast & _).
  split; [exact H|]. split; [exact Hlast|exact Hback].
Defined.

(** * Bounds of the metrics *)

Lemma sumZ_non_negative (l : list Z) : Forall (fun x => 0 <= x) l -> 0 <= sumZ l.
Proof. induction 1; simpl; lia. Qed.

Lemma sumZ_filter_le {A : Type} (p : A -> bool) (f : A -> Z) (l : list A) :
  (forall x, In x l -> 0 <= f x) ->
  0 <= sumZ (List.map f (List.filter p l)) <= sumZ (List.map f l).
Proof.
  induction l as [|x l IH]; simpl; intros H; [lia|].
  assert (Hx : 0 <= f x) by (apply H; left; reflexivity).
  assert (Hl : forall y, In y l -> 0 <= f y) by (intros y Hy; apply H; right; exact Hy).
  specialize (IH Hl). destruct (p x); simpl; lia.
Qed.

(** X24.  When no sale has a negative total, the metrics of every time
    filter of the dashboard tab are within bounds: [piutang] lies between
    0 and [totalRevenue], and the revenue and the number of sales of a
    time window do not exceed those of all time.  [profit] is
    [totalRevenue] less [totalExpenses] under every filter. *)
Theorem dashboardMetrics_bounds
    (dashFilter : DashFilter) (now : Timestamp)
    (sales : list Sale.t) (expenses : list Expense.t)
    (Htotals : forall s, In s sales -> 0 <= Sale.total_price s) :
  let m := dashboardMetrics dashFilter now sales expenses in
  0 <= piutang m <= totalRevenue m
  /\ totalRevenue m <= totalRevenue (dashboardMetrics all now sales expenses)
  /\ totalSales m <= totalSales (dashboardMetrics all now sales expenses)
  /\ profit m = totalRevenue m - totalExpenses m
  /\ dashboardMetrics all now sales expenses = metrics sales expenses.
Proof.
  cbv zeta.
  assert (Hwindow : forall f, exists p,
            dashboardMetrics f now sales expenses
            = metrics (match dashCutoff f now with
                       | Some c => List.filter (fun s => c <=? Sale.sold_at s) sales
                       | None => sales
                       end) p).
  { intros f. eexists. reflexivity. }
  destruct (Hwindow dashFilter) as (p & ->).
  set (fSales := match dashCutoff dashFilter now with
                 | Some c => List.filter (fun s => c <=? Sale.sold_at s) sales
                 | None => sales
                 end).
  assert (Hin : forall s, In s fSales -> In s sales).
  { unfold fSales. destruct (dashCutoff dashFilter now); [|tauto].
    intros s Hs. apply filter_In in Hs. tauto. }
  assert (Hrev : 0 <= sumZ (List.map Sale.total_price fSales)
                 <= sumZ (List.map Sale.total_price sales)).
  { unfold fSales. destruct (dashCutoff dashFilter now).
    - apply sumZ_filter_le. exact Htotals.
    - split; [|lia]. apply sumZ_non_negative, List.Forall_forall.
      intros x Hx. apply in_map_iff in Hx as (s & <- & Hs). apply Htotals, Hs. }
  assert (Hlen : (length fSales <= length sales)%nat).
  { unfold fSales. destruct (dashCutoff dashFilter now); [apply List.filter_length_le|lia]. }
  change (dashboardMetrics all now sales expenses) with (metrics sales expenses).
  split; [|split; [|split; [|split; reflexivity]]].
  - rewrite piutang_sum, totalRevenue_sum.
    rewrite <- (sumZ_filter is_unpaid Sale.total_price fSales).
    apply sumZ_filter_le. intros s Hs. apply Htotals, Hin, Hs.
  - rewrite !totalRevenue_sum. lia.
  - unfold metrics; cbn [totalSales]. lia.
Qed.

Lemma dashboardMetrics_bounds_witness :
  let now := DateFns.atStartOfDate 20000 + 36000000 in
  let sales := [Sale.mk 1 now None "Gelang" 500 1 500 None belum_bayar;
                Sale.mk 2 (now - 400 * DateFns.MS_PER_DAY) None "Pin" 700 1 700 None lunas] in
  (forall s, In s sales -> 0 <= Sale.total_price s)
  /\ 0 <= piutang (dashboardMetrics weekly now sales [])
     <= totalRevenue (dashboardMetrics weekly now sales []).
Proof.
  cbv zeta.
  assert (H : forall s,
            In s [Sale.mk 1 (DateFns.atStartOfDate 20000 + 36000000) None "Gelang" 500 1 500
                    None belum_bayar;
                  Sale.mk 2 (DateFns.atStartOfDate 20000 + 36000000 - 400 * DateFns.MS_PER_DAY)
                    None "Pin" 700 1 700 None lunas] ->
            0 <= Sale.total_price s).
  { intros s [<-|[<-|[]]]; simpl; lia. }
  split; [exact H|].
  exact (proj1 (dashboardMetrics_bounds weekly _ _ [] H)).
Defined.

(** * The selected item *)

(** X26.  Without a choice the sale form takes the first stock item of
    the snapshot; with no stock item there is no selected item and the
    total shown is 0.  A choice whose [id] is not in the snapshot any more
    selects nothing (the form does not fall back to the first item), and
    submitting then is refused without touching the store. *)
Theorem selectedItem_default_and_stale
    (jsTrim : string -> string) (first : StockItem.t) (rest : list StockItem.t)
    (chosen : Z) (stockItems : list StockItem.t)
    (qty : Z) (buyerName : string) (soldAt : Timestamp) (saleStatus : SaleStatus)
    (new_id : Z) (db : Db.t)
    (Hstale : forall item, In item stockItems -> StockItem.id item <> chosen) :
  selectedItem None (first :: rest) = Some first
  /\ selectedItem None [] = None
  /\ saleTotal (selectedItem None []) qty = 0
  /\ saleTotal (selectedItem None (first :: rest)) qty = StockItem.price first * qty
  /\ selectedItem (Some chosen) stockItems = None
  /\ handleSubmitSale jsTrim true (selectedItem (Some chosen) stockItems) qty buyerName
       soldAt saleStatus new_id db
     = (db, Some "Pilih item terlebih dulu.").
Proof.
  assert (Hfirst : selectedItem None (first :: rest) = Some first).
  { unfold selectedItem, effectiveSelectedStockId. cbn. rewrite Z.eqb_refl. reflexivity. }
  assert (Hnone : selectedItem (Some chosen) stockItems = None).
  { unfold selectedItem, effectiveSelectedStockId.
    destruct (List.find _ stockItems) as [found|] eqn:Hfind; [|reflexivity].
    apply find_some in Hfind as [Hin Hid]. apply Z.eqb_eq in Hid.
    exfalso. exact (Hstale found Hin Hid). }
  split; [exact Hfirst|]. split; [reflexivity|]. split; [reflexivity|].
  split; [rewrite Hfirst; reflexivity|]. split; [exact Hnone|].
  rewrite Hnone. reflexivity.
Qed.

Lemma selectedItem_default_and_stale_witness :
  let item := StockItem.mk 7 "Gelang" 10000 5 None 0 in
  let db := Db.mk {[ 7 := item; 8 := StockItem.mk 8 "Pin" 5000 5 None 0 ]} [] in
  selectedItem (Some 8) [item] = None
  /\ handleSubmitSale trim true (selectedItem (Some 8) [item]) 1 "" 0 lunas 1 db
     = (db, Some "Pilih item terlebih dulu.").
Proof.
  cbv zeta.
  destruct (selectedItem_default_and_stale trim (StockItem.mk 7 "Gelang" 10000 5 None 0) []
              8 [StockItem.mk 7 "Gelang" 10000 5 None 0] 1 "" 0 lunas 1
              (Db.mk {[ 7 := StockItem.mk 7 "Gelang" 10000 5 None 0;
                        8 := StockItem.mk 8 "Pin" 5000 5 None 0 ]} []))
    as (_ & _ & _ & _ & Hnone & Hsubmit).
  { intros item [<-|[]]. simpl. lia. }
  split; [exact Hnone|exact Hsubmit].
Defined.

(** * Redirects *)

(** X27.  The redirects do not loop and do not act while the session is
    loading: a visitor who is sent to a page is not sent on from that
    page.  A visitor without session stays exactly on the public pages
    "/login", "/store" and "/" and is sent to "/login" from any other
    page; a visitor with a session is sent on only from "/login", to
    "/dashboard". *)
Theorem redirect_settles (isAuthenticated : bool) (pathname : string) :
  redirect true isAuthenticated pathname = None
  /\ (forall target,
        redirect false isAuthenticated pathname = Some target ->
        redirect false isAuthenticated target = None)
  /\ (redirect false false pathname = None
      <-> pathname = "/login" \/ pathname = "/store" \/ pathname = "/")
  /\ (redirect false false pathname <> None -> redirect false false pathname = Some "/login")
  /\ (redirect false true pathname
      = if String.eqb pathname "/login" then Some "/dashboard" else None).
Proof.
  split; [reflexivity|]. split; [|split; [|split]].
  - intros target. unfold redirect at 1.
    destruct isAuthenticated; cbn [negb andb].
    + destruct (String.eqb pathname "/login"); intros H; inversion H; reflexivity.
    + destruct (negb _); intros H; inversion H; reflexivity.
  - unfold redirect. cbn [negb andb].
    destruct (String.eqb pathname "/login") eqn:E1;
      [apply String.eqb_eq in E1; cbn; tauto|].
    destruct (String.eqb pathname "/store") eqn:E2;
      [apply String.eqb_eq in E2; cbn; tauto|].
    destruct (String.eqb pathname "/") eqn:E3;
      [apply String.eqb_eq in E3; cbn; tauto|].
    apply String.eqb_neq in E1, E2, E3. cbn.
    split; [discriminate|tauto].
  - unfold redirect. cbn [negb andb]. destruct (negb _); [reflexivity|].
    intros H. contradiction H. reflexivity.
  - unfold redirect. cbn [negb andb].
    destruct (String.eqb pathname "/login"); reflexivity.
Qed.

Lemma redirect_settles_witness :
  redirect false false "/dashboard" = Some "/login"
  /\ redirect false false "/login" = None
  /\ redirect false true "/login" = Some "/dashboard"
  /\ redirect false true "/dashboard" = None.
Proof.
  split; [reflexivity|].
  split; [exact (proj1 (proj2 (redirect_settles false "/dashboard")) "/login" eq_refl)|].
  split; [reflexivity|].
  exact (proj1 (proj2 (redirect_settles true "/login")) "/dashboard" eq_refl).
Defined.

(** * Dismissing the install prompt *)

(** X28.  A dismissal holds for seven days.  When the stored text reads
    back as the number that was stored, the prompt counts as dismissed at
    every time up to seven days after the dismissal and the mark stays;
    at any later time it does not count as dismissed and the mark is
    removed.  With nothing stored, or an empty text, the prompt is not
    dismissed. *)
Theorem dismissal_lasts_seven_days
    (Number : string -> option Z) (dismissedAt now : Timestamp)
    (expiryText : string)
    (Hstored : setDismissed dismissedAt = Some expiryText)
    (Hnonempty : expiryText <> "")
    (Hread : Number expiryText = Some (dismissedAt + 604800000)) :
  (now <= dismissedAt + 604800000 ->
   isDismissed Number true now (setDismissed dismissedAt)
   = (true, setDismissed dismissedAt))
  /\ (dismissedAt + 604800000 < now ->
      isDismissed Number true now (setDismissed dismissedAt) = (false, None))
  /\ isDismissed Number true now None = (false, None)
  /\ isDismissed Number true now (Some "") = (false, Some "").
Proof.
  rewrite Hstored. unfold isDismissed. cbn [negb].
  apply String.eqb_neq in Hnonempty. rewrite Hnonempty, Hread.
  split; [|split; [|split; reflexivity]].
  - intros Hle. apply Z.ltb_ge in Hle. rewrite Hle. reflexivity.
  - intros Hlt. apply Z.ltb_lt in Hlt. rewrite Hlt. reflexivity.
Qed.

Lemma dismissal_lasts_seven_days_witness :
  let Number := fun _ : string => Some 604800005 in
  isDismissed Number true 604800005 (setDismissed 5) = (true, setDismissed 5)
  /\ isDismissed Number true 604800006 (setDismissed 5) = (false, None).
Proof.
  cbv zeta.
  destruct (dismissal_lasts_seven_days (fun _ => Some 604800005) 5 604800005 "604800005"
              ltac:(vm_compute; reflexivity) ltac:(discriminate) eq_refl) as (Hkeep & _).
  destruct (dismissal_lasts_seven_days (fun _ => Some 604800005) 5 604800006 "604800005"
              ltac:(vm_compute; reflexivity) ltac:(discriminate) eq_refl) as (_ & Hdrop & _).
  split; [apply Hkeep; lia|apply Hdrop; lia].
Defined.

(** * The listing of the public store *)

Lemma map_snd_Permutation {A B : Type} (l1 l2 : list (A * B)) :
  Permutation l1 l2 -> Permutation (List.map snd l1) (List.map snd l2).
Proof. apply Permutation_map. Qed.

(** X29.  The public store never lists the anchor of the capital
    entries and lists every other stock item, latest first.  A capital
    entry, also the first one, which creates the anchor, leaves the
    listing with the same items. *)
Theorem loadItems_never_lists_the_anchor
    (db : Db.t) (items : list StockItem.t) (gen : Generated) (amount : option Z)
    (date : Timestamp)
    (Hfresh : Db.stock_items db !! new_stock_item_id gen = None) :
  Forall (fun item => StockItem.name item <> "SYSTEM_MODAL_DONOTDELETE")
    (loadItems true db items)
  /\ (forall k item,
        Db.stock_items db !! k = Some item ->
        StockItem.name item <> "SYSTEM_MODAL_DONOTDELETE" ->
        In item (loadItems true db items))
  /\ StronglySorted (fun a b => StockItem.created_at b <= StockItem.created_at a)
       (loadItems true db items)
  /\ Permutation
       (loadItems true (handleSubmitModal true amount date gen db).1 items)
       (loadItems true db items)
  /\ loadItems false db items = items.
Proof.
  set (visible := fun item : StockItem.t =>
                    negb (String.eqb (StockItem.name item) "SYSTEM_MODAL_DONOTDELETE")).
  assert (Hperm : forall d, Permutation (loadItems true d items)
                    (List.filter visible (List.map snd (map_to_list (Db.stock_items d)))))
    by (intros d; apply sort_Permutation).
  split; [|split; [|split; [|split; [|reflexivity]]]].
  - apply (Permutation_Forall (Permutation_sym (Hperm db))).
    apply List.Forall_forall. intros item Hin. apply filter_In in Hin as [_ Hv].
    apply negb_true_iff, String.eqb_neq in Hv. exact Hv.
  - intros k item Hk Hname. apply (Permutation_in _ (Permutation_sym (Hperm db))).
    apply filter_In. split.
    + apply in_map_iff. exists (k, item). split; [reflexivity|].
      apply list_elem_of_In, elem_of_map_to_list. exact Hk.
    + apply negb_true_iff, String.eqb_neq. exact Hname.
  - apply sort_StronglySorted; intros; lia.
  - rewrite (Hperm db), (Hperm _).
    assert (Hitems : Db.stock_items (handleSubmitModal true amount date gen db).1
                     = Db.stock_items db
                       \/ Db.stock_items (handleSubmitModal true amount date gen db).1
                          = <[new_stock_item_id gen :=
                                StockItem.mk (new_stock_item_id gen) "SYSTEM_MODAL_DONOTDELETE"
                                  0 0 None (created_now gen)]> (Db.stock_items db)).
    { unfold handleSubmitModal. cbn [negb].
      destruct amount as [a|]; [|left; reflexivity].
      destruct (a <=? 0); [left; reflexivity|].
      rewrite getSystemModalId_unfold.
      destruct (List.filter isAnchorRow _) as [|[k existing] [|second more]];
        cbn; tauto. }
    destruct Hitems as [->| ->]; [reflexivity|].
    rewrite (filter_Permutation visible _ _
               (map_snd_Permutation _ _ (map_to_list_insert _ _ _ Hfresh))).
    reflexivity.
Qed.

Lemma loadItems_never_lists_the_anchor_witness :
  let gen := {| new_stock_item_id := 50; new_sale_id := 60; created_now := 9 |} in
  let db := Db.mk {[ 7 := StockItem.mk 7 "Gelang" 10000 5 None 0 ]} [] in
  Db.stock_items db !! 50 = None
  /\ Permutation (loadItems true (handleSubmitModal true (Some 100000) 0 gen db).1 [])
       (loadItems true db []).
Proof.
  cbv zeta.
  assert (Hfresh : Db.stock_items (Db.mk {[ 7 := StockItem.mk 7 "Gelang" 10000 5 None 0 ]} [])
                   !! 50 = None) by (vm_compute; reflexivity).
  split; [exact Hfresh|].
  exact (proj1 (proj2 (proj2 (proj2
           (loadItems_never_lists_the_anchor _ []
              {| new_stock_item_id := 50; new_sale_id := 60; created_now := 9 |}
              (Some 100000) 0 Hfresh))))).
Defined.

(** * The buyer name of a sale *)

Lemma append_associative (a b c : string) :
  String.append (String.append a b) c = String.append a (String.append b c).
Proof.
  induction a as [|x a IH]; [reflexivity|].
  rewrite !append_cons, IH. reflexivity.
Qed.

Lemma rev_app_append (a c : string) :
  String.rev_app a c = String.append (String.rev a) c.
Proof.
  unfold String.rev. revert c. induction a as [|x a IH]; intros c; [reflexivity|].
  cbn [String.rev_app]. rewrite (IH (String x c)), (IH (String x EmptyString)).
  rewrite append_associative. reflexivity.
Qed.

Lemma append_empty (a : string) : String.append a EmptyString = a.
Proof. induction a as [|x a IH]; [reflexivity|]. rewrite append_cons, IH. reflexivity. Qed.

Lemma rev_append (a b : string) :
  String.rev (String.append a b) = String.append (String.rev b) (String.rev a).
Proof.
  induction a as [|x a IH].
  - change (String.append "" b) with b. change (String.rev "") with EmptyString.
    rewrite append_empty. reflexivity.
  - rewrite append_cons. unfold String.rev at 1 3. cbn [String.rev_app].
    rewrite !rev_app_append, IH, append_associative. reflexivity.
Qed.

Lemma rev_involutive (a : string) : String.rev (String.rev a) = a.
Proof.
  induction a as [|x a IH]; [reflexivity|].
  unfold String.rev at 2. cbn [String.rev_app]. rewrite rev_app_append, rev_append, IH.
  reflexivity.
Qed.

Lemma ltrim_no_leading_space (s : string) : startsWithSpace (ltrim s) = false.
Proof.
  induction s as [|c r IH]; [reflexivity|]. simpl.
  destruct (Ascii.eqb c " ") eqn:E; [exact IH|]. simpl. exact E.
Qed.

Lemma ltrim_decompose (s : string) :
  exists n, s = String.append (spaces n) (ltrim s).
Proof.
  induction s as [|c r [n IH]]; [exists O; reflexivity|]. simpl.
  destruct (Ascii.eqb c " ") eqn:E.
  - apply Ascii.eqb_eq in E. subst c. exists (S n).
    cbn [spaces]. rewrite append_cons, <- IH. reflexivity.
  - exists O. reflexivity.
Qed.

Lemma rev_spaces (n : nat) : String.rev (spaces n) = spaces n.
Proof.
  induction n as [|n IH]; [reflexivity|].
  cbn [spaces]. unfold String.rev. cbn [String.rev_app].
  rewrite rev_app_append, IH.
  clear IH. induction n as [|n IH]; [reflexivity|].
  cbn [spaces]. rewrite append_cons, IH. reflexivity.
Qed.

Lemma startsWithSpace_prefix (a b : string) :
  startsWithSpace (String.append a b) = false -> startsWithSpace a = false.
Proof. destruct a as [|c a]; [reflexivity|]. rewrite append_cons. simpl. tauto. Qed.

Lemma trim_no_space_at_the_ends (s : string) :
  startsWithSpace (trim s) = false /\ endsWithSpace (trim s) = false.
Proof.
  unfold trim, endsWithSpace. rewrite rev_involutive.
  split; [|apply ltrim_no_leading_space].
  destruct (ltrim_decompose (String.rev (ltrim s))) as [n Hn].
  apply (f_equal String.rev) in Hn.
  rewrite rev_involutive, rev_append, rev_spaces in Hn.
  apply (startsWithSpace_prefix _ (spaces n)). rewrite <- Hn.
  apply ltrim_no_leading_space.
Qed.

Lemma trim_spaces (n : nat) : trim (spaces n) = EmptyString.
Proof.
  assert (H : ltrim (spaces n) = EmptyString)
    by (induction n as [|n IH]; [reflexivity|exact IH]).
  unfold trim. rewrite H. reflexivity.
Qed.

(** X30.  A sale row made by [create_sale] never has an empty buyer name
    or one with a space at either end: the buyer name is stored without
    the spaces around it, and a name that is missing, empty or all spaces
    is stored as no name. *)
Theorem create_sale_normalizes_buyer
    (new_id p_stock_item_id p_qty : Z) (p_buyer_name : option string)
    (p_sold_at : Timestamp) (p_status : option string) (db db' : Db.t) (row : Sale.t)
    (Hmade : create_sale new_id p_stock_item_id p_qty p_buyer_name p_sold_at p_status db
             = (db', inr row)) :
  Sale.buyer_name row <> Some ""
  /\ (forall buyer, Sale.buyer_name row = Some buyer ->
        startsWithSpace buyer = false /\ endsWithSpace buyer = false
        /\ exists given, p_buyer_name = Some given /\ buyer = trim given)
  /\ (p_buyer_name = None -> Sale.buyer_name row = None)
  /\ (forall n, p_buyer_name = Some (spaces n) -> Sale.buyer_name row = None).
Proof.
  rewrite create_sale_cases in Hmade.
  destruct (negb (in_bigint p_stock_item_id)); [discriminate|].
  destruct (negb (in_integer p_qty)); [discriminate|].
  destruct (p_qty <=? 0); [discriminate|].
  destruct (Db.stock_items db !! p_stock_item_id) as [item|]; [|discriminate].
  destruct (StockItem.stock item <? p_qty); [discriminate|].
  destruct (negb (in_numeric_14_2 _)); [discriminate|].
  destruct (status_of_text _); [|discriminate].
  inversion Hmade; subst. cbn [Sale.buyer_name].
  unfold nullif_trim.
  split; [|split; [|split]].
  - destruct p_buyer_name as [given|]; [|discriminate].
    destruct (String.eqb (trim given) "") eqn:E; [discriminate|].
    apply String.eqb_neq in E. congruence.
  - intros buyer Hbuyer. destruct p_buyer_name as [given|]; [|discriminate].
    destruct (String.eqb (trim given) ""); [discriminate|].
    inversion Hbuyer; subst.
    destruct (trim_no_space_at_the_ends given) as [H1 H2].
    split; [exact H1|]. split; [exact H2|]. exists given. split; reflexivity.
  - intros ->. reflexivity.
  - intros n ->. rewrite trim_spaces. reflexivity.
Qed.

Lemma create_sale_normalizes_buyer_witness :
  let db := Db.mk {[ 7 := StockItem.mk 7 "Gelang" 10000 5 None 0 ]} [] in
  exists db' row,
    create_sale 1 7 3 (Some "  Budi Santoso ") 0 None db = (db', inr row)
    /\ Sale.buyer_name row = Some "Budi Santoso"
    /\ Sale.buyer_name row <> Some "".
Proof.
  cbv zeta.
  destruct (create_sale 1 7 3 (Some "  Budi Santoso ") 0 None
              (Db.mk {[ 7 := StockItem.mk 7 "Gelang" 10000 5 None 0 ]} []))
    as [db' [msg|row]] eqn:Hrun; [vm_compute in Hrun; discriminate Hrun|].
  exists db', row. split; [reflexivity|].
  split; [vm_compute in Hrun; inversion Hrun; reflexivity|].
  exact (proj1 (create_sale_normalizes_buyer _ _ _ _ _ _ _ _ _ Hrun)).
Defined.

(** * The metrics on whole amounts and on doubles *)

(** On whole amounts that the doubles carry, and as long as the running
    sums stay within 2^53 in absolute value, the sums of the page are the
    sums over [Z], and [profit] is their difference. *)
Lemma metrics_on_whole_amounts
    (jsSales : list Js.Sale.t) (sales : list Sale.t)
    (jsExpenses : list Js.Expense.t) (expenses : list Expense.t) :
  Forall2 sameSale jsSales sales ->
  Forall2 sameExpense jsExpenses expenses ->
  runningSumsFit 0 (List.map Sale.total_price sales) = true ->
  runningSumsFit 0 (List.map Expense.total_cost expenses) = true ->
  runningSumsFit 0 (List.map Sale.total_price (List.filter is_unpaid sales)) = true ->
  let double := Js.metrics jsSales jsExpenses in
  let whole := metrics sales expenses in
  Js.totalSales double = totalSales whole
  /\ carries (Js.totalRevenue double) (totalRevenue whole)
  /\ carries (Js.totalExpenses double) (totalExpenses whole)
  /\ carries (Js.piutang double) (piutang whole)
  /\ (Z.abs (profit whole) <= 2 ^ 53 -> carries (Js.profit double) (profit whole)).
Proof.
  intros Hsales Hexpenses Hrevenue Hcosts Hunpaid. cbv zeta.
  assert (H1 : carries (Js.totalRevenue (Js.metrics jsSales jsExpenses))
                 (totalRevenue (metrics sales expenses))).
  { rewrite Js_totalRevenue_fold, totalRevenue_sum.
    refine (whole_sums _ _ _ _ 0 carries_zero Hrevenue).
    clear -Hsales. induction Hsales as [|js s l l' [H _] _ IH]; constructor; assumption. }
  assert (H2 : carries (Js.totalExpenses (Js.metrics jsSales jsExpenses))
                 (totalExpenses (metrics sales expenses))).
  { rewrite Js_totalExpenses_fold, totalExpenses_sum.
    refine (whole_sums _ _ _ _ 0 carries_zero Hcosts).
    clear -Hexpenses. induction Hexpenses as [|js e l l' H _ IH]; constructor; assumption. }
  split; [|split; [exact H1|split; [exact H2|split]]].
  - unfold Js.metrics, metrics. cbn [Js.totalSales totalSales].
    f_equal. clear -Hsales. induction Hsales; cbn [length]; congruence.
  - rewrite Js_piutang_fold.
    assert (Hwhole : piutang (metrics sales expenses)
                     = sumZ (List.map Sale.total_price (List.filter is_unpaid sales))).
    { unfold metrics. cbn [piutang]. rewrite reduce_add. reflexivity. }
    rewrite Hwhole. refine (whole_sums _ _ _ _ 0 carries_zero Hunpaid).
    clear -Hsales. unfold unpaidTotals.
    induction Hsales as [|js s l l' [H Hstatus] _ IH]; cbn [List.filter List.map];
      [constructor|].
    unfold is_unpaid. rewrite Hstatus.
    destruct (SaleStatus_eqb (Sale.status s) belum_bayar); cbn [List.map];
      [constructor; assumption|assumption].
  - intros Hfit. rewrite profit_difference in *.
    change (Js.profit (Js.metrics jsSales jsExpenses))
      with (Js.totalRevenue (Js.metrics jsSales jsExpenses)
            - Js.totalExpenses (Js.metrics jsSales jsExpenses))%float.
    apply carried_sub; assumption.
Qed.

Example whole_amounts_scenario :
  let jsSales := [Js.Sale.mk 1 0 None "a" 50000 1 50000 None lunas;
                  Js.Sale.mk 2 0 None "b" 20000 1 20000 None belum_bayar] in
  let sales := [Sale.mk 1 0 None "a" 50000 1 50000 None lunas;
                Sale.mk 2 0 None "b" 20000 1 20000 None belum_bayar] in
  Forall2 sameSale jsSales sales
  /\ carries (Js.totalRevenue (Js.metrics jsSales [])) 70000
  /\ carries (Js.piutang (Js.metrics jsSales [])) 20000.
Proof.
  cbv zeta. split; [|split; vm_compute; reflexivity].
  repeat constructor.
Qed.
